(** * ollama_run.py: a shallow embedding and its checked properties

    The script enumerates the PDF files of a folder, rasterises every page
    to a PNG (PyMuPDF), pipes a prompt naming each PNG to the [ollama]
    command line and collects the answers in one results file per PDF.

    The embedding follows the source function by function.  Python [str]
    values are lists of Unicode code points, [os.path] is [posixpath], the
    file system is a finite map from resolved paths to nodes, and every
    call that leaves the interpreter (file system, PyMuPDF, subprocess) is
    recorded in a trace.  What the outside world answers is a parameter of
    the development.  [select_llm_model] reads the terminal in a loop: the
    lines of standard input are an argument of its embedding, and Python's
    [int] is a parameter.  The prompt defined at the top of the module,
    which nothing uses, is left out.

    Limits of the model: symbolic links, permissions and the Windows flavour
    of [os.path] are not modelled; external processes do not touch the file
    system; the exceptions are those deriving from [Exception].  Standard
    output takes every string: where a theorem depends on it, the lines
    printed are required, or shown, to be encodable, which is what a strict
    UTF-8 terminal asks.  [Pixmap.save] is modelled as creating the file,
    so a directory at its target is an error, while MuPDF removes the
    target first and so replaces an empty directory: the statements about
    rasterisation that promise an outcome exclude a directory at a page
    name.  Paths are resolved lexically: [x/..] does not ask for [x] to
    exist, and the empty path is the working directory. *)

From Stdlib Require Import ZArith NArith Decimal DecimalNat.
From Stdlib Require Import Strings.String Strings.Ascii.
From stdpp Require Import base list gmap sorting.

(** ** Python strings *)

Module PyStr.

(** A [str] is a sequence of code points. *)
Definition char := N.
Definition str := list char.

(** An ASCII literal of the source as a [str]. *)
Definition py (s : String.string) : str :=
  map Ascii.N_of_ascii (String.list_ascii_of_string s).
Arguments py s%_string : simpl never.

(** [s.endswith(suffix)]: the last [len(suffix)] code points of [s] are
    [suffix]. *)
Definition endswith (s suffix : str) : bool :=
  bool_decide (length suffix ≤ length s) &&
  bool_decide (drop (length s - length suffix) s = suffix).

(** [s.startswith(prefix)]. *)
Definition startswith (s pre : str) : bool :=
  bool_decide (take (length pre) s = pre).

(** [s.rfind(c)] for a one-character needle: the highest index holding
    [c]; Python's [-1] is [None] here and [idx] gives the integer back. *)
Fixpoint rfind (c : char) (s : str) : option nat :=
  match s with
  | [] => None
  | x :: s' =>
      match rfind c s' with
      | Some i => Some (S i)
      | None => if N.eqb x c then Some 0 else None
      end
  end.

Definition idx (o : option nat) : Z :=
  match o with Some i => Z.of_nat i | None => (-1)%Z end.

(** [s[i:j]] for non-negative [i], [j]. *)
Definition slice (s : str) (i j : nat) : str := drop i (take j s).

(** [str(n)] for a non-negative [int]: its decimal digits. *)
Fixpoint digits (u : Decimal.uint) : str :=
  match u with
  | Decimal.Nil => []
  | Decimal.D0 u => 48%N :: digits u
  | Decimal.D1 u => 49%N :: digits u
  | Decimal.D2 u => 50%N :: digits u
  | Decimal.D3 u => 51%N :: digits u
  | Decimal.D4 u => 52%N :: digits u
  | Decimal.D5 u => 53%N :: digits u
  | Decimal.D6 u => 54%N :: digits u
  | Decimal.D7 u => 55%N :: digits u
  | Decimal.D8 u => 56%N :: digits u
  | Decimal.D9 u => 57%N :: digits u
  end.

Definition str_of_nat (n : nat) : str := digits (Nat.to_uint n).

(** [str.isspace] on one code point: the Unicode white space of CPython
    (bidirectional type WS, B or S, or category Zs). *)
Definition isspace (c : char) : bool :=
  ((9 <=? c) && (c <=? 13) || (28 <=? c) && (c <=? 32) ||
   (c =? 133) || (c =? 160) || (c =? 5760) ||
   (8192 <=? c) && (c <=? 8202) || (c =? 8232) || (c =? 8233) ||
   (c =? 8239) || (c =? 8287) || (c =? 12288))%N.

(** The line boundaries of [str.splitlines]: LF, VT, FF, CR, FS, GS, RS,
    NEL, LS and PS. *)
Definition is_linebreak (c : char) : bool :=
  ((10 <=? c) && (c <=? 13) || (28 <=? c) && (c <=? 30) ||
   (c =? 133) || (c =? 8232) || (c =? 8233))%N.

(** [s.splitlines()]: cut at every line boundary, CR LF counting as one,
    boundaries dropped, no empty last line.  [cur] holds the current line
    in reverse. *)
Fixpoint splitlines_from (cur : str) (s : str) : list str :=
  match s with
  | [] => match cur with [] => [] | _ => [rev cur] end
  | c :: s' =>
      if is_linebreak c then
        rev cur ::
          match s' with
          | c' :: s'' =>
              if (c =? 13)%N && (c' =? 10)%N then splitlines_from [] s''
              else splitlines_from [] s'
          | [] => splitlines_from [] s'
          end
      else splitlines_from (c :: cur) s'
  end.

Definition splitlines (s : str) : list str := splitlines_from [] s.

(** [s.split()] without arguments: the maximal runs of non-space code
    points.  [cur] holds the current run in reverse. *)
Fixpoint split_from (cur : str) (s : str) : list str :=
  match s with
  | [] => match cur with [] => [] | _ => [rev cur] end
  | c :: s' =>
      if isspace c then
        match cur with
        | [] => split_from [] s'
        | _ => rev cur :: split_from [] s'
        end
      else split_from (c :: cur) s'
  end.

Definition split (s : str) : list str := split_from [] s.

(** [s.lstrip()], [s.rstrip()] and [s.strip()]. *)
Fixpoint lstrip (s : str) : str :=
  match s with
  | c :: s' => if isspace c then lstrip s' else s
  | [] => []
  end.

Definition rstrip (s : str) : str := rev (lstrip (rev s)).
Definition strip (s : str) : str := rstrip (lstrip s).

(** [s.encode("utf-8")] succeeds: [s] holds no surrogate code point
    (U+D800 to U+DFFF), as the names [os.listdir] gives for file names that
    are not UTF-8 do. *)
Definition is_surrogate (c : char) : bool := ((55296 <=? c) && (c <=? 57343))%N.
Definition encodable (s : str) : bool := forallb (fun c => negb (is_surrogate c)) s.

(** Truth value of a [str]: non-empty. *)
Definition truthy (s : str) : bool :=
  match s with [] => false | _ => true end.

(** The order of [str]: lexicographic on code points, a proper prefix
    first.  [str_leb a b] is [a <= b]. *)
Fixpoint str_leb (a b : str) : bool :=
  match a, b with
  | [], _ => true
  | _ :: _, [] => false
  | x :: a', y :: b' =>
      if (x <? y)%N then true
      else if (y <? x)%N then false
      else str_leb a' b'
  end.

Definition str_le (a b : str) : Prop := str_leb a b = true.

Global Instance str_le_dec a b : Decision (str_le a b).
Proof. unfold str_le. apply _. Defined.

(** [sorted(l)] on a list of [str].  The order is total and antisymmetric,
    so the sorted arrangement of a list is unique and any sorting function
    computes what Python's does. *)
Definition sorted (l : list str) : list str := merge_sort str_le l.

End PyStr.
Export PyStr.

(** ** posixpath *)

Module PosixPath.

Definition sep : char := 47%N.
Definition extsep : char := 46%N.

(** [os.path.join(a, b)]. *)
Definition join (a b : str) : str :=
  if startswith b [sep] then b
  else if negb (truthy a) || endswith a [sep] then a ++ b
  else a ++ [sep] ++ b.

(** [os.path.basename(p)]: [p[p.rfind('/') + 1:]]. *)
Definition basename (p : str) : str :=
  drop (Z.to_nat (idx (rfind sep p) + 1)) p.

(** [os.path.splitext(p)]: cut at the last dot of the last component,
    unless that component has only dots before it. *)
Definition splitext (p : str) : str * str :=
  let sepIndex := idx (rfind sep p) in
  let dotIndex := idx (rfind extsep p) in
  if (sepIndex <? dotIndex)%Z then
    if forallb (N.eqb extsep)
         (slice p (Z.to_nat (sepIndex + 1)) (Z.to_nat dotIndex))
    then (p, [])
    else (take (Z.to_nat dotIndex) p, drop (Z.to_nat dotIndex) p)
  else (p, []).

(** The components of a path string: the pieces between separators. *)
Fixpoint split_sep (s : str) : list str :=
  match s with
  | [] => [[]]
  | c :: s' =>
      if (c =? sep)%N then [] :: split_sep s'
      else match split_sep s' with
           | h :: t => (c :: h) :: t
           | [] => [[c]]
           end
  end.

(** Path resolution as the kernel does it, without symbolic links: empty
    components and [.] are skipped, [..] steps up. *)
Definition step (at_ : list str) (c : str) : list str :=
  if decide (c = [] ∨ c = py ".") then at_
  else if decide (c = py "..") then removelast at_
  else at_ ++ [c].

Definition walk (from : list str) (comps : list str) : list str :=
  foldl step from comps.

Definition resolve (cwd : list str) (p : str) : list str :=
  walk (if startswith p [sep] then [] else cwd) (split_sep p).

(** A name a directory can hold. *)
Definition plain (n : str) : Prop :=
  (n ≠ []) ∧ (sep ∉ n) ∧ (n ≠ py ".") ∧ (n ≠ py "..").

Global Instance plain_dec n : Decision (plain n).
Proof. unfold plain. apply _. Defined.

End PosixPath.
Export PosixPath.

(** ** The world outside the interpreter *)

Inductive node :=
  | Dir
  | File (data : list N).

(** The exceptions the script can meet; all derive from [Exception]. *)
Inductive exn_class :=
  | FileNotFoundError
  | FileExistsError
  | NotADirectoryError
  | IsADirectoryError
  | IndexError
  | OtherError.

Record exn := Exn { exn_cls : exn_class; exn_msg : str }.

(** [UnicodeEncodeError], one of the other exceptions; the message of
    Python also names the code point and its position. *)
Definition UnicodeEncodeError : exn :=
  Exn OtherError (py "'utf-8' codec can't encode character: surrogates not allowed").

(** [subprocess.CompletedProcess]. *)
Record completed := Completed { returncode : Z; stdout : str; stderr : str }.

(** One entry per call that leaves the interpreter, in program order. *)
Inductive event :=
  | EvMakedirs (path : str)
  | EvListdir (path : str)
  | EvOpenWrite (path : str) (encoding : str)
  | EvWrite (path : str) (text : str)
  | EvFitzOpen (path : str)
  | EvGetPixmap (pdf : str) (page_number : nat) (dpi : Z)
  | EvSave (path : str)
  | EvDocClose (pdf : str)
  | EvRun (args : list str) (input : option str) (encoding : option str)
          (outcome : exn + completed).

Record world := World {
  cwd : list str;
  files : gmap (list str) node;
  console : list str;
  trace : list event
}.

Definition with_files (fs : gmap (list str) node) (w : world) : world :=
  World (cwd w) fs (console w) (trace w).
Definition with_console (c : list str) (w : world) : world :=
  World (cwd w) (files w) c (trace w).
Definition with_trace (t : list event) (w : world) : world :=
  World (cwd w) (files w) (console w) t.

(** What the outside answers.  Each answer may depend on everything that
    happened so far. *)
Record outside := Outside {
  (* the order in which [os.listdir] reports the names of a directory *)
  os_order : list str → list str;
  (* [fitz.open(path)]: the number of pages, or an exception *)
  fitz_open : world → str → exn + nat;
  (* [doc[page_number].get_pixmap(dpi=dpi)]: the image, as the bytes
     [Pixmap.save] writes for it, or an exception *)
  get_pixmap : world → str → nat → Z → exn + list N;
  (* [subprocess.run(args, input=.., stdout=PIPE, stderr=PIPE, text=True,
     encoding=..)] *)
  subprocess_run : world → list str → option str → option str → exn + completed;
  (* [str(e)] of an error raised by the file system *)
  strerror : exn_class → str → str;
  (* [str(models)] of a list of [str] *)
  repr_list : list str → str
}.

(** [os.listdir] reports every name once. *)
Definition listing_ok (E : outside) : Prop := ∀ l, os_order E l ≡ₚ l.

(** ** Computations: state and exceptions *)

Inductive result (A : Type) :=
  | Ok (a : A) (w : world)
  | Raise (e : exn) (w : world).
Arguments Ok {A} a w.
Arguments Raise {A} e w.

Definition M (A : Type) : Type := world → result A.

Definition ret {A} (a : A) : M A := fun w => Ok a w.
Definition bind {A B} (m : M A) (k : A → M B) : M B :=
  fun w => match m w with Ok a w' => k a w' | Raise e w' => Raise e w' end.
Definition raise {A} (e : exn) : M A := fun w => Raise e w.

Declare Scope py_scope.
Delimit Scope py_scope with py_.
Notation "x <- m ;; k" := (bind m (fun x => k))
  (at level 100, m at next level, right associativity) : py_scope.
Notation "m ;; k" := (bind m (fun _ => k))
  (at level 100, right associativity) : py_scope.
Local Open Scope py_scope.

(** [try: m except C as e: h e], [catches] deciding the clause. *)
Definition try_except {A} (m : M A) (catches : exn → bool) (h : exn → M A) : M A :=
  fun w => match m w with
           | Ok a w' => Ok a w'
           | Raise e w' => if catches e then h e w' else Raise e w'
           end.

(** [for x in l: body x]. *)
Fixpoint for_each {A} (l : list A) (body : A → M unit) : M unit :=
  match l with
  | [] => ret tt
  | x :: l' => body x ;; for_each l' body
  end.

Definition world_of {A} (r : result A) : world :=
  match r with Ok _ w => w | Raise _ w => w end.

Definition print (s : str) : M unit :=
  fun w => Ok tt (with_console (console w ++ [s]) w).

Definition log (e : event) : M unit :=
  fun w => Ok tt (with_trace (trace w ++ [e]) w).

(** ** The file system *)

Module FS.

Definition node_at (fs : gmap (list str) node) (p : list str) : option node :=
  match p with [] => Some Dir | _ => fs !! p end.

Definition is_dir (fs : gmap (list str) node) (p : list str) : bool :=
  match node_at fs p with Some Dir => true | _ => false end.

(** [mkdir -p]: every missing directory on the way is created; a file in
    the way is an error. *)
Fixpoint mkdirs (fs : gmap (list str) node) (done todo : list str)
  : exn_class + gmap (list str) node :=
  match todo with
  | [] => inr fs
  | c :: rest =>
      let d := done ++ [c] in
      match fs !! d with
      | None => mkdirs (<[d := Dir]> fs) d rest
      | Some Dir => mkdirs fs d rest
      | Some (File _) =>
          inl (match rest with [] => FileExistsError | _ => NotADirectoryError end)
      end
  end.

(** The name of [p] inside directory [d], when [p] is an entry of [d]. *)
Definition child_name (d p : list str) : option str :=
  if decide (take (length d) p = d) then
    match drop (length d) p with [n] => Some n | _ => None end
  else None.

Definition children (fs : gmap (list str) node) (d : list str) : list str :=
  omap (child_name d) (map_to_list fs).*1.

(** Create or replace the regular file at [p]. *)
Definition create (fs : gmap (list str) node) (p : list str) (data : list N)
  : exn_class + gmap (list str) node :=
  match p with
  | [] => inl IsADirectoryError
  | _ =>
      match node_at fs (removelast p) with
      | None => inl FileNotFoundError
      | Some (File _) => inl NotADirectoryError
      | Some Dir =>
          match fs !! p with
          | Some Dir => inl IsADirectoryError
          | _ => inr (<[p := File data]> fs)
          end
      end
  end.

End FS.

Section Calls.
Variable E : outside.

Definition os_error {A} (c : exn_class) (path : str) : M A :=
  raise (Exn c (strerror E c path)).

(** [os.makedirs(path, exist_ok=True)]. *)
Definition makedirs (path : str) : M unit :=
  log (EvMakedirs path) ;;
  fun w => match FS.mkdirs (files w) [] (resolve (cwd w) path) with
           | inr fs => Ok tt (with_files fs w)
           | inl c => os_error c path w
           end.

(** [os.listdir(path)]. *)
Definition listdir (path : str) : M (list str) :=
  log (EvListdir path) ;;
  fun w => let d := resolve (cwd w) path in
           match FS.node_at (files w) d with
           | Some Dir => Ok (os_order E (FS.children (files w) d)) w
           | Some (File _) => os_error NotADirectoryError path w
           | None => os_error FileNotFoundError path w
           end.

(** [open(path, "w", encoding=encoding)]: the file is created or
    truncated.  The handle is the path it was opened with. *)
Definition open_w (path encoding : str) : M str :=
  log (EvOpenWrite path encoding) ;;
  fun w => match FS.create (files w) (resolve (cwd w) path) [] with
           | inr fs => Ok path (with_files fs w)
           | inl c => os_error c path w
           end.

(** [outfile.write(text)] on a file opened with [encoding="utf-8"]: the
    text is encoded first, which raises [UnicodeEncodeError] before
    anything is written when it holds a surrogate; otherwise [text] goes
    to the end of the file.  Buffering is not modelled: the [with] block
    flushes on every exit. *)
Definition write (outfile text : str) : M unit :=
  if encodable text then
    log (EvWrite outfile text) ;;
    fun w => let p := resolve (cwd w) outfile in
             match files w !! p with
             | Some (File data) =>
                 Ok tt (with_files (<[p := File (data ++ text)]> (files w)) w)
             | _ => os_error OtherError outfile w
             end
  else raise UnicodeEncodeError.

(** [fitz.open(pdf_path)]; the document is known by its page count. *)
Definition fitz_open_ (pdf_path : str) : M nat :=
  fun w => let w' := with_trace (trace w ++ [EvFitzOpen pdf_path]) w in
           match fitz_open E w pdf_path with
           | inr n => Ok n w'
           | inl e => Raise e w'
           end.

(** [doc[page_number].get_pixmap(dpi=dpi)]. *)
Definition get_pixmap_ (pdf_path : str) (page_number : nat) (dpi : Z) : M (list N) :=
  fun w => let w' := with_trace (trace w ++ [EvGetPixmap pdf_path page_number dpi]) w in
           match get_pixmap E w pdf_path page_number dpi with
           | inr pix => Ok pix w'
           | inl e => Raise e w'
           end.

(** [pix.save(path)]. *)
Definition pix_save (pix : list N) (path : str) : M unit :=
  log (EvSave path) ;;
  fun w => match FS.create (files w) (resolve (cwd w) path) pix with
           | inr fs => Ok tt (with_files fs w)
           | inl c => os_error c path w
           end.

(** [doc.close()]. *)
Definition doc_close (pdf_path : str) : M unit := log (EvDocClose pdf_path).

(** [subprocess.run(args, input=input, stdout=PIPE, stderr=PIPE,
    text=True, encoding=encoding)]. *)
Definition run (args : list str) (input encoding : option str) : M completed :=
  fun w => let r := subprocess_run E w args input encoding in
           let w' := with_trace (trace w ++ [EvRun args input encoding r]) w in
           match r with
           | inr c => Ok c w'
           | inl e => Raise e w'
           end.

End Calls.

(** ** The script *)

Section Script.
Variable E : outside.

Definition is_FileNotFoundError (e : exn) : bool :=
  match exn_cls e with FileNotFoundError => true | _ => false end.

(** [except Exception]: every exception of the model. *)
Definition is_Exception (e : exn) : bool := true.

(** [l[0]]. *)
Definition index0 (l : list str) : M str :=
  match l with
  | x :: _ => ret x
  | [] => raise (Exn IndexError (py "list index out of range"))
  end.

(** [[line.split()[0] for line in lines if line.strip()]]. *)
Fixpoint first_tokens (lines : list str) : M (list str) :=
  match lines with
  | [] => ret []
  | line :: rest =>
      if truthy (strip line) then
        tok <- index0 (split line) ;;
        toks <- first_tokens rest ;;
        ret (tok :: toks)
      else first_tokens rest
  end.

Definition list_llm_models : M (list str) :=
  print (py "Fetching available Llama models...") ;;
  try_except
    (result <- run E [py "ollama"; py "list"] None None ;;
     if negb (returncode result =? 0)%Z then
       print (py "Error listing models: " ++ stderr result) ;;
       ret []
     else
       models <- first_tokens (splitlines (stdout result)) ;;
       print (py "Available models: " ++ repr_list E models) ;;
       ret models)
    is_FileNotFoundError
    (fun _ =>
       print (py "Ollama CLI not found. Ensure it is installed and available in your PATH.") ;;
       ret []).

(** The name of the PNG of page [page_number] (0-based) of [pdf_name]. *)
Definition png_name (pdf_name : str) (page_number : nat) : str :=
  pdf_name ++ py "_page_" ++ str_of_nat (page_number + 1) ++ py ".png".

Definition render_page (pdf_path output_folder pdf_name : str) (len_doc page_number : nat)
  : M unit :=
  print (py "Rendering page " ++ str_of_nat (page_number + 1) ++ py " of "
           ++ str_of_nat len_doc ++ py "...") ;;
  pix <- get_pixmap_ E pdf_path page_number 300 ;;
  let output_file := join output_folder (png_name pdf_name page_number) in
  pix_save E pix output_file.

Definition convert_pdf_pages_to_png (pdf_path output_folder : str) : M bool :=
  try_except
    (print (py "Converting PDF '" ++ pdf_path ++ py "' into PNGs...") ;;
     len_doc <- fitz_open_ E pdf_path ;;
     let pdf_name := fst (splitext (basename pdf_path)) in
     for_each (seq 0 len_doc)
       (render_page pdf_path output_folder pdf_name len_doc) ;;
     doc_close pdf_path ;;
     print (py "PDF '" ++ pdf_path ++ py "' successfully converted to PNGs.") ;;
     ret true)
    is_Exception
    (fun e =>
       print (py "Error converting " ++ pdf_path ++ py " to PNG: " ++ exn_msg e) ;;
       ret false).

(** The request a page is sent with. *)
Definition request (prompt page_path : str) : str :=
  prompt ++ (py " File: " ++ page_path).

(** The body of the loop over the entries of the per-document folder. *)
Definition process_page (model prompt pdf_output_folder outfile page_filename : str)
  : M unit :=
  if endswith page_filename (py ".png") then
    let page_path := join pdf_output_folder page_filename in
    print (py "Processing PNG: " ++ page_filename ++ py " using model '" ++ model ++ py "'...") ;;
    try_except
      (result <- run E [py "ollama"; py "run"; model]
                   (Some (request prompt page_path)) (Some (py "utf-8")) ;;
       if negb (returncode result =? 0)%Z then
         print (py "Error processing " ++ page_filename ++ py ": " ++ stderr result) ;;
         write E outfile (py "Error processing " ++ page_filename ++ py ": "
                            ++ stderr result ++ [10%N])
       else
         print (py "Successfully processed " ++ page_filename) ;;
         write E outfile (stdout result ++ [10%N]))
      is_FileNotFoundError
      (fun _ =>
         print (py "Ollama CLI not found. Ensure it is installed and available in your PATH.") ;;
         write E outfile (py "Error processing " ++ page_filename
                            ++ py ": Ollama CLI not found" ++ [10%N]))
  else ret tt.

(** The [with open(...)] block of one document. *)
Definition extract_pages (model prompt pdf_output_folder pdf_output_file : str) : M unit :=
  outfile <- open_w E pdf_output_file (py "utf-8") ;;
  names <- listdir E pdf_output_folder ;;
  for_each (sorted names)
    (process_page model prompt pdf_output_folder outfile).

(** The body of the loop over the entries of the input folder. *)
Definition process_entry (folder_path model prompt output_folder filename : str) : M unit :=
  if endswith filename (py ".pdf") then
    let pdf_path := join folder_path filename in
    let pdf_name := fst (splitext filename) in
    let pdf_output_folder := join output_folder pdf_name in
    makedirs E pdf_output_folder ;;
    let pdf_output_file := join pdf_output_folder (pdf_name ++ py "_results.txt") in
    print (py "Processing PDF: " ++ filename) ;;
    ok <- convert_pdf_pages_to_png pdf_path pdf_output_folder ;;
    (if ok : bool then extract_pages model prompt pdf_output_folder pdf_output_file
     else ret tt) ;;
    print (py "Finished processing PDF: " ++ filename)
  else ret tt.

Definition pdf_to_text (folder_path model prompt : str) : M unit :=
  let output_folder := join folder_path (py "converted_pngs") in
  makedirs E output_folder ;;
  print (py "Starting PDF-to-text conversion...") ;;
  entries <- listdir E folder_path ;;
  for_each entries (process_entry folder_path model prompt output_folder) ;;
  print (py "All PDFs processed successfully!").

End Script.

(** ** Observations *)

(** What a computation added to the trace. *)
Definition new_events (w w' : world) : list event :=
  drop (length (trace w)) (trace w').

(** The path an event writes to, for the events that change a file. *)
Definition touched_path (ev : event) : option str :=
  match ev with
  | EvSave p | EvOpenWrite p _ | EvWrite p _ => Some p
  | _ => None
  end.

Definition touched (cwd : list str) (evs : list event) : list (list str) :=
  omap (fun ev => resolve cwd <$> touched_path ev) evs.

(** The texts written to [outfile], in order: its blocks. *)
Definition blocks_of (outfile : str) (evs : list event) : list str :=
  omap (fun ev => match ev with
                  | EvWrite p text => if decide (p = outfile) then Some text else None
                  | _ => None
                  end) evs.

(** For every block written to [outfile], the request it answers: the
    input of the latest model invocation before it. *)
Fixpoint block_pages (outfile : str) (last : option str) (evs : list event)
  : list (option str) :=
  match evs with
  | [] => []
  | EvRun _ input _ _ :: evs' => block_pages outfile input evs'
  | EvWrite p _ :: evs' =>
      if decide (p = outfile) then last :: block_pages outfile last evs'
      else block_pages outfile last evs'
  | _ :: evs' => block_pages outfile last evs'
  end.

(** The block a page contributes, by the outcome of its invocation; no
    block when the exception is not the one the script handles. *)
Definition block_of (page_filename : str) (r : exn + completed) : option str :=
  match r with
  | inr c =>
      if negb (returncode c =? 0)%Z
      then Some (py "Error processing " ++ page_filename ++ py ": " ++ stderr c ++ [10%N])
      else Some (stdout c ++ [10%N])
  | inl e =>
      if is_FileNotFoundError e
      then Some (py "Error processing " ++ page_filename ++ py ": Ollama CLI not found" ++ [10%N])
      else None
  end.

(** The events of rasterising [pdf_path] into [output_folder]. *)
Definition raster_event (pdf_path output_folder : str) (ev : event) : Prop :=
  match ev with
  | EvFitzOpen p | EvDocClose p => p = pdf_path
  | EvGetPixmap p _ dpi => p = pdf_path ∧ dpi = 300%Z
  | EvSave p =>
      ∃ i, p = join output_folder (png_name (fst (splitext (basename pdf_path))) i)
  | _ => False
  end.

(** The only shape a model invocation of the script can have. *)
Definition page_request (model prompt : str) (ev : event) : Prop :=
  match ev with
  | EvRun args input encoding _ =>
      args = [py "ollama"; py "run"; model] ∧ encoding = Some (py "utf-8") ∧
      ∃ folder name, endswith name (py ".png") = true ∧
                     input = Some (prompt ++ py " File: " ++ join folder name)
  | _ => True
  end.

(** How a world can differ from an earlier one: the trace grows by events
    satisfying [P], directories stay, and a path no event wrote to holds
    what it held, or a directory created on the way. *)
Definition evolves (P : event → Prop) (w w' : world) : Prop :=
  cwd w' = cwd w ∧
  ∃ evs, trace w' = trace w ++ evs ∧ Forall P evs ∧
    (∀ p, files w !! p = Some Dir → files w' !! p = Some Dir) ∧
    (∀ p, p ∉ touched (cwd w) evs →
          files w' !! p = files w !! p ∨
          (files w !! p = None ∧ files w' !! p = Some Dir)).

Definition sound {A} (P : event → Prop) (m : M A) : Prop :=
  ∀ w, evolves P w (world_of (m w)).

(** Every component of every path of the file system is a name. *)
Definition fs_ok (fs : gmap (list str) node) : Prop :=
  map_Forall (fun p _ => Forall plain p) fs.

(** ** The listing of models, in the words of its description *)

(** A line is blank when it holds white space only. *)
Definition blank (line : str) : bool := forallb isspace line.

(** The first white-space-delimited token of a line: skip the leading
    white space, take up to the next white space. *)
Fixpoint token_prefix (s : str) : str :=
  match s with
  | c :: s' => if isspace c then [] else c :: token_prefix s'
  | [] => []
  end.

Definition first_token (line : str) : str := token_prefix (lstrip line).

Definition model_names (out : str) : list str :=
  map first_token (filter (fun line => blank line = false) (splitlines out)).

(** ** The page loop, in the words of its description *)

(** The invocation of the model runner for the page [page_filename]. *)
Definition invocation (model prompt pdf_output_folder page_filename : str)
    (r : exn + completed) : event :=
  EvRun [py "ollama"; py "run"; model]
        (Some (prompt ++ py " File: " ++ join pdf_output_folder page_filename))
        (Some (py "utf-8")) r.

(** What [process_page] prints for a page, by the outcome of its
    invocation. *)
Definition page_lines (model page_filename : str) (r : exn + completed) : list str :=
  (py "Processing PNG: " ++ page_filename ++ py " using model '" ++ model ++ py "'...")
    :: match r with
       | inr c =>
           if negb (returncode c =? 0)%Z
           then [py "Error processing " ++ page_filename ++ py ": " ++ stderr c]
           else [py "Successfully processed " ++ page_filename]
       | inl e =>
           if is_FileNotFoundError e
           then [py "Ollama CLI not found. Ensure it is installed and available in your PATH."]
           else []
       end.


(** ** Rasterisation that fails, in the words of its description *)

(** [raster_failure E pdf_path output_folder w k e we]: started at [w],
    rasterisation wrote the pages before the [k]-th (0-based) and then a
    step raised [e], leaving the world [we]: opening the document ([k = 0])
    or rendering or saving page [k]. *)
Inductive raster_failure (E : outside) (pdf_path output_folder : str) (w : world)
  : nat → exn → world → Prop :=
  | fail_open e :
      let w0 := with_console
                  (console w ++ [py "Converting PDF '" ++ pdf_path ++ py "' into PNGs..."]) w in
      fitz_open E w0 pdf_path = inl e →
      raster_failure E pdf_path output_folder w 0 e
        (with_trace (trace w0 ++ [EvFitzOpen pdf_path]) w0)
  | fail_page n k wk e we :
      let w0 := with_console
                  (console w ++ [py "Converting PDF '" ++ pdf_path ++ py "' into PNGs..."]) w in
      let page := render_page E pdf_path output_folder
                    (fst (splitext (basename pdf_path))) n in
      fitz_open E w0 pdf_path = inr n →
      k < n →
      for_each (seq 0 k) page (with_trace (trace w0 ++ [EvFitzOpen pdf_path]) w0)
        = Ok tt wk →
      page k wk = Raise e we →
      raster_failure E pdf_path output_folder w k e we.

(** [r] is a normal end with value [a]; [r] is the exception [e]. *)
Definition returns {A} (r : result A) (a : A) : Prop :=
  match r with Ok a' _ => a' = a | Raise _ _ => False end.
Definition raises {A} (r : result A) (e : exn) : Prop :=
  match r with Raise e' _ => e' = e | Ok _ _ => False end.

(** The file system a successful operation gives. *)
Definition fs_of (x : exn_class + gmap (list str) node) : gmap (list str) node :=
  match x with inr fs => fs | inl _ => ∅ end.
Definition succeeds (x : exn_class + gmap (list str) node) : Prop :=
  match x with inr _ => True | inl _ => False end.

(** ** The order of the blocks, in the words of its description *)



(** ** A small outside world to run the script in *)

Module Demo.

Inductive runner := Answers | Fails | Missing.

(** The document [d/a.pdf] has one page per element of [pages]; a page [0]
    cannot be rendered.  No other document can be opened. *)
Definition demo_open (pages : list N) (w : world) (path : str) : exn + nat :=
  if decide (path = py "d/a.pdf") then inr (length pages)
  else inl (Exn FileNotFoundError (py "no such file")).

Definition demo_pixmap (pages : list N) (w : world) (path : str) (i : nat) (dpi : Z)
  : exn + list N :=
  match pages !! i with
  | Some 0%N => inl (Exn OtherError (py "cannot render page"))
  | Some page => inr [page; Z.to_N dpi]
  | None => inl (Exn IndexError (py "page not in document"))
  end.

Definition demo_run (r : runner) (w : world) (args : list str)
    (input encoding : option str) : exn + completed :=
  match r with
  | Answers => inr (Completed 0 (py "{}") [])
  | Fails => inr (Completed 1 [] (py "out of memory"))
  | Missing => inl (Exn FileNotFoundError (py "ollama"))
  end.

(** [os.listdir] reports the names in the reverse of the order of the map. *)
Definition demo (pages : list N) (r : runner) : outside :=
  Outside (@reverse str) (demo_open pages) (demo_pixmap pages) (demo_run r)
    (fun _ _ => py "error") (fun _ => py "[...]").

Definition folder : str := py "d".
Definition model : str := py "llama3.2-vision:latest".
Definition prompt : str := py "Extract the invoice.".

(** The folder [d] with [a.pdf] and a text file. *)
Definition start (pdf : list N) : world :=
  World [] (list_to_map [([py "d"], Dir);
                         ([py "d"; py "a.pdf"], File pdf);
                         ([py "d"; py "notes.txt"], File [7%N])]) [] [].

(** The same folder after an earlier run that left a second page. *)
Definition rerun (pdf : list N) : world :=
  World [] (list_to_map [([py "d"], Dir);
                         ([py "d"; py "a.pdf"], File pdf);
                         ([py "d"; py "converted_pngs"], Dir);
                         ([py "d"; py "converted_pngs"; py "a"], Dir);
                         ([py "d"; py "converted_pngs"; py "a"; py "a_page_2.png"],
                          File [9%N]);
                         ([py "d"; py "converted_pngs"; py "a"; py "a_results.txt"],
                          File (py "old text"))]) [] [].

Definition sub : str := py "d/converted_pngs/a".
Definition outfile : str := py "d/converted_pngs/a/a_results.txt".

End Demo.

(** Worlds met on the way, for the runs of the demo. *)
Module DemoRuns.
Import Demo.

Definition top : str := py "d/converted_pngs".
Definition pdf : str := py "d/a.pdf".

(** Two good pages: the folder made, rasterised, extracted. *)
Definition made2 : world := world_of (makedirs (demo [1; 2]%N Answers) sub (start [1; 2]%N)).
Definition raster2 : world :=
  world_of (convert_pdf_pages_to_png (demo [1; 2]%N Answers) pdf sub made2).
Definition pix2 (i : nat) : list N :=
  match i with 0 => [1; 300]%N | _ => [2; 300]%N end.

(** A second page that cannot be rendered. *)
Definition bad : list N := [1; 0; 3]%N.
Definition made_bad : world := world_of (makedirs (demo bad Answers) sub (start bad)).
Definition opened_bad : world :=
  let w0 := with_console
              (console made_bad ++ [py "Converting PDF '" ++ pdf ++ py "' into PNGs..."])
              made_bad in
  with_trace (trace w0 ++ [EvFitzOpen pdf]) w0.
Definition page_bad : nat → M unit :=
  render_page (demo bad Answers) pdf sub (fst (splitext (basename pdf))) 3.
Definition first_bad : world := world_of (for_each (seq 0 1) page_bad opened_bad).
Definition failed_bad : world := world_of (page_bad 1 first_bad).
Definition raster_bad : world :=
  world_of (convert_pdf_pages_to_png (demo bad Answers) pdf sub
              (with_console (console made_bad ++ [py "Processing PDF: " ++ py "a.pdf"])
                 made_bad)).
Definition run_bad : world :=
  world_of (pdf_to_text (demo bad Answers) folder model prompt (start bad)).

End DemoRuns.

(** ** Choosing a model *)

(** [l[i]], with Python's negative indices. *)
Definition index (l : list str) (i : Z) : M str :=
  let n := Z.of_nat (length l) in
  let j := if (i <? 0)%Z then (i + n)%Z else i in
  match (if (0 <=? j)%Z then l !! Z.to_nat j else None) with
  | Some x => ret x
  | None => raise (Exn IndexError (py "list index out of range"))
  end.

(** [EOFError], one of the other exceptions. *)
Definition EOFError : exn := Exn OtherError (py "EOF when reading a line").

Section Select.
(** Python's [int] on a [str]: the integer, or [None] for [ValueError]. *)
Variable int : str → option Z.

(** [input(prompt)] on the lines left on standard input: the prompt is
    written (here: an entry of the console), a line is taken, and the end
    of the input is [EOFError]. *)
Definition input (prompt : str) (stdin : list str) : M (str * list str) :=
  print prompt ;;
  match stdin with
  | line :: rest => ret (line, rest)
  | [] => raise EOFError
  end.

(** The [while True] loop of [select_llm_model], one round per line of
    standard input.  The first two steps of a round are [input(...)];
    [except ValueError] is the [None] of [int]. *)
Fixpoint select_loop (models : list str) (stdin : list str) : M (str * list str) :=
  match stdin with
  | [] => input (py "Enter the number of the model to select: ") []
  | line :: rest =>
      print (py "Enter the number of the model to select: ") ;;
      match int line with
      | Some choice =>
          if (1 <=? choice)%Z && (choice <=? Z.of_nat (length models))%Z then
            shown <- index models (choice - 1) ;;
            print (py "Model selected: " ++ shown) ;;
            selected <- index models (choice - 1) ;;
            ret (selected, rest)
          else
            print (py "Invalid choice. Please select a valid model number.") ;;
            select_loop models rest
      | None =>
          print (py "Please enter a numeric value.") ;;
          select_loop models rest
      end
  end.

(** [select_llm_model(models)], with the lines of standard input; the
    lines left come back with the model. *)
Definition select_llm_model (models : list str) (stdin : list str) : M (str * list str) :=
  print (py "Available Models:") ;;
  for_each (zip (seq 0 (length models)) models)
    (fun '(idx, model) => print (str_of_nat (idx + 1) ++ py ": " ++ model)) ;;
  select_loop models stdin.

(** A line the loop accepts: a number from 1 to the number of models. *)
Definition accepted (models : list str) (line : str) : bool :=
  match int line with
  | Some choice => (1 <=? choice)%Z && (choice <=? Z.of_nat (length models))%Z
  | None => false
  end.

(** What the loop prints for a line it does not accept. *)
Definition rejection (line : str) : str :=
  match int line with
  | Some _ => py "Invalid choice. Please select a valid model number."
  | None => py "Please enter a numeric value."
  end.

End Select.

(** ** The driver *)

Definition dataset_folder : str := py "C:\\Users\\omrha\\Desktop\\projects\\dataset".
Definition output_file : str := join dataset_folder (py "results.txt").

Section Driver.
Variable E : outside.

Definition main : M unit :=
  print (py "Initializing program...") ;;
  let selected_model := py "llama3.2-vision:latest" in
  let llama_prompt :=
    py "Process the following image and return ONLY in JSON format." ++ [10%N]
    ++ py "    Extract relevant key-value pairs for the invoice. Example: {"
    ++ [34%N] ++ py "invoice_number" ++ [34%N] ++ py ": 123456}." in
  pdf_to_text E dataset_folder selected_model llama_prompt ;;
  print (py "Program complete!").

End Driver.

(** ** More observations *)

(** The event writes nowhere but to an entry of a document folder
    [converted_pngs/<stem>] of [folder_path]. *)
Definition writes_under (folder_path : str) (ev : event) : Prop :=
  match touched_path ev with
  | Some p =>
      ∃ stem leaf, ∀ cwd,
        resolve cwd p = resolve cwd folder_path ++ [py "converted_pngs"; stem; leaf]
  | None => True
  end.

(** The same outside with another order of directory listings. *)
Definition with_order (order : list str → list str) (E : outside) : outside :=
  Outside order (fitz_open E) (get_pixmap E) (subprocess_run E)
    (strerror E) (repr_list E).

(** Everything printed between [w] and [w'] can be encoded: a standard
    output that is strict about encoding takes it. *)
Definition prints_well (w w' : world) : Prop :=
  Forall (fun line => encodable line = true) (drop (length (console w)) (console w')).

(** The folders asked of [os.makedirs] and the documents opened, in
    order. *)
Definition folders_made (evs : list event) : list str :=
  omap (fun ev => match ev with EvMakedirs p => Some p | _ => None end) evs.
Definition documents_opened (evs : list event) : list str :=
  omap (fun ev => match ev with EvFitzOpen p => Some p | _ => None end) evs.

(** Neither a folder made nor a document opened. *)
Definition inner (ev : event) : Prop :=
  match ev with EvMakedirs _ | EvFitzOpen _ => False | _ => True end.

(** The call an exception leaves [pdf_to_text] from: a call of the file
    system that failed, or an invocation of the runner that raised
    something else than [FileNotFoundError]. *)
Definition culprit (E : outside) (e : exn) (ev : event) : Prop :=
  match ev with
  | EvMakedirs p | EvListdir p | EvOpenWrite p _ | EvWrite p _ =>
      ∃ c, e = Exn c (strerror E c p)
  | EvRun _ _ _ (inl e') => e' = e ∧ is_FileNotFoundError e = false
  | _ => False
  end.

(** [subprocess.run(..., text=True)] decodes what the process wrote, so
    the captured texts hold no surrogate. *)
Definition decoded (E : outside) : Prop :=
  ∀ w args input encoding c,
    subprocess_run E w args input encoding = inr c →
    encodable (stdout c) = true ∧ encodable (stderr c) = true.

(** Every exception of [m], in a run whose printed lines standard output
    takes, comes with its culprit: the last call made. *)
Definition blames (E : outside) {A} (m : M A) : Prop :=
  ∀ w e w', m w = Raise e w' → prints_well w w' →
            ∃ ev, last (trace w') = Some ev ∧ culprit E e ev.

(** [m] adds lines to the console and takes none away. *)
Definition grows {A} (m : M A) : Prop :=
  ∀ w, ∃ lines, console (world_of (m w)) = console w ++ lines.

Module DemoSelect.

(** [int] on ASCII digits, enough for the demo. *)
Fixpoint digits_value (acc : Z) (s : str) : option Z :=
  match s with
  | [] => Some acc
  | c :: s' =>
      if (48 <=? c)%N && (c <=? 57)%N
      then digits_value (10 * acc + Z.of_N (c - 48)) s'
      else None
  end.

Definition demo_int (s : str) : option Z :=
  match s with [] => None | _ => digits_value 0 s end.

Definition models : list str := [py "llama3:latest"; py "llava:7b"].
Definition empty_world : world := World [] ∅ [] [].

End DemoSelect.

(** The outside of the demo with a runner that may not be executed:
    [subprocess.run] raises [PermissionError], which is not a
    [FileNotFoundError]. *)
Module DemoDenied.

Definition PermissionError : exn := Exn OtherError (py "[Errno 13] Permission denied: 'ollama'").

Definition denied (pages : list N) : outside :=
  Outside (@reverse str) (Demo.demo_open pages) (Demo.demo_pixmap pages)
    (fun _ _ _ _ => inl PermissionError)
    (fun _ _ => py "error") (fun _ => py "[...]").

End DemoDenied.

(** The configured folder with one document of one page and a
    [results.txt] of its own; only this document can be opened. *)
Module DemoDriver.

Definition pdf : str := join dataset_folder (py "a.pdf").

Definition driver : outside :=
  Outside (@reverse str)
    (fun _ path => if decide (path = pdf) then inr 1
                   else inl (Exn FileNotFoundError (py "no such file")))
    (Demo.demo_pixmap [1%N]) (Demo.demo_run Demo.Answers)
    (fun _ _ => py "error") (fun _ => py "[...]").

Definition start : world :=
  World [] (list_to_map [([dataset_folder], Dir);
                         ([dataset_folder; py "a.pdf"], File [1%N]);
                         ([dataset_folder; py "results.txt"], File (py "keep"))]) [] [].

(** The runner was invoked. *)
Definition invoked (evs : list event) : bool :=
  existsb (fun ev => match ev with EvRun _ _ _ _ => true | _ => false end) evs.

End DemoDriver.

(** The folder [d] with a regular file in the way: at [converted_pngs],
    or at the folder of the document [a.pdf]. *)
Module DemoBlocked.

Definition blocked : world :=
  World [] (list_to_map [([py "d"], Dir);
                         ([py "d"; py "a.pdf"], File [1%N]);
                         ([py "d"; py "converted_pngs"], File [])]) [] [].

Definition blocked_doc : world :=
  World [] (list_to_map [([py "d"], Dir);
                         ([py "d"; py "a.pdf"], File [1%N]);
                         ([py "d"; py "b.pdf"], File [2%N]);
                         ([py "d"; py "converted_pngs"], Dir);
                         ([py "d"; py "converted_pngs"; py "a"], File [])]) [] [].

End DemoBlocked.

(** * Proofs *)

(** ** The functions on small inputs *)

Example splitext_pdf : splitext (py "invoice.2024.pdf") = (py "invoice.2024", py ".pdf").
Proof. reflexivity. Qed.

(** A leading dot is not an extension. *)
Example splitext_dotfile : splitext (py ".pdf") = (py ".pdf", []).
Proof. reflexivity. Qed.

Example join_folder : join (py "data") (py "converted_pngs") = py "data/converted_pngs".
Proof. reflexivity. Qed.

Example join_trailing_sep : join (py "data/") (py "a.pdf") = py "data/a.pdf".
Proof. reflexivity. Qed.

Example resolve_dots : resolve [py "home"] (py "a//b/./c/../d/") = [py "home"; py "a"; py "b"; py "d"].
Proof. reflexivity. Qed.

Example png_name_first : png_name (py "a") 0 = py "a_page_1.png".
Proof. reflexivity. Qed.

Example splitlines_crlf :
  splitlines (py "NAME  ID" ++ [13; 10] ++ py "llama3:latest  abc" ++ [10; 10])%N
  = [py "NAME  ID"; py "llama3:latest  abc"; []].
Proof. reflexivity. Qed.

Example split_tokens : split (py "  llama3:latest   abc 4GB ") = [py "llama3:latest"; py "abc"; py "4GB"].
Proof. reflexivity. Qed.

Example model_names_listing :
  model_names (py "NAME  ID" ++ [10] ++ py "llama3:latest  abc" ++ [10] ++ py "   " ++ [10])%N
  = [py "NAME"; py "llama3:latest"].
Proof. reflexivity. Qed.

(** Page 10 sorts before page 2. *)
Example sorted_pages :
  sorted [py "a_page_2.png"; py "a_page_10.png"; py "a_page_1.png"]
  = [py "a_page_1.png"; py "a_page_10.png"; py "a_page_2.png"].
Proof. vm_compute. reflexivity. Qed.

(** Literals stay folded in proofs. *)
Global Opaque py.

(** ** The order of [str] *)

Lemma str_leb_refl a : str_leb a a = true.
Proof. induction a as [|x a IH]; simpl; [done|]. by rewrite N.ltb_irrefl. Qed.

Lemma str_leb_total a b : str_leb a b = true ∨ str_leb b a = true.
Proof.
  revert b. induction a as [|x a IH]; intros [|y b]; simpl; auto.
  destruct (N.ltb_spec x y), (N.ltb_spec y x); auto; lia.
Qed.

Lemma str_leb_antisym a b : str_leb a b = true → str_leb b a = true → a = b.
Proof.
  revert b. induction a as [|x a IH]; intros [|y b]; simpl; try done.
  destruct (N.ltb_spec x y), (N.ltb_spec y x); try done; try lia.
  intros. f_equal; [lia | auto].
Qed.

Lemma str_leb_trans a b c :
  str_leb a b = true → str_leb b c = true → str_leb a c = true.
Proof.
  revert b c. induction a as [|x a IH]; intros [|y b] [|z c]; simpl; try done.
  destruct (N.ltb_spec x y), (N.ltb_spec y x), (N.ltb_spec y z),
    (N.ltb_spec z y), (N.ltb_spec x z), (N.ltb_spec z x);
    try done; try lia; eauto.
Qed.


Global Instance str_le_total : Total str_le.
Proof. intros a b. apply str_leb_total. Qed.
Global Instance str_le_antisym : AntiSymm (=) str_le.
Proof. intros a b. apply str_leb_antisym. Qed.
Global Instance str_le_trans : Transitive str_le.
Proof. intros a b c. apply str_leb_trans. Qed.

(** Sorting forgets the order of its input. *)
Lemma sorted_perm l l' : l ≡ₚ l' → sorted l = sorted l'.
Proof.
  intros H. apply (Sorted_unique str_le); try apply Sorted_merge_sort; try apply _.
  unfold sorted. by rewrite !merge_sort_Permutation.
Qed.

Lemma sorted_of_Sorted l : Sorted str_le l → sorted l = l.
Proof.
  intros H. apply (Sorted_unique str_le); try apply _; [apply Sorted_merge_sort; apply _|done|].
  apply merge_sort_Permutation.
Qed.

Lemma sorted_Permutation l : sorted l ≡ₚ l.
Proof. apply merge_sort_Permutation. Qed.

(** ** Suffixes and prefixes *)

Lemma endswith_app a s : endswith (a ++ s) s = true.
Proof.
  unfold endswith. rewrite length_app.
  rewrite bool_decide_eq_true_2 by lia. simpl.
  apply bool_decide_eq_true_2.
  replace (length a + length s - length s) with (length a) by lia.
  by rewrite drop_app_length.
Qed.

Lemma endswith_app_r a b s :
  length s ≤ length b → endswith (a ++ b) s = endswith b s.
Proof.
  intros H. unfold endswith. rewrite length_app.
  rewrite (bool_decide_eq_true_2 (length s ≤ length a + length b)) by lia.
  rewrite (bool_decide_eq_true_2 (length s ≤ length b)) by lia. simpl.
  replace (length a + length b - length s) with (length a + (length b - length s)) by lia.
  by rewrite drop_app_add.
Qed.

Lemma endswith_inv s suf : endswith s suf = true → ∃ a, s = a ++ suf.
Proof.
  unfold endswith. intros [_ H]%andb_prop.
  apply bool_decide_eq_true in H.
  exists (take (length s - length suf) s).
  rewrite <-H at 2. by rewrite take_drop.
Qed.

Lemma startswith_sep_false b : sep ∉ b → startswith b [sep] = false.
Proof.
  intros H. unfold startswith. apply bool_decide_eq_false.
  destruct b as [|c b]; simpl; [done|].
  rewrite take_0. intros [= ->]. apply H. by left.
Qed.

Lemma startswith_app a b c : a ≠ [] → startswith (a ++ b) [c] = startswith a [c].
Proof. by destruct a. Qed.

(** ** [rfind], [basename], [splitext] *)

Lemma rfind_None c s : c ∉ s → rfind c s = None.
Proof.
  induction s as [|x s IH]; simpl; [done|].
  intros H. rewrite IH by (intros ?; apply H; by right).
  destruct (N.eqb_spec x c) as [->|]; [|done]. destruct H. by left.
Qed.

Lemma rfind_app c a s : c ∉ s → rfind c (a ++ c :: s) = Some (length a).
Proof.
  intros H. induction a as [|x a IH]; simpl.
  - by rewrite rfind_None, N.eqb_refl.
  - by rewrite IH.
Qed.

Lemma rfind_None_inv c s : rfind c s = None → c ∉ s.
Proof.
  induction s as [|x s IH]; simpl; [intros _ H; inv H|].
  destruct (rfind c s); [done|].
  destruct (N.eqb_spec x c) as [->|Hx]; [done|].
  intros _ Hin. apply elem_of_cons in Hin as [->|Hin]; [done|]. by apply IH.
Qed.

Lemma rfind_Some c s i :
  rfind c s = Some i → s !! i = Some c ∧ c ∉ drop (S i) s.
Proof.
  revert i. induction s as [|x s IH]; simpl; [done|].
  intros i. destruct (rfind c s) as [j|] eqn:Hj.
  - intros [= <-]. by apply IH.
  - destruct (N.eqb_spec x c) as [->|]; [|done].
    intros [= <-]. split; [done|]. simpl. rewrite drop_0.
    by apply rfind_None_inv.
Qed.

Lemma join_plain a b :
  sep ∉ b →
  join a b = b ∧ a = [] ∨
  (∃ a', a = a' ++ [sep] ∧ join a b = a' ++ sep :: b) ∨
  (a ≠ [] ∧ endswith a [sep] = false ∧ join a b = a ++ sep :: b).
Proof.
  intros Hb. unfold join. rewrite startswith_sep_false by done.
  destruct a as [|x a]; [by left|]. right.
  change (negb (truthy (x :: a)) || endswith (x :: a) [sep])
    with (endswith (x :: a) [sep]).
  destruct (endswith (x :: a) [sep]) eqn:He.
  - left. apply endswith_inv in He as [a' Ha']. exists a'. split; [done|].
    rewrite Ha'. by rewrite <-app_assoc.
  - right. done.
Qed.


Lemma basename_no_sep p : sep ∉ basename p.
Proof.
  unfold basename. destruct (rfind sep p) as [i|] eqn:Hi; simpl.
  - apply rfind_Some in Hi as [_ Hi].
    by replace (Z.to_nat (Z.of_nat i + 1)) with (S i) by lia.
  - rewrite drop_0. by apply rfind_None_inv.
Qed.

(** The stem is what [splitext] keeps: the name itself, or a proper prefix
    of it that holds something else than dots. *)
Lemma splitext_stem f :
  sep ∉ f →
  fst (splitext f) = f ∨
  ∃ d, fst (splitext f) = take d f ∧ forallb (N.eqb extsep) (take d f) = false.
Proof.
  intros Hf. unfold splitext. rewrite (rfind_None sep f) by done.
  destruct (rfind extsep f) as [d|]; [|left; reflexivity].
  unfold idx. replace (-1 <? Z.of_nat d)%Z with true by (symmetry; apply Z.ltb_lt; lia).
  change (Z.to_nat (-1 + 1)) with 0. rewrite Nat2Z.id. unfold slice. rewrite drop_0.
  destruct (forallb _ _) eqn:Hd; [left; reflexivity|]. right. by exists d.
Qed.

Lemma plain_stem f : plain f → plain (fst (splitext f)).
Proof.
  intros (Hne & Hsep & Hd1 & Hd2).
  destruct (splitext_stem f Hsep) as [->|(d & -> & Hd)]; [done|].
  repeat split.
  - intros E. by rewrite E in Hd.
  - intros Hin. apply Hsep. revert Hin. apply (subseteq_take d f).
  - intros E. by rewrite E in Hd.
  - intros E. by rewrite E in Hd.
Qed.

Lemma stem_no_sep f : sep ∉ f → sep ∉ fst (splitext f).
Proof.
  intros Hsep. destruct (splitext_stem f Hsep) as [->|(d & -> & Hd)]; [done|].
  intros Hin. apply Hsep. revert Hin. apply (subseteq_take d f).
Qed.

(** ** Path resolution *)

Lemma split_sep_ne s : split_sep s ≠ [].
Proof.
  destruct s as [|c s]; simpl; [done|].
  destruct (c =? sep)%N; [done|]. by destruct (split_sep s).
Qed.

Lemma split_sep_app a b : split_sep (a ++ sep :: b) = split_sep a ++ split_sep b.
Proof.
  induction a as [|c a IH]; simpl; [done|].
  destruct (c =? sep)%N; [by rewrite IH|].
  rewrite IH. pose proof (split_sep_ne a). by destruct (split_sep a).
Qed.

Lemma split_sep_plain b : sep ∉ b → split_sep b = [b].
Proof.
  induction b as [|c b IH]; simpl; [done|]. intros H.
  destruct (N.eqb_spec c sep) as [->|]; [destruct H; by left|].
  rewrite IH; [done|]. intros ?. apply H. by right.
Qed.

Lemma walk_snoc from cs c : walk from (cs ++ [c]) = step (walk from cs) c.
Proof. unfold walk. by rewrite foldl_app. Qed.

Lemma step_empty at_ : step at_ [] = at_.
Proof. unfold step. by rewrite decide_True by (by left). Qed.

Lemma step_plain at_ n : plain n → step at_ n = at_ ++ [n].
Proof.
  intros (? & ? & ? & ?). unfold step.
  rewrite decide_False by (intros [?|?]; congruence). by rewrite decide_False.
Qed.

(** Joining a name to a path goes one level down. *)
Lemma resolve_join cwd a n :
  plain n → resolve cwd (join a n) = resolve cwd a ++ [n].
Proof.
  intros Hn. pose proof Hn as (Hne & Hsep & _).
  unfold resolve.
  destruct (join_plain a n Hsep) as [[-> ->]|[(a' & -> & ->)|(Ha & _ & ->)]].
  - rewrite startswith_sep_false by done. simpl.
    rewrite split_sep_plain by done. simpl. by rewrite step_plain, step_empty by done.
  - assert (startswith (a' ++ sep :: n) [sep] = startswith (a' ++ [sep]) [sep]) as ->.
    { by destruct a'. }
    rewrite !split_sep_app, (split_sep_plain n) by done. simpl.
    rewrite !walk_snoc. by rewrite step_plain, step_empty by done.
  - rewrite startswith_app by done.
    rewrite split_sep_app, (split_sep_plain n) by done.
    rewrite walk_snoc. by rewrite step_plain by done.
Qed.

(** ** The names the script gives its files *)

(** Closed decidable goals. *)
Ltac by_compute := apply (bool_decide_unpack _); vm_compute; exact I.


Lemma digits_no_sep u : sep ∉ digits u.
Proof.
  induction u; simpl; rewrite ?elem_of_cons; try (intros [?|?]; done).
  apply not_elem_of_nil.
Qed.

Lemma digits_inj u u' : digits u = digits u' → u = u'.
Proof.
  revert u'. induction u; intros []; simpl; intros [=]; f_equal; auto.
Qed.

Lemma str_of_nat_inj i j : str_of_nat i = str_of_nat j → i = j.
Proof.
  intros H%digits_inj.
  by rewrite <-(Unsigned.of_to i), <-(Unsigned.of_to j), H.
Qed.

Lemma png_name_inj stem i j : png_name stem i = png_name stem j → i = j.
Proof.
  unfold png_name. intros H%app_inv_head%app_inv_head%app_inv_tail%str_of_nat_inj. lia.
Qed.

Lemma not_elem_of_app_2 (c : char) (a b : str) : c ∉ a → c ∉ b → c ∉ a ++ b.
Proof. rewrite elem_of_app. tauto. Qed.

Lemma plain_long n : sep ∉ n → 3 ≤ length n → plain n.
Proof.
  intros Hs Hl. repeat split; [|done| |]; intros ->; vm_compute in Hl; lia.
Qed.

Lemma plain_png_name stem i : sep ∉ stem → plain (png_name stem i).
Proof.
  intros Hs. apply plain_long.
  - unfold png_name. repeat apply not_elem_of_app_2; try done.
    + by_compute.
    + apply digits_no_sep.
    + by_compute.
  - unfold png_name. rewrite !length_app. with_strategy transparent [py] simpl. lia.
Qed.

Lemma plain_results stem : sep ∉ stem → plain (stem ++ py "_results.txt").
Proof.
  intros Hs. apply plain_long.
  - apply not_elem_of_app_2; [done|].
    by_compute.
  - rewrite length_app. with_strategy transparent [py] simpl. lia.
Qed.

Lemma endswith_png_name stem i : endswith (png_name stem i) (py ".png") = true.
Proof. unfold png_name. rewrite !app_assoc. apply endswith_app. Qed.

Lemma endswith_results stem : endswith (stem ++ py "_results.txt") (py ".png") = false.
Proof. rewrite endswith_app_r by (with_strategy transparent [py] simpl; lia). reflexivity. Qed.



(** ** The file system *)

Lemma child_name_Some d p n : FS.child_name d p = Some n ↔ p = d ++ [n].
Proof.
  unfold FS.child_name. split.
  - case_decide as Hd; [|done].
    destruct (drop (length d) p) as [|n' [|??]] eqn:Hp; intros [=]; subst.
    by rewrite <-(take_drop (length d) p), Hd, Hp.
  - intros ->. rewrite take_app_length, decide_True by done.
    by rewrite drop_app_length.
Qed.

Lemma elem_of_children fs d n :
  n ∈ FS.children fs d ↔ is_Some (fs !! (d ++ [n])).
Proof.
  unfold FS.children. rewrite list_elem_of_omap. split.
  - intros (p & Hp & ->%child_name_Some).
    apply list_elem_of_fmap in Hp as ([p' nd] & -> & Hp).
    apply elem_of_map_to_list in Hp. by exists nd.
  - intros [nd Hnd]. exists (d ++ [n]). split; [|by apply child_name_Some].
    apply list_elem_of_fmap. exists (d ++ [n], nd). split; [done|].
    by apply elem_of_map_to_list.
Qed.


Lemma mkdirs_spec fs done todo fs' :
  FS.mkdirs fs done todo = inr fs' →
  (∀ p, fs' !! p = fs !! p ∨ (fs !! p = None ∧ fs' !! p = Some Dir)) ∧
  (FS.node_at fs done = Some Dir → FS.node_at fs' (done ++ todo) = Some Dir).
Proof.
  revert fs done. induction todo as [|c rest IH]; intros fs done; simpl.
  { intros [= <-]. rewrite app_nil_r. auto. }
  destruct (fs !! (done ++ [c])) as [[|data]|] eqn:Hc; [| done |].
  - intros [Hfr Hdir]%IH. split; [done|]. intros _.
    rewrite (app_assoc done [c] rest : done ++ c :: rest = _). apply Hdir.
    unfold FS.node_at. by destruct done.
  - intros [Hfr Hdir]%IH. split.
    + intros p. destruct (decide (p = done ++ [c])) as [->|Hne].
      * right. split; [done|].
        destruct (Hfr (done ++ [c])) as [->|[H _]];
          [by rewrite lookup_insert_eq | by rewrite lookup_insert_eq in H].
      * specialize (Hfr p). by rewrite lookup_insert_ne in Hfr.
    + intros _. rewrite (app_assoc done [c] rest : done ++ c :: rest = _). apply Hdir.
      unfold FS.node_at. rewrite lookup_insert_eq. by destruct done.
Qed.

Lemma create_spec fs p data fs' :
  FS.create fs p data = inr fs' →
  fs' = <[p := File data]> fs ∧ fs !! p ≠ Some Dir ∧ p ≠ [].
Proof.
  unfold FS.create. destruct p as [|c p]; [done|].
  destruct (FS.node_at fs (removelast (c :: p))) as [[|?]|]; try done.
  destruct (fs !! (c :: p)) as [[|?]|] eqn:Hp; intros [= <-]; by rewrite ?Hp.
Qed.

Lemma create_ok fs d n data :
  FS.node_at fs d = Some Dir → fs !! (d ++ [n]) ≠ Some Dir →
  FS.create fs (d ++ [n]) data = inr (<[d ++ [n] := File data]> fs).
Proof.
  intros Hd Hn. unfold FS.create. rewrite removelast_last, Hd.
  destruct (d ++ [n]) eqn:Hdn; [by destruct d|]. rewrite <-Hdn in *.
  by destruct (fs !! (d ++ [n])) as [[|?]|].
Qed.

(** ** How computations change the world *)

Lemma new_events_app w w' evs : trace w' = trace w ++ evs → new_events w w' = evs.
Proof. intros H. unfold new_events. by rewrite H, drop_app_length. Qed.

Lemma touched_app cwd evs evs' :
  touched cwd (evs ++ evs') = touched cwd evs ++ touched cwd evs'.
Proof. apply omap_app. Qed.

Lemma evolves_refl P w : evolves P w w.
Proof.
  split; [done|]. exists []. rewrite app_nil_r. repeat split; auto.
Qed.

Lemma evolves_trans P w1 w2 w3 :
  evolves P w1 w2 → evolves P w2 w3 → evolves P w1 w3.
Proof.
  intros (Hc1 & evs1 & Ht1 & HP1 & Hd1 & Hf1) (Hc2 & evs2 & Ht2 & HP2 & Hd2 & Hf2).
  split; [congruence|]. exists (evs1 ++ evs2).
  split; [by rewrite Ht2, Ht1, app_assoc|].
  split; [by apply Forall_app|]. split; [auto|].
  intros p. rewrite touched_app, not_elem_of_app. intros [Hp1 Hp2].
  rewrite <-Hc1 in Hp2.
  destruct (Hf1 p Hp1) as [E1|[E1 E1']], (Hf2 p Hp2) as [E2|[E2 E2']].
  - left. congruence.
  - right. split; congruence.
  - right. split; congruence.
  - congruence.
Qed.

Lemma evolves_mono (P Q : event → Prop) w w' :
  (∀ ev, P ev → Q ev) → evolves P w w' → evolves Q w w'.
Proof.
  intros HPQ (Hc & evs & Ht & HP & Hd & Hf). split; [done|].
  exists evs. repeat split; try done. eapply Forall_impl; eauto.
Qed.

Lemma sound_mono {A} (P Q : event → Prop) (m : M A) :
  (∀ ev, P ev → Q ev) → sound P m → sound Q m.
Proof. intros HPQ Hm w. eapply evolves_mono; [exact HPQ|apply Hm]. Qed.

(** One call: an event, and a file system that differs at most at the path
    the event writes to, or by new directories. *)
Lemma evolves_call P w ev fs' :
  P ev →
  (∀ p, files w !! p = Some Dir → fs' !! p = Some Dir) →
  (∀ p, resolve (cwd w) <$> touched_path ev ≠ Some p →
        fs' !! p = files w !! p ∨ (files w !! p = None ∧ fs' !! p = Some Dir)) →
  evolves P w (World (cwd w) fs' (console w) (trace w ++ [ev])).
Proof.
  intros HP Hd Hf. split; [done|]. exists [ev]. repeat split; auto.
  intros p Hp. apply Hf. intros E. apply Hp. unfold touched. simpl.
  rewrite E. by left.
Qed.

Lemma evolves_log P w ev :
  P ev → evolves P w (with_trace (trace w ++ [ev]) w).
Proof. intros HP. apply (evolves_call P w ev (files w)); auto. Qed.

Section Sound.
Variable E : outside.
Variable P : event → Prop.

Lemma sound_ret {A} (a : A) : sound P (ret a).
Proof. intros w. apply evolves_refl. Qed.

Lemma sound_raise {A} e : sound P (raise (A:=A) e).
Proof. intros w. apply evolves_refl. Qed.

Lemma sound_bind {A B} (m : M A) (k : A → M B) :
  sound P m → (∀ a, sound P (k a)) → sound P (bind m k).
Proof.
  intros Hm Hk w. unfold bind. specialize (Hm w).
  destruct (m w) as [a w'|e w']; simpl in *; [|done].
  eapply evolves_trans; [done|]. apply Hk.
Qed.

Lemma sound_try {A} (m : M A) c h :
  sound P m → (∀ e, sound P (h e)) → sound P (try_except m c h).
Proof.
  intros Hm Hh w. unfold try_except. specialize (Hm w).
  destruct (m w) as [a w'|e w']; simpl in *; [done|].
  destruct (c e); [|done]. eapply evolves_trans; [done|]. apply Hh.
Qed.

Lemma sound_for_each {A} (l : list A) body :
  (∀ x, x ∈ l → sound P (body x)) → sound P (for_each l body).
Proof.
  induction l as [|x l IH]; intros Hb; simpl; [apply sound_ret|].
  apply sound_bind; [apply Hb; by left|]. intros _. apply IH.
  intros y Hy. apply Hb. by right.
Qed.

Lemma sound_if {A} (b : bool) (m1 m2 : M A) :
  sound P m1 → sound P m2 → sound P (if b then m1 else m2).
Proof. by destruct b. Qed.

Lemma sound_print s : sound P (print s).
Proof.
  intros w. split; [done|]. exists []. simpl. rewrite app_nil_r. repeat split; auto.
Qed.

Lemma sound_log ev : P ev → sound P (log ev).
Proof. intros HP w. by apply evolves_log. Qed.

Lemma sound_makedirs path : P (EvMakedirs path) → sound P (makedirs E path).
Proof.
  intros HP w. unfold makedirs, bind, log, os_error, raise. simpl.
  destruct (FS.mkdirs _ _ _) as [c|fs'] eqn:Hm; simpl; [by apply evolves_log|].
  apply mkdirs_spec in Hm as [Hfr _].
  refine (evolves_call P w _ fs' HP _ _); [|auto].
  intros p Hp. destruct (Hfr p) as [->|[? ?]]; congruence.
Qed.

Lemma sound_listdir path : P (EvListdir path) → sound P (listdir E path).
Proof.
  intros HP w. unfold listdir, bind, log, os_error, raise. simpl.
  destruct (FS.node_at _ _) as [[|?]|]; simpl; by apply evolves_log.
Qed.

Lemma evolves_create w ev path data fs' :
  P ev → touched_path ev = Some path →
  FS.create (files w) (resolve (cwd w) path) data = inr fs' →
  evolves P w (World (cwd w) fs' (console w) (trace w ++ [ev])).
Proof.
  intros HP Hev (-> & Hnd & _)%create_spec.
  apply evolves_call; [done|..].
  - intros p Hp. rewrite lookup_insert_ne; [done|]. congruence.
  - rewrite Hev. simpl. intros p Hp. left. rewrite lookup_insert_ne; [done|]. congruence.
Qed.

Lemma sound_open_w path enc : P (EvOpenWrite path enc) → sound P (open_w E path enc).
Proof.
  intros HP w. unfold open_w, bind, log, os_error, raise. simpl.
  destruct (FS.create _ _ _) as [c|fs'] eqn:Hm; simpl; [by apply evolves_log|].
  exact (evolves_create w _ path _ fs' HP eq_refl Hm).
Qed.

Lemma sound_pix_save pix path : P (EvSave path) → sound P (pix_save E pix path).
Proof.
  intros HP w. unfold pix_save, bind, log, os_error, raise. simpl.
  destruct (FS.create _ _ _) as [c|fs'] eqn:Hm; simpl; [by apply evolves_log|].
  exact (evolves_create w _ path _ fs' HP eq_refl Hm).
Qed.

Lemma sound_write outfile text : P (EvWrite outfile text) → sound P (write E outfile text).
Proof.
  intros HP w. unfold write. destruct (encodable text); [|apply evolves_refl].
  unfold bind, log, os_error, raise. simpl.
  destruct (files w !! _) as [[|data]|] eqn:Hf; simpl; try by apply evolves_log.
  refine (evolves_call P w _ _ HP _ _); simpl.
  - intros p Hp. rewrite lookup_insert_ne; [done|]. congruence.
  - intros p Hp. left. rewrite lookup_insert_ne; [done|]. congruence.
Qed.

Lemma sound_fitz_open path : P (EvFitzOpen path) → sound P (fitz_open_ E path).
Proof.
  intros HP w. unfold fitz_open_. destruct (fitz_open _ _ _); by apply evolves_log.
Qed.

Lemma sound_get_pixmap path i dpi :
  P (EvGetPixmap path i dpi) → sound P (get_pixmap_ E path i dpi).
Proof.
  intros HP w. unfold get_pixmap_. destruct (get_pixmap _ _ _ _ _); by apply evolves_log.
Qed.

Lemma sound_run args input enc :
  (∀ r, P (EvRun args input enc r)) → sound P (run E args input enc).
Proof.
  intros HP w. unfold run. destruct (subprocess_run _ _ _ _ _); by apply evolves_log.
Qed.

End Sound.

(** ** The script keeps to its events *)

Ltac sound_step :=
  first
    [ apply sound_ret | apply sound_print | apply sound_raise
    | apply sound_makedirs | apply sound_listdir | apply sound_open_w
    | apply sound_write | apply sound_pix_save | apply sound_fitz_open
    | apply sound_get_pixmap | apply sound_log
    | apply sound_run; intros ?
    | apply sound_bind; [|intros ?]
    | apply sound_try; [|intros ?]
    | apply sound_for_each; intros ? ?
    | apply sound_if ].

Ltac sound_all := cbv zeta; repeat sound_step.

Section ScriptSound.
Variable E : outside.

Lemma sound_convert pdf_path output_folder :
  sound (raster_event pdf_path output_folder)
    (convert_pdf_pages_to_png E pdf_path output_folder).
Proof.
  unfold convert_pdf_pages_to_png, render_page, doc_close. sound_all; simpl; eauto.
Qed.

Lemma sound_process_page model prompt folder outfile name :
  sound (page_request model prompt) (process_page E model prompt folder outfile name).
Proof.
  unfold process_page. destruct (endswith name (py ".png")) eqn:Hn; [|apply sound_ret].
  unfold request. sound_all; simpl; eauto 10.
Qed.

Lemma raster_page_request model prompt pdf_path folder ev :
  raster_event pdf_path folder ev → page_request model prompt ev.
Proof. by destruct ev. Qed.

Lemma sound_process_entry folder_path model prompt output_folder filename :
  sound (page_request model prompt)
    (process_entry E folder_path model prompt output_folder filename).
Proof.
  unfold process_entry, extract_pages.
  destruct (endswith filename (py ".pdf")); [|apply sound_ret].
  cbv zeta. repeat first
    [ (intros w; eapply evolves_mono;
       [apply raster_page_request|apply sound_convert])
    | apply sound_process_page
    | sound_step ]; simpl; auto.
Qed.

Lemma sound_pdf_to_text folder_path model prompt :
  sound (page_request model prompt) (pdf_to_text E folder_path model prompt).
Proof.
  unfold pdf_to_text. cbv zeta.
  repeat first [apply sound_process_entry | sound_step]; simpl; auto.
Qed.

(** Rasterisation never propagates an exception. *)
Lemma convert_total pdf_path output_folder w :
  ∃ b w', convert_pdf_pages_to_png E pdf_path output_folder w = Ok b w'.
Proof.
  unfold convert_pdf_pages_to_png, try_except.
  destruct (bind _ _ w) as [b w'|e w']; simpl; eauto.
Qed.

End ScriptSound.

(** ** Lines and tokens *)

Lemma lstrip_nil s : lstrip s = [] ↔ forallb isspace s = true.
Proof.
  induction s as [|c s IH]; simpl; [done|].
  destruct (isspace c); simpl; [done|]. split; done.
Qed.

Lemma lstrip_head s c s' : lstrip s = c :: s' → isspace c = false.
Proof.
  induction s as [|x s IH]; simpl; [done|].
  destruct (isspace x) eqn:Hx; [done|]. by intros [= -> _].
Qed.

Lemma forallb_rev {A} (f : A → bool) l : forallb f (rev l) = forallb f l.
Proof.
  induction l as [|x l IH]; simpl; [done|].
  rewrite forallb_app, IH. simpl. destruct (f x), (forallb f l); done.
Qed.

Lemma truthy_strip line : truthy (strip line) = negb (blank line).
Proof.
  unfold strip, rstrip, blank.
  destruct (forallb isspace line) eqn:Hb; simpl.
  - apply lstrip_nil in Hb. by rewrite Hb.
  - destruct (lstrip line) as [|c s] eqn:Hl.
    { apply lstrip_nil in Hl. congruence. }
    destruct (rev (lstrip (rev (c :: s)))) as [|??] eqn:Hr; [|done].
    apply (f_equal (@rev _)) in Hr. rewrite rev_involutive in Hr.
    change (@rev str []) with (@nil str) in Hr. change (@rev char []) with (@nil char) in Hr.
    apply lstrip_nil in Hr. rewrite (forallb_rev isspace (c :: s)) in Hr.
    apply lstrip_head in Hl. simpl in Hr. by rewrite Hl in Hr.
Qed.

Lemma split_from_lstrip s : split_from [] s = split_from [] (lstrip s).
Proof.
  induction s as [|c s IH]; simpl; [done|].
  destruct (isspace c) eqn:Hc; [done|]. simpl. by rewrite Hc.
Qed.

Lemma split_from_token cur s :
  cur ≠ [] → ∃ rest, split_from cur s = (rev cur ++ token_prefix s) :: rest.
Proof.
  revert cur. induction s as [|c s IH]; intros cur Hcur; simpl.
  - destruct cur; [done|]. rewrite app_nil_r. by eexists.
  - destruct (isspace c).
    + destruct cur; [done|]. rewrite app_nil_r. by eexists.
    + destruct (IH (c :: cur)) as [rest ->]; [done|]. exists rest.
      simpl. by rewrite <-app_assoc.
Qed.

(** On a line that is not blank, [line.split()] starts with the first
    token, so [line.split()[0]] is defined and is that token. *)
Lemma split_first_token line :
  blank line = false → ∃ rest, split line = first_token line :: rest.
Proof.
  intros Hb. unfold split, first_token. rewrite split_from_lstrip.
  destruct (lstrip line) as [|c s] eqn:Hl.
  { apply lstrip_nil in Hl. unfold blank in Hb. congruence. }
  pose proof (lstrip_head _ _ _ Hl) as Hc. simpl. rewrite Hc.
  destruct (split_from_token [c] s) as [rest ->]; [done|]. by exists rest.
Qed.

Lemma first_tokens_spec lines w :
  first_tokens lines w
  = Ok (map first_token (filter (fun line => blank line = false) lines)) w.
Proof.
  induction lines as [|line lines IH]; simpl; [done|].
  rewrite truthy_strip, filter_cons.
  destruct (blank line) eqn:Hb; simpl.
  - apply IH.
  - destruct (split_first_token line Hb) as [rest ->]. simpl.
    unfold bind, ret. simpl. by rewrite IH.
Qed.

(** C9.  [list_llm_models] returns the empty list when the runner is not
    found ([FileNotFoundError]) and when the list command exits with a
    non-zero status; when the command exits with status zero it returns,
    for every line of the standard output that is not blank and in line
    order, the first white-space-delimited token of the line.  (Any other
    exception of the invocation is not handled and propagates.) *)
Theorem C9_list_llm_models (E : outside) (w : world) :
  let w1 := with_console (console w ++ [py "Fetching available Llama models..."]) w in
  match subprocess_run E w1 [py "ollama"; py "list"] None None with
  | inl e =>
      if is_FileNotFoundError e
      then ∃ w', list_llm_models E w = Ok [] w'
      else ∃ w', list_llm_models E w = Raise e w'
  | inr c =>
      if (returncode c =? 0)%Z
      then ∃ w', list_llm_models E w = Ok (model_names (stdout c)) w'
      else ∃ w', list_llm_models E w = Ok [] w'
  end.
Proof.
  intros w1. unfold list_llm_models, try_except, bind, print, run. simpl.
  fold w1. destruct (subprocess_run E w1 _ None None) as [e|c]; simpl.
  - destruct (is_FileNotFoundError e); by eexists.
  - destruct (returncode c =? 0)%Z; simpl; [|by eexists].
    rewrite first_tokens_spec. simpl. by eexists.
Qed.

(** ** One page *)

Lemma encodable_app a b : encodable (a ++ b) = encodable a && encodable b.
Proof. apply forallb_app. Qed.

(** Goals [encodable s = true] for a text made of literals and of parts
    known to be encodable. *)
Ltac encodable_parts :=
  repeat (rewrite encodable_app; apply andb_true_intro; split);
  first [assumption | vm_compute; reflexivity].

Lemma prints_well_intro w w' lines :
  console w' = console w ++ lines →
  Forall (fun line => encodable line = true) lines →
  prints_well w w'.
Proof. intros Hc Hl. unfold prints_well. by rewrite Hc, drop_app_length. Qed.

Section Page.
Variable E : outside.
Variables model prompt folder outfile name : str.

(** What [process_page] does on a PNG, by the outcome of the invocation
    and by whether its block can be encoded. *)
Lemma process_page_png w data :
  endswith name (py ".png") = true →
  files w !! resolve (cwd w) outfile = Some (File data) →
  let w1 := with_console
              (console w ++ [py "Processing PNG: " ++ name ++ py " using model '"
                               ++ model ++ py "'..."]) w in
  let r := subprocess_run E w1 [py "ollama"; py "run"; model]
             (Some (request prompt (join folder name))) (Some (py "utf-8")) in
  let con := console w ++ page_lines model name r in
  let stopped := World (cwd w) (files w) con
                   (trace w ++ [invocation model prompt folder name r]) in
  match block_of name r with
  | Some text =>
      if encodable text then
        process_page E model prompt folder outfile name w
        = Ok tt (World (cwd w)
                   (<[resolve (cwd w) outfile := File (data ++ text)]> (files w))
                   con
                   (trace w ++ [invocation model prompt folder name r;
                                EvWrite outfile text]))
      else
        process_page E model prompt folder outfile name w
        = Raise UnicodeEncodeError stopped
  | None =>
      ∃ e, r = inl e ∧ is_FileNotFoundError e = false ∧
           process_page E model prompt folder outfile name w = Raise e stopped
  end.
Proof.
  intros Hn Hf w1 r con stopped. subst w1 r con stopped.
  unfold process_page. rewrite Hn.
  cbv beta iota zeta delta [try_except bind print run page_lines].
  destruct (subprocess_run E _ _ _ _) as [e|c]; simpl.
  - destruct (is_FileNotFoundError e) eqn:He; simpl.
    2:{ by exists e. }
    unfold write. destruct (encodable _); simpl.
    + unfold bind, log. simpl.
      by rewrite Hf, <-(app_assoc (trace w)), <-(app_assoc (console w)).
    + unfold raise, UnicodeEncodeError, is_FileNotFoundError. simpl.
      by rewrite <-(app_assoc (console w)).
  - destruct (returncode c =? 0)%Z; simpl; unfold write;
      destruct (encodable _); simpl.
    + unfold bind, log. simpl.
      by rewrite Hf, <-(app_assoc (trace w)), <-(app_assoc (console w)).
    + unfold raise, UnicodeEncodeError, is_FileNotFoundError. simpl.
      by rewrite <-(app_assoc (console w)).
    + unfold bind, log. simpl.
      by rewrite Hf, <-(app_assoc (trace w)), <-(app_assoc (console w)).
    + unfold raise, UnicodeEncodeError, is_FileNotFoundError. simpl.
      by rewrite <-(app_assoc (console w)).
Qed.

Lemma process_page_other w :
  endswith name (py ".png") = false →
  process_page E model prompt folder outfile name w = Ok tt w.
Proof. intros Hn. unfold process_page. by rewrite Hn. Qed.



End Page.


(** C8.  An entry of the input folder whose name does not end in [.pdf]
    leaves the world as it is: no folder, no PNG, no results file, no call
    and no output; the run over a listing with the entry is the run over
    the listing without it. *)
Theorem C8_non_pdf_ignored (E : outside)
    (folder_path model prompt output_folder filename : str)
    (before after : list str) (w : world) :
  endswith filename (py ".pdf") = false →
  process_entry E folder_path model prompt output_folder filename w = Ok tt w ∧
  for_each (before ++ filename :: after)
    (process_entry E folder_path model prompt output_folder) w
  = for_each (before ++ after)
      (process_entry E folder_path model prompt output_folder) w.
Proof.
  intros Hf.
  assert (∀ w, process_entry E folder_path model prompt output_folder filename w = Ok tt w)
    as Hskip by (intros w0; unfold process_entry; by rewrite Hf).
  split; [apply Hskip|]. revert w.
  induction before as [|x before IH]; intros w; simpl.
  - unfold bind at 1. by rewrite Hskip.
  - unfold bind. destruct (process_entry _ _ _ _ _ x w); [apply IH|done].
Qed.

(** ** One document *)

Lemma evolves_new_events P w w' :
  evolves P w w' →
  trace w' = trace w ++ new_events w w' ∧ Forall P (new_events w w').
Proof.
  intros (_ & evs & Ht & HP & _). by rewrite (new_events_app _ _ _ Ht).
Qed.

Section Document.
Variable E : outside.

Lemma makedirs_Ok path w w1 :
  makedirs E path w = Ok tt w1 →
  cwd w1 = cwd w ∧ console w1 = console w ∧
  trace w1 = trace w ++ [EvMakedirs path] ∧
  FS.mkdirs (files w) [] (resolve (cwd w) path) = inr (files w1).
Proof.
  unfold makedirs, bind, log, os_error, raise. simpl.
  destruct (FS.mkdirs _ _ _) as [c|fs'] eqn:Hm; [done|]. by intros [= <-].
Qed.

(** The [with open(...)] block starts by opening the results file. *)
Lemma extract_pages_trace model prompt folder outfile w :
  ∃ evs, trace (world_of (extract_pages E model prompt folder outfile w))
         = trace w ++ EvOpenWrite outfile (py "utf-8") :: evs.
Proof.
  unfold extract_pages. unfold bind at 1. unfold open_w, bind at 1, log. simpl.
  destruct (FS.create _ _ _) as [c|fs']; simpl; [by exists []|].
  match goal with |- context [world_of (bind ?m ?k ?w0)] =>
    assert (sound (fun _ => True) (bind m k)) as Hs;
    [|destruct (Hs w0) as (_ & evs & Ht & _); rewrite Ht] end.
  { apply sound_bind; [by apply sound_listdir|]. intros names.
    apply sound_for_each. intros name _.
    eapply sound_mono; [|apply sound_process_page]. done. }
  simpl. rewrite <-app_assoc. by exists evs.
Qed.

(** The body of the loop on a PDF, step by step. *)
Lemma process_entry_pdf folder_path model prompt output_folder filename w :
  endswith filename (py ".pdf") = true →
  let pdf_name := fst (splitext filename) in
  let sub := join output_folder pdf_name in
  process_entry E folder_path model prompt output_folder filename w
  = match makedirs E sub w with
    | Raise e w1 => Raise e w1
    | Ok _ w1 =>
        match convert_pdf_pages_to_png E (join folder_path filename) sub
                (with_console (console w1 ++ [py "Processing PDF: " ++ filename]) w1) with
        | Raise e w2 => Raise e w2
        | Ok true w2 =>
            bind (extract_pages E model prompt sub
                    (join sub (pdf_name ++ py "_results.txt")))
                 (fun _ => print (py "Finished processing PDF: " ++ filename)) w2
        | Ok false w2 =>
            Ok tt (with_console
                     (console w2 ++ [py "Finished processing PDF: " ++ filename]) w2)
        end
    end.
Proof.
  intros Hf. unfold process_entry. rewrite Hf. cbv zeta.
  unfold bind at 1. destruct (makedirs E _ w) as [[] w1|e w1]; [|done].
  unfold bind at 1. unfold print at 1.
  unfold bind at 1. destruct (convert_pdf_pages_to_png _ _ _ _) as [[|] w2|e w2]; done.
Qed.

End Document.

(** C4.  The request of a page is text: the runner [ollama run <model>]
    gets on its standard input the prompt followed by [" File: "] and the
    path of the PNG, with UTF-8 as the encoding, once per page; the input
    is made of the prompt and the path alone, whatever the file holds.
    Every invocation of a run of [pdf_to_text] has this shape. *)
Theorem C4_request_is_text (E : outside)
    (folder_path model prompt pdf_output_folder outfile name : str) (w : world) :
  endswith name (py ".png") = true →
  (∃ r rest,
      new_events w (world_of (process_page E model prompt pdf_output_folder outfile name w))
      = EvRun [py "ollama"; py "run"; model]
              (Some (prompt ++ py " File: " ++ join pdf_output_folder name))
              (Some (py "utf-8")) r :: rest ∧
      (rest = [] ∨ ∃ text, rest = [EvWrite outfile text])) ∧
  Forall (page_request model prompt)
    (new_events w (world_of (pdf_to_text E folder_path model prompt w))).
Proof.
  intros Hn. split.
  - unfold process_page. rewrite Hn.
    cbv beta iota zeta delta [try_except bind print run request].
    destruct (subprocess_run E _ _ _ _) as [e|c]; simpl.
    + destruct (is_FileNotFoundError e); simpl.
      * unfold write. destruct (encodable _); simpl.
        -- unfold bind, log, os_error, raise. simpl.
           destruct (files w !! _) as [[|data]|]; simpl;
             eexists _, _; (split; [apply new_events_app; simpl;
                                    by rewrite <-(app_assoc (trace w))|eauto]).
        -- eexists _, _. split; [by apply new_events_app|eauto].
      * eexists _, _. split; [by apply new_events_app|eauto].
    + destruct (returncode c =? 0)%Z; simpl;
        unfold write; (destruct (encodable _); simpl;
          [|eexists _, _; split; [by apply new_events_app|eauto]]);
        unfold bind, log, os_error, raise; simpl;
        destruct (files w !! _) as [[|data]|]; simpl;
          eexists _, _; (split; [apply new_events_app; simpl;
                                 by rewrite <-(app_assoc (trace w))|eauto]).
  - apply (evolves_new_events _ _ _ (sound_pdf_to_text E folder_path model prompt w)).
Qed.

(** C3.  For an entry ending in [.pdf] whose folder could be created,
    rasterisation answers [True] or [False] and the results file is opened
    for writing exactly when it answers [True]: then the page loop runs;
    when it answers [False] no file at all is opened for writing, the entry
    ends normally and the loop goes on with the other entries. *)
Theorem C3_extraction_iff_rasterized (E : outside)
    (folder_path model prompt output_folder filename : str) (w w1 : world) :
  let pdf_name := fst (splitext filename) in
  let sub := join output_folder pdf_name in
  let outfile := join sub (pdf_name ++ py "_results.txt") in
  let body := process_entry E folder_path model prompt output_folder in
  endswith filename (py ".pdf") = true →
  makedirs E sub w = Ok tt w1 →
  ∃ b w2,
    convert_pdf_pages_to_png E (join folder_path filename) sub
      (with_console (console w1 ++ [py "Processing PDF: " ++ filename]) w1) = Ok b w2 ∧
    (EvOpenWrite outfile (py "utf-8") ∈ new_events w (world_of (body filename w))
     ↔ b = true) ∧
    (b = true →
     body filename w
     = bind (extract_pages E model prompt sub outfile)
            (fun _ => print (py "Finished processing PDF: " ++ filename)) w2) ∧
    (b = false →
     (∀ p enc, EvOpenWrite p enc ∉ new_events w (world_of (body filename w))) ∧
     ∃ w', body filename w = Ok tt w' ∧
           ∀ rest, for_each (filename :: rest) body w = for_each rest body w').
Proof.
  intros pdf_name sub outfile body Hf Hmk.
  destruct (convert_total E (join folder_path filename) sub
              (with_console (console w1 ++ [py "Processing PDF: " ++ filename]) w1))
    as (b & w2 & Hc).
  exists b, w2. split; [done|].
  pose proof (process_entry_pdf E folder_path model prompt output_folder filename w Hf)
    as Hpe. cbv zeta in Hpe. fold pdf_name sub outfile body in Hpe.
  rewrite Hmk, Hc in Hpe.
  apply makedirs_Ok in Hmk as (_ & _ & Ht1 & _).
  destruct (sound_convert E (join folder_path filename) sub
              (with_console (console w1 ++ [py "Processing PDF: " ++ filename]) w1))
    as (_ & evs & Ht2 & Hevs & _).
  rewrite Hc in Ht2. simpl in Ht2. rewrite Ht1, <-app_assoc in Ht2.
  assert (∀ p enc, EvOpenWrite p enc ∉ [EvMakedirs sub] ++ evs) as Hno.
  { intros p enc [Hin|Hin]%elem_of_app.
    - by apply list_elem_of_singleton in Hin.
    - rewrite Forall_forall in Hevs. by apply Hevs in Hin. }
  destruct b.
  - split; [|split; [done|done]]. split; [done|]. intros _.
    destruct (extract_pages_trace E model prompt sub outfile w2) as [evs' Ht3].
    assert (trace (world_of (body filename w))
            = trace w ++ ([EvMakedirs sub] ++ evs)
                ++ EvOpenWrite outfile (py "utf-8") :: evs') as Ht.
    { rewrite Hpe. unfold bind.
      destruct (extract_pages E model prompt sub outfile w2) as [[] w3|e w3];
        simpl in *; by rewrite Ht3, Ht2, <-!app_assoc. }
    rewrite (new_events_app _ _ _ Ht), elem_of_app, elem_of_cons. auto.
  - assert (new_events w (world_of (body filename w)) = [EvMakedirs sub] ++ evs) as Hnew.
    { rewrite Hpe. simpl. by apply new_events_app. }
    rewrite Hnew. split; [|split; [done|]].
    + split; [|done]. intros Hin. by apply Hno in Hin.
    + intros _. split; [done|]. eexists. split; [done|].
      intros rest. simpl. unfold bind at 1. by rewrite Hpe.
Qed.

(** ** Rasterisation *)

Lemma for_each_app {A} (l1 l2 : list A) body w :
  for_each (l1 ++ l2) body w
  = match for_each l1 body w with
    | Ok _ w' => for_each l2 body w'
    | Raise e w' => Raise e w'
    end.
Proof.
  revert w. induction l1 as [|x l1 IH]; intros w; simpl; [done|].
  unfold bind. destruct (body x w) as [[] w'|e w']; [apply IH|done].
Qed.

Section Raster.
Variable E : outside.
Variables pdf_path output_folder : str.

Let stem := fst (splitext (basename pdf_path)).
Let target (i : nat) : str := join output_folder (png_name stem i).
Let line (n i : nat) : str :=
  py "Rendering page " ++ str_of_nat (i + 1) ++ py " of " ++ str_of_nat n ++ py "...".

Lemma stem_plain_names i : plain (png_name stem i).
Proof. apply plain_png_name, stem_no_sep, basename_no_sep. Qed.

Lemma resolve_target cwd i :
  resolve cwd (target i) = resolve cwd output_folder ++ [png_name stem i].
Proof. apply resolve_join, stem_plain_names. Qed.

Lemma target_inj cwd i j : resolve cwd (target i) = resolve cwd (target j) → i = j.
Proof.
  rewrite !resolve_target. intros H%app_inv_head. injection H as H.
  by apply png_name_inj in H.
Qed.

(** One page that goes well. *)
Lemma render_page_Ok n i w w' :
  render_page E pdf_path output_folder stem n i w = Ok tt w' →
  ∃ pix,
    get_pixmap E (with_console (console w ++ [line n i]) w) pdf_path i 300 = inr pix ∧
    files w !! resolve (cwd w) (target i) ≠ Some Dir ∧
    w' = World (cwd w) (<[resolve (cwd w) (target i) := File pix]> (files w))
           (console w ++ [line n i])
           (trace w ++ [EvGetPixmap pdf_path i 300; EvSave (target i)]).
Proof.
  unfold render_page. cbv beta iota zeta delta [bind print get_pixmap_].
  fold (line n i) (target i).
  destruct (get_pixmap E _ pdf_path i 300) as [e|pix]; [done|].
  unfold pix_save, bind, log, os_error, raise. simpl.
  destruct (FS.create _ _ _) as [c|fs'] eqn:Hc; [done|].
  apply create_spec in Hc as (-> & Hnd & _). intros [= <-].
  exists pix. rewrite <-(app_assoc (trace w)). done.
Qed.

Lemma render_page_run n i w pix :
  get_pixmap E (with_console (console w ++ [line n i]) w) pdf_path i 300 = inr pix →
  FS.node_at (files w) (resolve (cwd w) output_folder) = Some Dir →
  files w !! resolve (cwd w) (target i) ≠ Some Dir →
  render_page E pdf_path output_folder stem n i w
  = Ok tt (World (cwd w) (<[resolve (cwd w) (target i) := File pix]> (files w))
             (console w ++ [line n i])
             (trace w ++ [EvGetPixmap pdf_path i 300; EvSave (target i)])).
Proof.
  intros Hp Hd Hn.
  unfold render_page. cbv beta iota zeta delta [bind print get_pixmap_].
  fold (line n i) (target i). rewrite Hp.
  unfold pix_save, bind, log, os_error, raise. simpl.
  rewrite resolve_target in *. rewrite create_ok by done.
  by rewrite <-(app_assoc (trace w)).
Qed.

(** The pages of a loop that went well are on disk, and nothing else
    changed. *)
Lemma render_loop_Ok n a k w w' :
  for_each (seq a k) (render_page E pdf_path output_folder stem n) w = Ok tt w' →
  cwd w' = cwd w ∧
  (∀ i, a ≤ i < a + k → ∃ data, files w' !! resolve (cwd w) (target i) = Some (File data)) ∧
  (∀ p, (∀ i, a ≤ i < a + k → p ≠ resolve (cwd w) (target i)) →
        files w' !! p = files w !! p).
Proof.
  revert a w. induction k as [|k IH]; intros a w; simpl.
  { intros [= <-]. split; [done|]. split; [intros; lia|done]. }
  unfold bind at 1.
  destruct (render_page _ _ _ _ _ a w) as [[] w1|e w1] eqn:H1; [|done].
  apply render_page_Ok in H1 as (pix & _ & _ & ->).
  intros (Hc & Hin & Hout)%IH. simpl in *.
  split; [done|]. split.
  - intros i Hi. destruct (decide (i = a)) as [->|Hne].
    + rewrite Hout; [rewrite lookup_insert_eq; eauto|].
      intros j Hj Heq. symmetry in Heq. apply target_inj in Heq. lia.
    + apply Hin. lia.
  - intros p Hp. rewrite Hout; [|intros i Hi; apply Hp; lia].
    rewrite lookup_insert_ne; [done|]. intros <-. by apply (Hp a); [lia|].
Qed.

Lemma render_page_Raise n i w e we :
  render_page E pdf_path output_folder stem n i w = Raise e we →
  cwd we = cwd w ∧ files we = files w.
Proof.
  unfold render_page. cbv beta iota zeta delta [bind print get_pixmap_].
  destruct (get_pixmap E _ pdf_path i 300) as [e'|pix]; [by intros [= _ <-]|].
  unfold pix_save, bind, log, os_error, raise. simpl.
  destruct (FS.create _ _ _) as [c|fs'] eqn:Hc; [|done]. by intros [= _ <-].
Qed.

(** A loop whose pages all render and save. *)
Lemma render_loop_run n a k w (pix : nat → list N) :
  FS.node_at (files w) (resolve (cwd w) output_folder) = Some Dir →
  (∀ i, a ≤ i < a + k → files w !! resolve (cwd w) (target i) ≠ Some Dir) →
  (∀ w' i, a ≤ i < a + k → get_pixmap E w' pdf_path i 300 = inr (pix i)) →
  ∃ w',
    for_each (seq a k) (render_page E pdf_path output_folder stem n) w = Ok tt w' ∧
    cwd w' = cwd w ∧
    trace w' = trace w ++ flat_map (fun i => [EvGetPixmap pdf_path i 300; EvSave (target i)])
                            (seq a k) ∧
    (∀ i, a ≤ i < a + k →
          files w' !! resolve (cwd w) (target i) = Some (File (pix i))) ∧
    (∀ p, (∀ i, a ≤ i < a + k → p ≠ resolve (cwd w) (target i)) →
          files w' !! p = files w !! p).
Proof.
  revert a w. induction k as [|k IH]; intros a w Hd Hn Hp; simpl.
  { exists w. rewrite app_nil_r. repeat split; auto. intros; lia. }
  unfold bind at 1. rewrite (render_page_run n a w (pix a)); [|apply Hp; lia|done|apply Hn; lia].
  set (w1 := World _ _ _ _).
  destruct (IH (S a) w1) as (w' & Hrun & Hc & Ht & Hin & Hout).
  - simpl. unfold FS.node_at in *. destruct (resolve (cwd w) output_folder) eqn:Hr; [done|].
    rewrite lookup_insert_ne; [done|]. rewrite resolve_target, Hr.
    intros H%(f_equal length). rewrite length_app in H. simpl in H. lia.
  - intros i Hi. simpl. rewrite lookup_insert_ne; [apply Hn; lia|].
    intros Heq%target_inj. lia.
  - intros w2 i Hi. apply Hp. lia.
  - exists w'. split; [done|]. split; [done|]. split; [|split].
    + rewrite Ht. simpl. by rewrite <-(app_assoc (trace w)).
    + intros i Hi. destruct (decide (i = a)) as [->|Hne]; [|apply Hin; lia].
      rewrite Hout; [by simpl; rewrite lookup_insert_eq|].
      intros j Hj Heq. simpl in Heq. symmetry in Heq. apply target_inj in Heq. lia.
    + intros p Hpne. rewrite Hout; [|intros i Hi; simpl; apply Hpne; lia].
      simpl. rewrite lookup_insert_ne; [done|]. intros <-. by apply (Hpne a); [lia|].
Qed.

End Raster.

(** C2.  When opening the document gives [n] pages, every page renders at
    300 dpi and the destination is a directory in which no page name is
    taken by a directory, [convert_pdf_pages_to_png] returns [True] after
    rendering each page once at 300 dpi and saving it: the file
    [<stem>_page_<k>.png] of the destination holds page [k] (1-based, the
    page of index [k - 1]) for [k] from 1 to [n], these [n] names are
    distinct, and no other path of the file system changes. *)
Theorem C2_rasterization_writes_N_pngs (E : outside)
    (pdf_path output_folder : str) (n : nat) (pix : nat → list N) (w : world) :
  let stem := fst (splitext (basename pdf_path)) in
  let name k := stem ++ py "_page_" ++ str_of_nat k ++ py ".png" in
  let dir := resolve (cwd w) output_folder in
  fitz_open E
    (with_console (console w ++ [py "Converting PDF '" ++ pdf_path ++ py "' into PNGs..."]) w)
    pdf_path = inr n →
  (∀ w' i, i < n → get_pixmap E w' pdf_path i 300 = inr (pix i)) →
  FS.is_dir (files w) dir = true →
  (∀ k, 1 ≤ k ≤ n → files w !! (dir ++ [name k]) ≠ Some Dir) →
  ∃ w',
    convert_pdf_pages_to_png E pdf_path output_folder w = Ok true w' ∧
    new_events w w'
    = EvFitzOpen pdf_path
        :: flat_map (fun i => [EvGetPixmap pdf_path i 300;
                               EvSave (join output_folder (name (i + 1)))]) (seq 0 n)
        ++ [EvDocClose pdf_path] ∧
    (∀ k, 1 ≤ k ≤ n → files w' !! (dir ++ [name k]) = Some (File (pix (k - 1)))) ∧
    (∀ j k, 1 ≤ j ≤ n → 1 ≤ k ≤ n → name j = name k → j = k) ∧
    (∀ p, (∀ k, 1 ≤ k ≤ n → p ≠ dir ++ [name k]) → files w' !! p = files w !! p).
Proof.
  intros stem name dir Ho Hp Hd Hn.
  set (w0 := with_console _ w) in Ho.
  assert (∀ i, name (i + 1) = png_name stem i) as Hname by done.
  assert (∀ i, resolve (cwd w) (join output_folder (png_name stem i))
               = dir ++ [name (i + 1)]) as Hres.
  { intros i. apply (resolve_target pdf_path output_folder). }
  destruct (render_loop_run E pdf_path output_folder n 0 n
              (with_trace (trace w0 ++ [EvFitzOpen pdf_path]) w0) pix)
    as (w1 & Hrun & Hc & Ht & Hin & Hout).
  { simpl. fold dir. unfold FS.is_dir in Hd. by destruct (FS.node_at _ _) as [[|?]|]. }
  { intros i Hi. simpl. fold stem. rewrite Hres. apply Hn. lia. }
  { intros w' i Hi. apply Hp. lia. }
  simpl in Hc, Ht, Hin, Hout. fold stem in Hrun, Ht, Hin, Hout.
  eexists. split; [|split; [|split; [|split]]].
  - unfold convert_pdf_pages_to_png, try_except.
    cbv beta iota zeta delta [bind print fitz_open_].
    change (with_console (console w ++ [py "Converting PDF '" ++ pdf_path
                                          ++ py "' into PNGs..."]) w) with w0.
    rewrite Ho. fold stem. by rewrite Hrun.
  - apply new_events_app. simpl. by rewrite Ht, <-!app_assoc.
  - intros k Hk. simpl. replace k with ((k - 1) + 1) at 1 by lia.
    rewrite <-Hres. apply Hin. lia.
  - intros j k Hj Hk. replace j with ((j - 1) + 1) at 1 by lia.
    replace k with ((k - 1) + 1) at 1 by lia. rewrite !Hname.
    intros H%png_name_inj. lia.
  - intros p Hpne. simpl. apply Hout. intros i Hi. rewrite Hres. apply Hpne. lia.
Qed.

(** C7.  When a step of rasterisation raises (opening the document, or
    rendering or saving a page after [k] pages were written), the
    exception does not leave [convert_pdf_pages_to_png]: the function
    prints the error with the message of the exception and returns
    [False].  Nothing is cleaned up: the file system is left as the failing
    step left it, with the [k] pages written before still on disk. *)
Theorem C7_failure_is_caught (E : outside)
    (pdf_path output_folder : str) (w : world) (k : nat) (e : exn) (we : world) :
  raster_failure E pdf_path output_folder w k e we →
  let stem := fst (splitext (basename pdf_path)) in
  ∃ w',
    convert_pdf_pages_to_png E pdf_path output_folder w = Ok false w' ∧
    console w' = console we ++ [py "Error converting " ++ pdf_path ++ py " to PNG: "
                                  ++ exn_msg e] ∧
    trace w' = trace we ∧
    files w' = files we ∧
    ∀ i, i < k →
         ∃ data, files w' !! resolve (cwd w) (join output_folder (png_name stem i))
                 = Some (File data).
Proof.
  intros Hfail stem. destruct Hfail as [e w0 Ho|n k wk e we w0 page Ho Hk Hpre Hpage].
  - eexists. split.
    { unfold convert_pdf_pages_to_png, try_except.
      cbv beta iota zeta delta [bind print fitz_open_].
      match goal with |- context [fitz_open E ?x pdf_path] =>
        replace (fitz_open E x pdf_path) with (@inl exn nat e) by (symmetry; exact Ho) end.
      done. }
    simpl. repeat split. intros; lia.
  - eexists. split.
    { unfold convert_pdf_pages_to_png, try_except.
      cbv beta iota zeta delta [bind print fitz_open_]. subst page.
      match goal with |- context [fitz_open E ?x pdf_path] =>
        replace (fitz_open E x pdf_path) with (@inr exn nat n) by (symmetry; exact Ho) end.
      assert (seq 0 n = seq 0 k ++ k :: seq (S k) (n - S k)) as ->.
      { replace n with (k + S (n - S k)) at 1 by lia. by rewrite seq_app. }
      rewrite for_each_app.
      match goal with |- context [for_each (seq 0 k) ?b ?x] =>
        replace (for_each (seq 0 k) b x) with (Ok tt wk) by (symmetry; exact Hpre) end.
      cbn [for_each]. unfold bind at 1.
      match goal with |- context [render_page E ?a ?b ?c ?d k wk] =>
        replace (render_page E a b c d k wk) with (@Raise unit e we)
          by (symmetry; exact Hpage) end.
      done. }
    simpl. repeat split.
    apply render_page_Raise in Hpage as [_ ->].
    apply render_loop_Ok in Hpre as (_ & Hin & _). simpl in Hin.
    intros i Hi. apply Hin. lia.
Qed.

(** ** The page loop *)

Lemma blocks_of_app outfile evs evs' :
  blocks_of outfile (evs ++ evs') = blocks_of outfile evs ++ blocks_of outfile evs'.
Proof. apply omap_app. Qed.

Section PageLoop.
Variable E : outside.
Variables model prompt folder outfile : str.

Let png (name : str) : Prop := endswith name (py ".png") = true.

(** Every PNG of the list gets one invocation and then one block, in the
    order of the list, up to the page that raises, if one does; the
    results file grows by these blocks and nothing else changes. *)
Lemma page_loop names w data last :
  files w !! resolve (cwd w) outfile = Some (File data) →
  let r := for_each names (process_page E model prompt folder outfile) w in
  let requests := map (fun name => Some (prompt ++ py " File: " ++ join folder name))
                    (filter png names) in
  ∃ evs,
    trace (world_of r) = trace w ++ evs ∧
    cwd (world_of r) = cwd w ∧
    files (world_of r) !! resolve (cwd w) outfile
      = Some (File (data ++ concat (blocks_of outfile evs))) ∧
    (∀ w', r = Ok tt w' →
       block_pages outfile last evs = requests ∧
       length (blocks_of outfile evs) = length (filter png names)) ∧
    block_pages outfile last evs `prefix_of` requests.
Proof.
  revert w data last. induction names as [|name names IH]; intros w data last Hf r requests.
  { exists []. subst r requests. simpl. rewrite !app_nil_r.
    split; [done|]. split; [done|]. split; [done|]. split; [done|]. apply prefix_nil. }
  assert (r = match process_page E model prompt folder outfile name w with
              | Ok _ w' => for_each names (process_page E model prompt folder outfile) w'
              | Raise e w' => Raise e w'
              end) as Hr by reflexivity.
  clearbody r. subst requests. rewrite filter_cons.
  destruct (decide (png name)) as [Hn|Hn].
  - unfold png in Hn.
    pose proof (process_page_png E model prompt folder outfile name w data Hn Hf) as Hp.
    cbv zeta in Hp.
    assert (∀ e w1, process_page E model prompt folder outfile name w = Raise e w1 →
              files w1 = files w → cwd w1 = cwd w →
              (∃ ev, trace w1 = trace w ++ [ev] ∧
                     blocks_of outfile [ev] = [] ∧ block_pages outfile last [ev] = []) →
              ∃ evs,
                trace (world_of r) = trace w ++ evs ∧
                cwd (world_of r) = cwd w ∧
                files (world_of r) !! resolve (cwd w) outfile
                  = Some (File (data ++ concat (blocks_of outfile evs))) ∧
                (∀ w', r = Ok tt w' →
                   block_pages outfile last evs
                   = map (fun name => Some (prompt ++ py " File: " ++ join folder name))
                       (name :: filter png names) ∧
                   length (blocks_of outfile evs) = length (name :: filter png names)) ∧
                block_pages outfile last evs
                  `prefix_of` map (fun name => Some (prompt ++ py " File: "
                                                       ++ join folder name))
                                (name :: filter png names)) as Hstop.
    { intros e w1 Hraise Hfs Hcw (ev & Ht & Hb & Hbp). rewrite Hraise in Hr. subst r.
      exists [ev]. simpl world_of. rewrite Hb, Hbp, Hfs, Hcw. simpl. rewrite app_nil_r.
      split; [done|]. split; [done|]. split; [done|]. split; [done|].
      apply prefix_nil. }
    destruct (block_of name _) as [text|] eqn:Hb.
    + destruct (encodable text).
      * rewrite Hp in Hr. subst r.
        match type of Hp with _ = Ok tt ?x => set (w1 := x) in * end.
        destruct (IH w1 (data ++ text)
                    (Some (prompt ++ py " File: " ++ join folder name)))
          as (evs & Ht & Hc & Hfs & Hok & Hpre).
        { simpl. by rewrite lookup_insert_eq. }
        eexists (_ :: _ :: evs).
        split. { etransitivity; [exact Ht|]. simpl.
                 rewrite <-(app_assoc (trace w)). reflexivity. }
        split; [exact Hc|]. split; [|split].
        -- etransitivity; [exact Hfs|]. simpl. rewrite decide_True by done. simpl.
           by rewrite <-app_assoc.
        -- intros w' Hw'. destruct (Hok w' Hw') as [Hbp Hlen]. simpl.
           rewrite !decide_True by done. simpl. by rewrite Hbp, Hlen.
        -- simpl. rewrite decide_True by done. by apply prefix_cons.
      * eapply Hstop; [exact Hp|done..|]. eexists. split; [done|]. done.
    + destruct Hp as (e & _ & _ & Hp).
      eapply Hstop; [exact Hp|done..|]. eexists. split; [done|]. done.
  - unfold png in Hn. apply not_true_is_false in Hn.
    rewrite process_page_other in Hr by done. subst r. apply IH. done.
Qed.

End PageLoop.

Section Extract.
Variable E : outside.
Variables model prompt folder outfile : str.

Let png (name : str) : Prop := endswith name (py ".png") = true.

(** The [with] block of a document, once the results file is open. *)
Lemma extract_pages_spec w fs1 :
  FS.create (files w) (resolve (cwd w) outfile) [] = inr fs1 →
  let r := extract_pages E model prompt folder outfile w in
  ∃ evs,
    trace (world_of r) = trace w ++ evs ∧
    cwd (world_of r) = cwd w ∧
    files (world_of r) !! resolve (cwd w) outfile
      = Some (File (concat (blocks_of outfile evs))) ∧
    (∀ w', r = Ok tt w' →
       block_pages outfile None evs
         = map (fun name => Some (prompt ++ py " File: " ++ join folder name))
             (filter png (sorted (os_order E
                (FS.children fs1 (resolve (cwd w) folder))))) ∧
       length (blocks_of outfile evs)
         = length (filter png (sorted (os_order E
                (FS.children fs1 (resolve (cwd w) folder)))))) ∧
    block_pages outfile None evs
      `prefix_of` map (fun name => Some (prompt ++ py " File: " ++ join folder name))
                    (filter png (sorted (os_order E
                       (FS.children fs1 (resolve (cwd w) folder))))).
Proof.
  intros Hc r.
  set (t2 := (trace w ++ [EvOpenWrite outfile (py "utf-8")]) ++ [EvListdir folder]).
  assert (r = match FS.node_at fs1 (resolve (cwd w) folder) with
              | Some Dir =>
                  for_each (sorted (os_order E (FS.children fs1 (resolve (cwd w) folder))))
                    (process_page E model prompt folder outfile)
                    (World (cwd w) fs1 (console w) t2)
              | Some (File _) =>
                  Raise (Exn NotADirectoryError (strerror E NotADirectoryError folder))
                    (World (cwd w) fs1 (console w) t2)
              | None =>
                  Raise (Exn FileNotFoundError (strerror E FileNotFoundError folder))
                    (World (cwd w) fs1 (console w) t2)
              end) as Hr.
  { subst r. unfold extract_pages. unfold bind at 1.
    unfold open_w, bind at 1, log. cbn beta iota. simpl files. simpl cwd.
    rewrite Hc. cbn beta iota. unfold bind at 1.
    unfold listdir, bind at 1, log, os_error, raise. cbn beta iota.
    simpl files. simpl cwd.
    by destruct (FS.node_at fs1 _) as [[|?]|]. }
  clearbody r. subst r.
  apply create_spec in Hc as (Hfs1 & _ & _).
  assert (t2 = trace w ++ [EvOpenWrite outfile (py "utf-8"); EvListdir folder]) as Ht2.
  { unfold t2. by rewrite <-app_assoc. }
  destruct (FS.node_at fs1 _) as [[|?]|].
  - set (w2 := World _ _ _ _).
    destruct (page_loop E model prompt folder outfile
                (sorted (os_order E (FS.children fs1 (resolve (cwd w) folder))))
                w2 [] None) as (evs & Ht & Hcw & Hfs & Hok & Hpre).
    { simpl. rewrite Hfs1. by rewrite lookup_insert_eq. }
    exists ([EvOpenWrite outfile (py "utf-8"); EvListdir folder] ++ evs).
    split. { rewrite Ht. simpl. rewrite Ht2. by rewrite <-app_assoc. }
    split; [exact Hcw|]. split; [exact Hfs|]. split; [exact Hok|exact Hpre].
  - exists [EvOpenWrite outfile (py "utf-8"); EvListdir folder]. simpl.
    rewrite Hfs1, lookup_insert_eq. repeat split; try done. apply prefix_nil.
  - exists [EvOpenWrite outfile (py "utf-8"); EvListdir folder]. simpl.
    rewrite Hfs1, lookup_insert_eq. repeat split; try done. apply prefix_nil.
Qed.

End Extract.

(** C6.  The results file is opened with truncation: when it can be opened,
    what it holds after the [with] block of a document is the blocks
    written in this block, in order, and nothing of what it held before; a
    second run therefore replaces the text of the first.  And a run of
    [pdf_to_text] leaves every path alone that it does not save, open or
    write in this run: a PNG of an earlier run that this run does not save
    again is still what it was. *)
Theorem C6_truncate_and_frame (E : outside)
    (folder_path model prompt pdf_output_folder outfile : str)
    (w1 w : world) (fs1 : gmap (list str) node) (p : list str) (nd : node) :
  let w1' := world_of (extract_pages E model prompt pdf_output_folder outfile w1) in
  let w' := world_of (pdf_to_text E folder_path model prompt w) in
  FS.create (files w1) (resolve (cwd w1) outfile) [] = inr fs1 →
  files w !! p = Some nd →
  p ∉ touched (cwd w) (new_events w w') →
  files w1' !! resolve (cwd w1) outfile
    = Some (File (concat (blocks_of outfile (new_events w1 w1')))) ∧
  files w' !! p = Some nd.
Proof.
  intros w1' w' Hc Hp Hnt. split.
  - destruct (extract_pages_spec E model prompt pdf_output_folder outfile w1 fs1 Hc)
      as (evs & Ht & _ & Hfs & _).
    fold w1' in Ht, Hfs. by rewrite (new_events_app _ _ _ Ht).
  - destruct (sound_pdf_to_text E folder_path model prompt w)
      as (_ & evs & Ht & _ & _ & Hfr).
    fold w' in Ht, Hfr. rewrite (new_events_app _ _ _ Ht) in Hnt.
    destruct (Hfr p Hnt) as [->|[? _]]; congruence.
Qed.

(** ** Folders *)

Lemma is_dir_evolves P w w' p :
  evolves P w w' → FS.is_dir (files w) p = true → FS.is_dir (files w') p = true.
Proof.
  intros (_ & evs & _ & _ & Hd & _). unfold FS.is_dir, FS.node_at.
  destruct p as [|c p]; [done|].
  destruct (files w !! (c :: p)) as [[|?]|] eqn:Hp; try done.
  by rewrite (Hd _ Hp).
Qed.

Lemma is_dir_lookup fs p : FS.node_at fs p = Some Dir → FS.is_dir fs p = true.
Proof. unfold FS.is_dir. by intros ->. Qed.

Lemma for_each_Ok_elem {A} (l : list A) body w w' x :
  for_each l body w = Ok tt w' → x ∈ l →
  ∃ l1 l2 wx wx',
    l = l1 ++ x :: l2 ∧
    for_each l1 body w = Ok tt wx ∧ body x wx = Ok tt wx' ∧
    for_each l2 body wx' = Ok tt w'.
Proof.
  intros Hrun (l1 & l2 & ->)%list_elem_of_split.
  rewrite for_each_app in Hrun.
  destruct (for_each l1 body w) as [[] wx|e wx] eqn:H1; [|done].
  cbn [for_each] in Hrun. unfold bind in Hrun.
  destruct (body x wx) as [[] wx'|e wx'] eqn:H2; [|done].
  by exists l1, l2, wx, wx'.
Qed.

Section Folders.
Variable E : outside.

Lemma listdir_Ok path w l w' :
  listdir E path w = Ok l w' →
  w' = with_trace (trace w ++ [EvListdir path]) w ∧
  l = os_order E (FS.children (files w) (resolve (cwd w) path)).
Proof.
  unfold listdir, bind, log, os_error, raise. simpl.
  destruct (FS.node_at _ _) as [[|?]|]; [|done..]. by intros [= <- <-].
Qed.

Lemma sound_extract_pages model prompt folder outfile :
  sound (page_request model prompt) (extract_pages E model prompt folder outfile).
Proof.
  unfold extract_pages. repeat first [apply sound_process_page | sound_step]; simpl; auto.
Qed.

(** Rasterisation starts by opening the document. *)
Lemma convert_trace_head pdf_path output_folder w :
  ∃ evs, trace (world_of (convert_pdf_pages_to_png E pdf_path output_folder w))
         = trace w ++ EvFitzOpen pdf_path :: evs.
Proof.
  unfold convert_pdf_pages_to_png, try_except. unfold bind at 1. unfold print at 1.
  unfold bind at 1. unfold fitz_open_.
  destruct (fitz_open E _ pdf_path) as [e|n]; [by exists []|].
  match goal with |- context [bind ?m ?k ?w0] =>
    assert (sound (fun _ => True) (bind m k)) as Hs;
    [|destruct (Hs w0) as (_ & evs & Ht & _);
      destruct (bind m k w0) as [a w3|e w3]] end.
  { unfold render_page, doc_close. sound_all; done. }
  - simpl in *. rewrite Ht. exists evs. by rewrite <-app_assoc.
  - simpl in *. rewrite Ht. exists evs. by rewrite <-app_assoc.
Qed.

(** What rasterisation writes to: the page files of its folder. *)
Lemma raster_touched pdf_path output_folder cwd evs p :
  Forall (raster_event pdf_path output_folder) evs →
  p ∈ touched cwd evs →
  ∃ i, p = resolve cwd output_folder
             ++ [png_name (fst (splitext (basename pdf_path))) i].
Proof.
  intros Hevs. unfold touched. rewrite list_elem_of_omap.
  intros (ev & Hev & Hp). rewrite Forall_forall in Hevs. apply Hevs in Hev.
  destruct ev; simpl in *; try done.
  destruct Hev as [i ->]. injection Hp as <-. exists i.
  apply resolve_target.
Qed.

Section Entry.
Variables folder_path model prompt output_folder filename : str.
Hypothesis Hplain : plain filename.
Hypothesis Hpdf : endswith filename (py ".pdf") = true.

Let pdf_name := fst (splitext filename).
Let sub := join output_folder pdf_name.

Lemma resolve_sub cwd : resolve cwd sub = resolve cwd output_folder ++ [pdf_name].
Proof. apply resolve_join, plain_stem, Hplain. Qed.

(** The folder of a document is there once [makedirs] returns, and stays. *)
Lemma entry_subfolder w0 w1 :
  makedirs E sub w0 = Ok tt w1 →
  let r := process_entry E folder_path model prompt output_folder filename w0 in
  FS.is_dir (files w1) (resolve (cwd w0) output_folder ++ [pdf_name]) = true ∧
  FS.is_dir (files (world_of r)) (resolve (cwd w0) output_folder ++ [pdf_name]) = true.
Proof.
  intros Hmk r.
  pose proof (process_entry_pdf E folder_path model prompt output_folder filename w0 Hpdf)
    as Hpe. cbv zeta in Hpe. fold pdf_name sub in Hpe. fold r in Hpe.
  rewrite Hmk in Hpe.
  apply makedirs_Ok in Hmk as (Hc1 & _ & _ & Hm).
  apply mkdirs_spec in Hm as [_ Hd]. specialize (Hd eq_refl). simpl in Hd.
  rewrite resolve_sub in Hd. apply is_dir_lookup in Hd.
  split; [done|].
  set (w1' := with_console _ w1) in Hpe.
  pose proof (sound_convert E (join folder_path filename) sub w1') as Hev.
  destruct (convert_pdf_pages_to_png E _ sub w1') as [[|] w2|e w2]; simpl in Hev.
  - assert (sound (page_request model prompt)
              (bind (extract_pages E model prompt sub
                       (join sub (pdf_name ++ py "_results.txt")))
                    (fun _ => print (py "Finished processing PDF: " ++ filename)))) as Hs.
    { apply sound_bind; [apply sound_extract_pages|intros; apply sound_print]. }
    rewrite Hpe. eapply is_dir_evolves; [apply Hs|].
    eapply is_dir_evolves; [apply Hev|]. done.
  - rewrite Hpe. simpl. eapply is_dir_evolves; [apply Hev|]. done.
  - rewrite Hpe. simpl. eapply is_dir_evolves; [apply Hev|]. done.
Qed.

(** When rasterisation fails no results file appears. *)
Lemma entry_no_results w0 w1 w2 data :
  makedirs E sub w0 = Ok tt w1 →
  convert_pdf_pages_to_png E (join folder_path filename) sub
    (with_console (console w1 ++ [py "Processing PDF: " ++ filename]) w1) = Ok false w2 →
  let r := process_entry E folder_path model prompt output_folder filename w0 in
  let rp := resolve (cwd w0) output_folder ++ [pdf_name; pdf_name ++ py "_results.txt"] in
  files (world_of r) !! rp = Some (File data) → files w0 !! rp = Some (File data).
Proof.
  intros Hmk Hcv r rp.
  pose proof (process_entry_pdf E folder_path model prompt output_folder filename w0 Hpdf)
    as Hpe. cbv zeta in Hpe. fold pdf_name sub in Hpe. fold r in Hpe.
  rewrite Hmk, Hcv in Hpe. rewrite Hpe. simpl.
  apply makedirs_Ok in Hmk as (Hc1 & _ & _ & Hm).
  apply mkdirs_spec in Hm as [Hfr _].
  destruct (sound_convert E (join folder_path filename) sub
              (with_console (console w1 ++ [py "Processing PDF: " ++ filename]) w1))
    as (_ & evs & _ & Hevs & _ & Hfr2).
  rewrite Hcv in Hfr2. simpl in Hfr2.
  intros H2.
  assert (rp ∉ touched (cwd w1) evs) as Hnt.
  { intros (i & Hi)%(raster_touched _ _ _ _ _ Hevs).
    rewrite Hc1, resolve_sub in Hi. unfold rp in Hi.
    change (resolve (cwd w0) output_folder ++ [pdf_name; pdf_name ++ py "_results.txt"])
      with (resolve (cwd w0) output_folder ++ [pdf_name] ++ [pdf_name ++ py "_results.txt"])
      in Hi.
    rewrite app_assoc in Hi. apply app_inv_head in Hi. injection Hi as Hi.
    pose proof (endswith_results pdf_name) as Hr. rewrite Hi in Hr.
    by rewrite endswith_png_name in Hr. }
  destruct (Hfr2 rp Hnt) as [E2|[_ E2]]; [|congruence].
  rewrite E2 in H2. destruct (Hfr rp) as [E1|[_ E1]]; congruence.
Qed.

End Entry.
End Folders.

Section Run.
Variable E : outside.
Variables folder_path model prompt : str.

Let output_folder := join folder_path (py "converted_pngs").
Let body := process_entry E folder_path model prompt output_folder.

Lemma pdf_to_text_Ok w w' :
  pdf_to_text E folder_path model prompt w = Ok tt w' →
  ∃ wa wd,
    makedirs E output_folder w = Ok tt wa ∧
    let wc := with_trace
                (trace wa ++ [EvListdir folder_path])
                (with_console (console wa ++ [py "Starting PDF-to-text conversion..."]) wa) in
    for_each (os_order E (FS.children (files wa) (resolve (cwd wa) folder_path))) body wc
      = Ok tt wd ∧
    trace w' = trace wd ∧ files w' = files wd.
Proof.
  unfold pdf_to_text. cbv zeta. fold output_folder body.
  unfold bind at 1. destruct (makedirs E output_folder w) as [[] wa|e wa]; [|done].
  unfold bind at 1. unfold print at 1. unfold bind at 1.
  destruct (listdir E folder_path _) as [entries wc|e wc] eqn:Hl; [|done].
  apply listdir_Ok in Hl as [-> ->]. simpl. unfold bind at 1.
  destruct (for_each _ body _) as [[] wd|e wd] eqn:Hrun; [|done].
  unfold print. intros [= <-]. by exists wa, wd.
Qed.

Lemma sound_body x : sound (page_request model prompt) (body x).
Proof. apply sound_process_entry. Qed.

End Run.

Lemma plain_converted : plain (py "converted_pngs").
Proof. apply plain_long; [by_compute|]. vm_compute. lia. Qed.

(** C10.  [pdf_to_text] creates [converted_pngs] first, and for an entry
    ending in [.pdf] the folder [converted_pngs/<stem>] before the document
    is opened for rasterisation.  After a run that ends normally both
    exist, for every entry of the input folder ending in [.pdf], whatever
    rasterisation answered.  At the level of one entry: the folder is there
    when rasterisation starts and after the entry, and when rasterisation
    answers [False] no results file has appeared in it. *)
Theorem C10_folders_before_rasterization (E : outside)
    (folder_path model prompt filename : str) (w w' w0 w1 w2 : world) (b : bool) :
  let output_folder := join folder_path (py "converted_pngs") in
  let pdf_name := fst (splitext filename) in
  let sub := join output_folder pdf_name in
  let top := resolve (cwd w) folder_path ++ [py "converted_pngs"] in
  let sub0 := resolve (cwd w0) output_folder ++ [pdf_name] in
  let r := process_entry E folder_path model prompt output_folder filename w0 in
  listing_ok E →
  fs_ok (files w) →
  is_Some (files w !! (resolve (cwd w) folder_path ++ [filename])) →
  endswith filename (py ".pdf") = true →
  pdf_to_text E folder_path model prompt w = Ok tt w' →
  makedirs E sub w0 = Ok tt w1 →
  convert_pdf_pages_to_png E (join folder_path filename) sub
    (with_console (console w1 ++ [py "Processing PDF: " ++ filename]) w1) = Ok b w2 →
  (FS.is_dir (files w') top = true ∧
   FS.is_dir (files w') (top ++ [pdf_name]) = true ∧
   ∃ evs1 evs2,
     new_events w w'
     = EvMakedirs output_folder
         :: evs1 ++ EvMakedirs sub :: EvFitzOpen (join folder_path filename) :: evs2) ∧
  (FS.is_dir (files w1) sub0 = true ∧
   FS.is_dir (files (world_of r)) sub0 = true ∧
   (b = false →
    ∀ data, files (world_of r) !! (sub0 ++ [pdf_name ++ py "_results.txt"])
            = Some (File data) →
            files w0 !! (sub0 ++ [pdf_name ++ py "_results.txt"]) = Some (File data))).
Proof.
  intros output_folder pdf_name sub top sub0 r Hlist Hok Hin Hpdf Hrun Hmk Hcv.
  assert (plain filename) as Hplain.
  { destruct Hin as [nd Hnd]. apply Hok in Hnd.
    rewrite Forall_app, Forall_singleton in Hnd. tauto. }
  split.
  - apply pdf_to_text_Ok in Hrun as (wa & wd & Hmka & Hloop & Htr & Hfs).
    fold output_folder in Hmka, Hloop. cbv zeta in Hloop.
    set (wc := with_trace _ _) in Hloop.
    pose proof Hmka as (Hca & _ & Hta & Hma)%makedirs_Ok.
    pose proof Hma as [Hfra Hda]%mkdirs_spec. specialize (Hda eq_refl). simpl in Hda.
    unfold output_folder in Hda. rewrite (resolve_join _ _ _ plain_converted) in Hda.
    fold top in Hda. apply is_dir_lookup in Hda.
    (* the entry is in the listing *)
    assert (filename ∈ os_order E (FS.children (files wa) (resolve (cwd wa) folder_path)))
      as Hentry.
    { rewrite (Hlist _), elem_of_children, Hca.
      destruct Hin as [nd Hnd]. destruct (Hfra (resolve (cwd w) folder_path ++ [filename]))
        as [->|[? _]]; [eauto|congruence]. }
    destruct (for_each_Ok_elem _ _ _ _ _ Hloop Hentry)
      as (l1 & l2 & wx & wx' & _ & H1 & Hx & H2).
    (* the worlds along the way *)
    pose proof (sound_for_each (page_request model prompt) l1 _
                  (fun x _ => sound_body E folder_path model prompt x) wc) as Ev1.
    fold output_folder in Ev1. rewrite H1 in Ev1. simpl in Ev1.
    pose proof (sound_for_each (page_request model prompt) l2 _
                  (fun x _ => sound_body E folder_path model prompt x) wx') as Ev2.
    fold output_folder in Ev2. rewrite H2 in Ev2. simpl in Ev2.
    pose proof (sound_body E folder_path model prompt filename wx) as Evx.
    fold output_folder in Evx. rewrite Hx in Evx. simpl in Evx.
    assert (cwd wx = cwd w) as Hcx.
    { destruct Ev1 as [-> _]. done. }
    (* the entry itself *)
    pose proof (process_entry_pdf E folder_path model prompt output_folder filename wx Hpdf)
      as Hpe. cbv zeta in Hpe. fold pdf_name sub in Hpe. rewrite Hx in Hpe.
    destruct (makedirs E sub wx) as [[] wxa|e wxa] eqn:Hmkx; [|done].
    destruct (entry_subfolder E folder_path model prompt output_folder filename
                Hplain Hpdf wx wxa Hmkx) as [_ Hsub].
    rewrite Hx in Hsub. simpl in Hsub. rewrite Hcx in Hsub.
    unfold output_folder in Hsub. rewrite (resolve_join _ _ _ plain_converted) in Hsub.
    fold top in Hsub.
    split; [|split].
    + rewrite Hfs. eapply is_dir_evolves; [exact Ev2|].
      eapply is_dir_evolves; [exact Evx|]. eapply is_dir_evolves; [exact Ev1|]. done.
    + rewrite Hfs. eapply is_dir_evolves; [exact Ev2|]. done.
    + destruct Ev1 as (_ & e1 & Ht1 & _). destruct Ev2 as (_ & e2 & Ht2 & _).
      apply makedirs_Ok in Hmkx as (_ & _ & Htx & _).
      set (wxa' := with_console _ wxa) in Hpe.
      destruct (convert_trace_head E (join folder_path filename) sub wxa') as [e3 Ht3].
      pose proof (sound_convert E (join folder_path filename) sub wxa') as Hevc.
      destruct (convert_pdf_pages_to_png E _ sub wxa') as [[|] wxb|e wxb] eqn:Hcvx;
        [| |done]; simpl in Ht3.
      * pose proof (sound_bind (page_request model prompt) _ _
                      (sound_extract_pages E model prompt sub
                         (join sub (pdf_name ++ py "_results.txt")))
                      (fun _ => sound_print _ (py "Finished processing PDF: " ++ filename))
                      wxb) as (_ & e4 & Ht4 & _).
        rewrite <-Hpe in Ht4. simpl in Ht4.
        exists ([EvListdir folder_path] ++ e1), (e3 ++ e4 ++ e2).
        apply new_events_app. rewrite Htr, Ht2, Ht4, Ht3. simpl. rewrite Htx, Ht1.
        simpl. rewrite Hta. rewrite <-?app_assoc. simpl. by rewrite <-?app_assoc.
      * injection Hpe as Hwx'. subst wx'. simpl in Ht2.
        exists ([EvListdir folder_path] ++ e1), (e3 ++ e2).
        apply new_events_app. rewrite Htr, Ht2. rewrite Ht3. simpl.
        rewrite Htx, Ht1. simpl. rewrite Hta. rewrite <-?app_assoc. simpl.
        by rewrite <-?app_assoc.
  - destruct (entry_subfolder E folder_path model prompt output_folder filename
                Hplain Hpdf w0 w1 Hmk) as [Hd1 Hd2].
    split; [done|]. split; [done|]. intros -> data.
    pose proof (entry_no_results E folder_path model prompt output_folder filename
                  Hplain Hpdf w0 w1 w2 data Hmk Hcv) as Hno.
    cbv zeta in Hno. unfold sub0.
    by rewrite <-!app_assoc.
Qed.

(** ** The order of the blocks *)



Section Order.
Variable E : outside.

Lemma convert_true_inv pdf_path output_folder w w' :
  convert_pdf_pages_to_png E pdf_path output_folder w = Ok true w' →
  let stem := fst (splitext (basename pdf_path)) in
  ∃ n,
    fitz_open E
      (with_console (console w ++ [py "Converting PDF '" ++ pdf_path ++ py "' into PNGs..."]) w)
      pdf_path = inr n ∧
    cwd w' = cwd w ∧
    (∀ i, i < n →
       ∃ data, files w' !! resolve (cwd w) (join output_folder (png_name stem i))
               = Some (File data)) ∧
    (∀ p, (∀ i, i < n → p ≠ resolve (cwd w) (join output_folder (png_name stem i))) →
          files w' !! p = files w !! p).
Proof.
  intros Hcv stem. revert Hcv.
  unfold convert_pdf_pages_to_png, try_except. unfold bind at 1. unfold print at 1.
  unfold bind at 1. unfold fitz_open_.
  destruct (fitz_open E _ pdf_path) as [e|n] eqn:Ho; [done|].
  unfold bind at 1. fold stem.
  destruct (for_each _ _ _) as [[] wl|e wl] eqn:Hloop; [|done].
  apply render_loop_Ok in Hloop as (Hc & Hin & Hout). simpl in Hc, Hin, Hout.
  unfold doc_close, bind, log, print, ret. simpl. intros [= <-]. simpl.
  exists n. split; [done|]. split; [done|]. split.
  - intros i Hi. apply Hin. lia.
  - intros p Hp. apply Hout. intros i Hi. apply Hp. lia.
Qed.

Lemma extract_pages_Ok_open model prompt folder outfile w w' :
  extract_pages E model prompt folder outfile w = Ok tt w' →
  ∃ fs1, FS.create (files w) (resolve (cwd w) outfile) [] = inr fs1.
Proof.
  unfold extract_pages. unfold bind at 1. unfold open_w, bind at 1, log, os_error, raise.
  cbn beta iota. simpl files. simpl cwd.
  destruct (FS.create _ _ _) as [c|fs1]; [done|]. eauto.
Qed.

End Order.






(** ** The theorems at work on the demo *)

Import Demo DemoRuns.

Ltac run := vm_compute; reflexivity.

Lemma returns_world_of {A} (r : result A) a : returns r a → r = Ok a (world_of r).
Proof. destruct r; simpl; [by intros ->|done]. Defined.

Lemma raises_world_of {A} (r : result A) e : raises r e → r = Raise e (world_of r).
Proof. destruct r; simpl; [done|by intros ->]. Defined.

Lemma succeeds_fs_of x : succeeds x → x = inr (fs_of x).
Proof. by destruct x. Defined.

(** [m w] ends normally with the value of the goal, in the world it ends in. *)
Ltac ends :=
  lazymatch goal with
  | |- ?r = Ok ?a _ => refine (returns_world_of r a _); vm_compute; reflexivity
  | |- ?r = Raise ?e _ => refine (raises_world_of r e _); vm_compute; reflexivity
  end.

Lemma demo_listing_ok pages r : listing_ok (demo pages r).
Proof. intros l. apply reverse_Permutation. Defined.



Lemma C2_rasterization_writes_N_pngs_witness :
  ∃ w',
    convert_pdf_pages_to_png (demo [1; 2]%N Answers) pdf sub made2 = Ok true w' ∧
    files w' !! [py "d"; py "converted_pngs"; py "a"; py "a_page_1.png"]
      = Some (File [1; 300]%N) ∧
    files w' !! [py "d"; py "converted_pngs"; py "a"; py "a_page_2.png"]
      = Some (File [2; 300]%N).
Proof.
  destruct (C2_rasterization_writes_N_pngs (demo [1; 2]%N Answers) pdf sub 2 pix2 made2)
    as (w' & Hrun & _ & Hfiles & _).
  - run.
  - intros w' [|[|i]] Hi; [reflexivity..|lia].
  - run.
  - intros [|[|[|k]]] Hk; [lia| | |lia]; vm_compute; discriminate.
  - exists w'. split; [exact Hrun|]. split.
    + exact (Hfiles 1 ltac:(lia)).
    + exact (Hfiles 2 ltac:(lia)).
Defined.

Lemma C3_extraction_iff_rasterized_witness :
  ∃ w2,
    convert_pdf_pages_to_png (demo bad Answers) pdf sub
      (with_console (console made_bad ++ [py "Processing PDF: " ++ py "a.pdf"]) made_bad)
    = Ok false w2 ∧
    ∀ p enc,
      EvOpenWrite p enc
      ∉ new_events (start bad)
          (world_of (process_entry (demo bad Answers) folder model prompt top
                       (py "a.pdf") (start bad))).
Proof.
  destruct (C3_extraction_iff_rasterized (demo bad Answers) folder model prompt top
              (py "a.pdf") (start bad) made_bad)
    as (b & w2 & Hcv & _ & _ & Hfalse).
  - run.
  - ends.
  - assert (b = false) as ->.
    { assert (Ok b w2 = Ok false raster_bad) as [=]; [|done].
      rewrite <-Hcv. ends. }
    exists w2. split; [exact Hcv|]. exact (proj1 (Hfalse eq_refl)).
Defined.

Lemma C4_request_is_text_witness :
  ∃ r rest,
    new_events raster2
      (world_of (process_page (demo [1; 2]%N Answers) model prompt sub outfile
                   (py "a_page_1.png") raster2))
    = EvRun [py "ollama"; py "run"; model]
        (Some (prompt ++ py " File: " ++ join sub (py "a_page_1.png")))
        (Some (py "utf-8")) r :: rest.
Proof.
  destruct (C4_request_is_text (demo [1; 2]%N Answers) folder model prompt sub outfile
              (py "a_page_1.png") raster2) as [(r & rest & Hev & _) _].
  - run.
  - exists r, rest. exact Hev.
Defined.



Lemma C6_truncate_and_frame_witness :
  files (world_of (extract_pages (demo [1%N] Answers) model prompt sub outfile (rerun [1%N])))
    !! [py "d"; py "converted_pngs"; py "a"; py "a_results.txt"]
  = Some (File (py "{}" ++ [10%N])) ∧
  files (world_of (pdf_to_text (demo [1%N] Answers) folder model prompt (rerun [1%N])))
    !! [py "d"; py "converted_pngs"; py "a"; py "a_page_2.png"]
  = Some (File [9%N]).
Proof.
  destruct (C6_truncate_and_frame (demo [1%N] Answers) folder model prompt sub outfile
              (rerun [1%N]) (rerun [1%N])
              (fs_of (FS.create (files (rerun [1%N])) (resolve [] outfile) []))
              [py "d"; py "converted_pngs"; py "a"; py "a_page_2.png"] (File [9%N]))
    as [Hres Hpng].
  - apply succeeds_fs_of. vm_compute. exact I.
  - run.
  - apply (bool_decide_unpack _). run.
  - split; [|exact Hpng]. etransitivity; [exact Hres|]. run.
Defined.

Lemma demo_raster_failure :
  raster_failure (demo bad Answers) pdf sub made_bad 1
    (Exn OtherError (py "cannot render page")) failed_bad.
Proof.
  apply (fail_page (demo bad Answers) pdf sub made_bad 3 1 first_bad).
  - run.
  - lia.
  - ends.
  - ends.
Defined.

Lemma C7_failure_is_caught_witness :
  ∃ w',
    convert_pdf_pages_to_png (demo bad Answers) pdf sub made_bad = Ok false w' ∧
    ∃ data,
      files w' !! resolve [] (join sub (png_name (py "a") 0)) = Some (File data).
Proof.
  destruct (C7_failure_is_caught (demo bad Answers) pdf sub made_bad 1
              (Exn OtherError (py "cannot render page")) failed_bad demo_raster_failure)
    as (w' & Hrun & _ & _ & _ & Hpages).
  exists w'. split; [exact Hrun|]. exact (Hpages 0 ltac:(lia)).
Defined.

Lemma C8_non_pdf_ignored_witness :
  process_entry (demo [1; 2]%N Answers) folder model prompt top (py "notes.txt")
    (start [1; 2]%N) = Ok tt (start [1; 2]%N) ∧
  for_each ([py "a.pdf"] ++ py "notes.txt" :: [])
    (process_entry (demo [1; 2]%N Answers) folder model prompt top) (start [1; 2]%N)
  = for_each ([py "a.pdf"] ++ [])
      (process_entry (demo [1; 2]%N Answers) folder model prompt top) (start [1; 2]%N).
Proof.
  apply (C8_non_pdf_ignored (demo [1; 2]%N Answers) folder model prompt top
           (py "notes.txt") [py "a.pdf"] [] (start [1; 2]%N)).
  run.
Defined.

Lemma C10_folders_before_rasterization_witness :
  FS.is_dir (files run_bad) [py "d"; py "converted_pngs"] = true ∧
  FS.is_dir (files run_bad) [py "d"; py "converted_pngs"; py "a"] = true ∧
  FS.is_dir (files made_bad) [py "d"; py "converted_pngs"; py "a"] = true.
Proof.
  destruct (C10_folders_before_rasterization (demo bad Answers) folder model prompt
              (py "a.pdf") (start bad) run_bad (start bad) made_bad raster_bad false)
    as [(Htop & Hsub & _) (Hmade & _ & _)].
  - apply demo_listing_ok.
  - apply (bool_decide_unpack _). run.
  - eexists. run.
  - run.
  - ends.
  - ends.
  - ends.
  - split; [exact Htop|]. split; [exact Hsub|]. exact Hmade.
Defined.

(** ** Choosing a model *)

Lemma world_eta w : World (cwd w) (files w) (console w) (trace w) = w.
Proof. by destruct w. Qed.

Lemma index_in_range (l : list str) (choice : Z) :
  (1 ≤ choice ≤ Z.of_nat (length l))%Z →
  ∃ m, l !! Z.to_nat (choice - 1) = Some m ∧ ∀ w, index l (choice - 1) w = Ok m w.
Proof.
  intros Hc. destruct (lookup_lt_is_Some_2 l (Z.to_nat (choice - 1))) as [m Hm]; [lia|].
  exists m. split; [done|]. intros w. unfold index. cbv zeta.
  destruct (Z.ltb_spec (choice - 1) 0); [lia|].
  destruct (Z.leb_spec 0 (choice - 1)); [|lia]. by rewrite Hm.
Qed.

Section SelectProofs.
Variable int : str → option Z.
Variable models : list str.

Let ask : str := py "Enter the number of the model to select: ".
Let heard (line : str) : list str := [ask; rejection int line].
Let menu : list str :=
  py "Available Models:"
    :: map (fun '(idx, model) => str_of_nat (idx + 1) ++ py ": " ++ model)
         (zip (seq 0 (length models)) models).

Lemma accepted_choice line :
  accepted int models line = true →
  ∃ choice, int line = Some choice ∧ (1 ≤ choice ≤ Z.of_nat (length models))%Z.
Proof.
  unfold accepted. destruct (int line) as [choice|]; [|done].
  intros [H1 H2]%andb_prop. exists choice. split; [done|]. lia.
Qed.

(** A line that is not accepted costs one question and one answer. *)
Lemma select_loop_rejected line stdin w :
  accepted int models line = false →
  select_loop int models (line :: stdin) w
  = select_loop int models stdin
      (World (cwd w) (files w) (console w ++ heard line) (trace w)).
Proof.
  intros Hr. cbn [select_loop]. unfold accepted, heard, rejection in *.
  unfold bind at 1. unfold print at 1.
  destruct (int line) as [choice|].
  - rewrite Hr. unfold bind at 1, print at 1. simpl.
    by rewrite <-(app_assoc (console w)).
  - unfold bind at 1, print at 1. simpl. by rewrite <-(app_assoc (console w)).
Qed.

Lemma select_loop_rejects bad stdin w :
  Forall (fun line => accepted int models line = false) bad →
  select_loop int models (bad ++ stdin) w
  = select_loop int models stdin
      (World (cwd w) (files w) (console w ++ flat_map heard bad) (trace w)).
Proof.
  intros Hbad. revert w. induction Hbad as [|line bad Hline _ IH]; intros w.
  { simpl. by rewrite app_nil_r, world_eta. }
  rewrite <-app_comm_cons, select_loop_rejected by done. rewrite IH. simpl.
  by rewrite <-(app_assoc (console w)).
Qed.

Lemma select_loop_accepted line rest w :
  accepted int models line = true →
  ∃ choice m,
    int line = Some choice ∧ models !! Z.to_nat (choice - 1) = Some m ∧
    select_loop int models (line :: rest) w
    = Ok (m, rest)
        (World (cwd w) (files w)
           (console w ++ [ask; py "Model selected: " ++ m]) (trace w)).
Proof.
  intros Ha. destruct (accepted_choice line Ha) as (choice & Hint & Hc).
  destruct (index_in_range models choice Hc) as (m & Hm & Hidx).
  exists choice, m. split; [done|]. split; [done|].
  cbn [select_loop]. unfold accepted in Ha. rewrite Hint in *. rewrite Ha.
  unfold bind at 1. unfold print at 1. unfold bind at 1. rewrite Hidx.
  unfold bind at 1, print at 1. unfold bind at 1. rewrite Hidx.
  unfold ret. simpl. by rewrite <-(app_assoc (console w)).
Qed.

Lemma select_loop_end w :
  select_loop int models [] w
  = Raise EOFError (World (cwd w) (files w) (console w ++ [ask]) (trace w)).
Proof. reflexivity. Qed.

(** The menu: a title and one numbered line per model. *)
Lemma select_menu stdin w :
  select_llm_model int models stdin w
  = select_loop int models stdin
      (World (cwd w) (files w) (console w ++ menu) (trace w)).
Proof.
  unfold select_llm_model. unfold bind at 1. unfold print at 1.
  assert (∀ (l : list (nat * str)) w0,
            for_each l (fun '(idx, model) => print (str_of_nat (idx + 1) ++ py ": " ++ model)) w0
            = Ok tt (World (cwd w0) (files w0)
                       (console w0 ++ map (fun '(idx, model) =>
                                             str_of_nat (idx + 1) ++ py ": " ++ model) l)
                       (trace w0))) as Hmenu.
  { induction l as [|[idx model] l IH]; intros w0; simpl.
    - unfold ret. by rewrite app_nil_r, world_eta.
    - unfold bind at 1. unfold print at 1. rewrite IH. simpl.
      by rewrite <-(app_assoc (console w0)). }
  unfold bind at 1. rewrite Hmenu. simpl. unfold menu.
  by rewrite <-(app_assoc (console w)).
Qed.

End SelectProofs.

(** X1.  [select_llm_model] returns the model numbered by the first line
    of standard input that is a number from 1 to the number of models: the
    lines before it are each answered with a message and skipped, the lines
    after it are left unread.  The console gets the menu, one question and
    one message per skipped line, and the question and the selection; the
    file system and the trace stay as they are. *)
Theorem X1_select_first_accepted_line (int : str → option Z)
    (models bad : list str) (line : str) (rest : list str) (w : world) :
  Forall (fun l => accepted int models l = false) bad →
  accepted int models line = true →
  ∃ choice m w',
    int line = Some choice ∧
    models !! Z.to_nat (choice - 1) = Some m ∧
    select_llm_model int models (bad ++ line :: rest) w = Ok (m, rest) w' ∧
    console w'
    = console w
        ++ (py "Available Models:"
              :: map (fun '(idx, model) => str_of_nat (idx + 1) ++ py ": " ++ model)
                   (zip (seq 0 (length models)) models))
        ++ flat_map (fun l => [py "Enter the number of the model to select: ";
                               rejection int l]) bad
        ++ [py "Enter the number of the model to select: "; py "Model selected: " ++ m] ∧
    files w' = files w ∧ trace w' = trace w.
Proof.
  intros Hbad Hline.
  rewrite select_menu, select_loop_rejects by done.
  match goal with |- context [select_loop int models (line :: rest) ?w0] =>
    destruct (select_loop_accepted int models line rest w0 Hline)
      as (choice & m & Hint & Hm & ->) end.
  exists choice, m. eexists. split; [done|]. split; [done|]. split; [done|].
  simpl. split; [|done]. by rewrite <-!app_assoc.
Qed.

(** X2.  Whatever [select_llm_model] returns was chosen: the lines read
    before were all refused, the last line read is a number from 1 to the
    number of models, and the model returned is the one at that place of
    the list.  The lines after it come back unread. *)
Theorem X2_selected_model_was_chosen (int : str → option Z)
    (models stdin : list str) (m : str) (rest : list str) (w w' : world) :
  select_llm_model int models stdin w = Ok (m, rest) w' →
  ∃ bad line choice,
    stdin = bad ++ line :: rest ∧
    Forall (fun l => accepted int models l = false) bad ∧
    int line = Some choice ∧
    (1 ≤ choice ≤ Z.of_nat (length models))%Z ∧
    models !! Z.to_nat (choice - 1) = Some m ∧
    m ∈ models.
Proof.
  rewrite select_menu. generalize (World (cwd w) (files w)
    (console w ++ py "Available Models:"
       :: map (fun '(idx, model) => str_of_nat (idx + 1) ++ py ": " ++ model)
            (zip (seq 0 (length models)) models)) (trace w)).
  induction stdin as [|line stdin IH]; intros w0; [by rewrite select_loop_end|].
  destruct (accepted int models line) eqn:Ha.
  - destruct (select_loop_accepted int models line stdin w0 Ha)
      as (choice & m' & Hint & Hm & ->).
    intros [= <- <- _]. destruct (accepted_choice int models line Ha) as (c & Hc & Hr).
    rewrite Hint in Hc. injection Hc as <-.
    exists [], line, choice. repeat split; try done; try lia.
    by eapply list_elem_of_lookup_2.
  - rewrite select_loop_rejected by done.
    intros (bad & line' & choice & -> & Hbad & Hrest)%IH.
    exists (line :: bad), line', choice. split; [done|]. split; [|done].
    by constructor.
Qed.

(** X3.  When no line of standard input is a number from 1 to the number
    of models, [select_llm_model] never returns: every line is answered
    with a message, and when the input ends the next question raises
    [EOFError], which the function does not catch. *)
Theorem X3_no_accepted_line_ends_in_EOFError (int : str → option Z)
    (models stdin : list str) (w : world) :
  Forall (fun l => accepted int models l = false) stdin →
  ∃ w',
    select_llm_model int models stdin w = Raise EOFError w' ∧
    console w'
    = console w
        ++ (py "Available Models:"
              :: map (fun '(idx, model) => str_of_nat (idx + 1) ++ py ": " ++ model)
                   (zip (seq 0 (length models)) models))
        ++ flat_map (fun l => [py "Enter the number of the model to select: ";
                               rejection int l]) stdin
        ++ [py "Enter the number of the model to select: "].
Proof.
  intros Hbad. rewrite select_menu.
  match goal with |- context [select_loop int models stdin ?w0] =>
    pose proof (select_loop_rejects int models stdin [] w0 Hbad) as Hloop end.
  rewrite app_nil_r in Hloop. rewrite Hloop, select_loop_end.
  eexists. split; [done|]. simpl. by rewrite <-!app_assoc.
Qed.

(** X4.  With an empty list of models (what [list_llm_models] gives when
    the runner is missing or fails) no answer is ever accepted:
    [select_llm_model] ends in [EOFError] on every input, after refusing
    every line. *)
Theorem X4_empty_menu_accepts_nothing (int : str → option Z)
    (stdin : list str) (w : world) :
  Forall (fun l => accepted int [] l = false) stdin ∧
  ∃ w', select_llm_model int [] stdin w = Raise EOFError w' ∧
        files w' = files w ∧ trace w' = trace w.
Proof.
  assert (Forall (fun l => accepted int [] l = false) stdin) as Hbad.
  { apply Forall_forall. intros l _. unfold accepted.
    destruct (int l) as [choice|]; [|done]. apply andb_false_iff.
    destruct (Z.le_gt_cases 1 choice);
      [right | left]; apply Z.leb_gt; simpl; lia. }
  split; [done|]. rewrite select_menu.
  match goal with |- context [select_loop int [] stdin ?w0] =>
    pose proof (select_loop_rejects int [] stdin [] w0 Hbad) as Hloop end.
  rewrite app_nil_r in Hloop. rewrite Hloop, select_loop_end.
  eexists. split; [reflexivity|]. by simpl.
Qed.

Lemma X1_select_first_accepted_line_witness :
  ∃ w',
    select_llm_model DemoSelect.demo_int DemoSelect.models
      [py "x"; py "5"; py "2"; py "1"] DemoSelect.empty_world
    = Ok (py "llava:7b", [py "1"]) w' ∧
    files w' = ∅ ∧ trace w' = [].
Proof.
  destruct (X1_select_first_accepted_line DemoSelect.demo_int DemoSelect.models
              [py "x"; py "5"] (py "2") [py "1"] DemoSelect.empty_world)
    as (choice & m & w' & Hint & Hm & Hrun & _ & Hf & Ht).
  - repeat constructor; run.
  - run.
  - exists w'. split; [|by split].
    assert (choice = 2%Z) as -> by (vm_compute in Hint; congruence).
    assert (m = py "llava:7b") as -> by (vm_compute in Hm; injection Hm as <-; run).
    exact Hrun.
Defined.

Lemma X2_selected_model_was_chosen_witness :
  ∃ bad line,
    [py "x"; py "5"; py "2"; py "1"] = bad ++ line :: [py "1"] ∧
    DemoSelect.demo_int line = Some 2%Z ∧
    py "llava:7b" ∈ DemoSelect.models.
Proof.
  destruct (X2_selected_model_was_chosen DemoSelect.demo_int DemoSelect.models
              [py "x"; py "5"; py "2"; py "1"] (py "llava:7b") [py "1"]
              DemoSelect.empty_world
              (world_of (select_llm_model DemoSelect.demo_int DemoSelect.models
                           [py "x"; py "5"; py "2"; py "1"] DemoSelect.empty_world)))
    as (bad & line & choice & Hsplit & _ & Hint & _ & Hm & Hin).
  - ends.
  - exists bad, line. split; [done|]. split; [|done].
    rewrite Hint. f_equal.
    assert (length bad = 2) as Hlen.
    { apply (f_equal length) in Hsplit. rewrite length_app in Hsplit. simpl in Hsplit. lia. }
    destruct bad as [|b1 [|b2 [|b3 bad]]]; try (simpl in Hlen; lia).
    injection Hsplit as _ _ <-. vm_compute in Hint. congruence.
Defined.

Lemma X3_no_accepted_line_ends_in_EOFError_witness :
  ∃ w',
    select_llm_model DemoSelect.demo_int DemoSelect.models
      [py "x"; py "5"; py "0"] DemoSelect.empty_world
    = Raise EOFError w' ∧
    length (console w') = 10.
Proof.
  destruct (X3_no_accepted_line_ends_in_EOFError DemoSelect.demo_int DemoSelect.models
              [py "x"; py "5"; py "0"] DemoSelect.empty_world) as (w' & Hrun & Hc).
  - repeat constructor; run.
  - exists w'. split; [done|]. rewrite Hc. reflexivity.
Defined.

(** ** The names of the listing *)

Lemma token_prefix_no_space s : Forall (fun c => isspace c = false) (token_prefix s).
Proof.
  induction s as [|c s IH]; simpl; [constructor|].
  destruct (isspace c) eqn:Hc; by constructor.
Qed.

(** A line is white space, its first token, and then nothing or a white
    space and the rest. *)
Lemma token_prefix_cut s :
  ∃ post, s = token_prefix s ++ post ∧
          match post with [] => True | c :: _ => isspace c = true end.
Proof.
  induction s as [|c s (post & IH & Hpost)]; simpl; [by exists []|].
  destruct (isspace c) eqn:Hc.
  - exists (c :: s). by rewrite Hc.
  - exists post. split; [simpl; by f_equal|done].
Qed.

Lemma lstrip_cut s : ∃ pre, s = pre ++ lstrip s ∧ forallb isspace pre = true.
Proof.
  induction s as [|c s (pre & IH & Hpre)]; simpl; [by exists []|].
  destruct (isspace c) eqn:Hc.
  - exists (c :: pre). simpl. rewrite Hc, Hpre. split; [by f_equal|done].
  - by exists [].
Qed.

Lemma first_token_shape line :
  blank line = false →
  first_token line ≠ [] ∧
  Forall (fun c => isspace c = false) (first_token line) ∧
  ∃ pre post, line = pre ++ first_token line ++ post ∧
              forallb isspace pre = true ∧
              match post with [] => True | c :: _ => isspace c = true end.
Proof.
  intros Hb. unfold first_token.
  destruct (lstrip_cut line) as (pre & Hline & Hpre).
  destruct (token_prefix_cut (lstrip line)) as (post & Hcut & Hpost).
  split; [|split; [apply token_prefix_no_space|]].
  - destruct (lstrip line) as [|c s] eqn:Hl.
    { apply lstrip_nil in Hl. unfold blank in Hb. congruence. }
    simpl. by rewrite (lstrip_head _ _ _ Hl).
  - exists pre, post. split; [|done]. by rewrite <-Hcut.
Qed.

(** X5.  Every name [list_llm_models] returns is a word of the standard
    output of the list command: it is not empty, it holds no white space,
    and some line of the output is white space, then the name, then either
    nothing or a white space and the rest of the line. *)
Theorem X5_listed_names_are_words (E : outside) (w w' : world) (names : list str) :
  list_llm_models E w = Ok names w' →
  Forall (fun name => name ≠ [] ∧ Forall (fun c => isspace c = false) name) names ∧
  (names ≠ [] →
   ∃ c, subprocess_run E
          (with_console (console w ++ [py "Fetching available Llama models..."]) w)
          [py "ollama"; py "list"] None None = inr c ∧
        returncode c = 0%Z ∧
        ∀ name, name ∈ names →
          ∃ line pre post,
            line ∈ splitlines (stdout c) ∧ line = pre ++ name ++ post ∧
            forallb isspace pre = true ∧
            match post with [] => True | x :: _ => isspace x = true end).
Proof.
  unfold list_llm_models, try_except, bind, print, run. simpl.
  destruct (subprocess_run E _ _ None None) as [e|c]; simpl.
  { destruct (is_FileNotFoundError e); [|done]. intros [= <- _]. by split. }
  destruct (Z.eqb_spec (returncode c) 0) as [Hrc|Hrc]; simpl;
    [|intros [= <- _]; by split].
  rewrite first_tokens_spec. simpl. intros [= <- _]. split.
  - apply Forall_forall. intros name (line & -> & Hline)%list_elem_of_fmap.
    apply list_elem_of_filter in Hline as [Hb _].
    destruct (first_token_shape line Hb) as (Hne & Hns & _). done.
  - intros _. exists c. split; [done|]. split; [done|].
    intros name (line & -> & Hline)%list_elem_of_fmap.
    apply list_elem_of_filter in Hline as [Hb Hin].
    destruct (first_token_shape line Hb) as (_ & _ & pre & post & Hcut & Hpre & Hpost).
    by exists line, pre, post.
Qed.

Lemma X5_listed_names_are_words_witness :
  Forall (fun name => name ≠ [] ∧ Forall (fun c => isspace c = false) name)
    [py "{}"].
Proof.
  refine (proj1 (X5_listed_names_are_words (Demo.demo [] Demo.Answers)
                   DemoSelect.empty_world
                   (world_of (list_llm_models (Demo.demo [] Demo.Answers)
                                DemoSelect.empty_world))
                   [py "{}"] _)).
  ends.
Defined.

(** X6.  [list_llm_models] makes one call, [ollama list] without input and
    without an encoding, and touches no file, however the call ends; an
    exception of the call that is not [FileNotFoundError] leaves the
    function. *)
Theorem X6_listing_is_one_call (E : outside) (w : world) :
  let w1 := with_console (console w ++ [py "Fetching available Llama models..."]) w in
  let answer := subprocess_run E w1 [py "ollama"; py "list"] None None in
  let r := list_llm_models E w in
  files (world_of r) = files w ∧
  cwd (world_of r) = cwd w ∧
  trace (world_of r) = trace w ++ [EvRun [py "ollama"; py "list"] None None answer] ∧
  (∀ e, raises r e ↔ answer = inl e ∧ is_FileNotFoundError e = false).
Proof.
  intros w1 answer r. unfold r, answer, list_llm_models, try_except, bind, print, run.
  simpl. fold w1.
  destruct (subprocess_run E w1 _ None None) as [e|c]; simpl.
  - destruct (is_FileNotFoundError e) eqn:He; simpl;
      (split; [done|]; split; [done|]; split; [done|]); intros e'; split.
    + done.
    + intros [[= <-] ?]. congruence.
    + by intros ->.
    + by intros [[= <-] _].
  - destruct (returncode c =? 0)%Z; simpl; rewrite ?first_tokens_spec; simpl;
      (split; [done|]; split; [done|]; split; [done|]); intros e'; split;
      try done; by intros [? _].
Qed.

(** ** What the answer of rasterisation tells *)

Lemma create_parent fs d n data fs' :
  FS.create fs (d ++ [n]) data = inr fs' → FS.node_at fs d = Some Dir.
Proof.
  unfold FS.create. destruct (d ++ [n]) eqn:Hdn; [by destruct d|]. rewrite <-Hdn.
  rewrite removelast_last. by destruct (FS.node_at fs d) as [[|?]|].
Qed.

(** A loop over a range that raises: the rounds before went well, and one
    round raised. *)
Lemma for_each_seq_Raise body a n w e we :
  for_each (seq a n) body w = Raise e we →
  ∃ k wk, k < n ∧ for_each (seq a k) body w = Ok tt wk ∧ body (a + k) wk = Raise e we.
Proof.
  revert a w. induction n as [|n IH]; intros a w; simpl; [done|].
  unfold bind at 1. destruct (body a w) as [[] w1|e1 w1] eqn:H1.
  - intros (k & wk & Hk & Hpre & Hfail)%IH. exists (S k), wk.
    split; [lia|]. split.
    + simpl. unfold bind at 1. by rewrite H1.
    + by replace (a + S k) with (S a + k) by lia.
  - intros [= <- <-]. exists 0, w. split; [lia|]. split; [done|].
    by rewrite Nat.add_0_r.
Qed.

Section Answer.
Variable E : outside.
Variables pdf_path output_folder : str.

Let stem := fst (splitext (basename pdf_path)).
Let target (i : nat) : str := join output_folder (png_name stem i).
Let steps (i : nat) : list event := [EvGetPixmap pdf_path i 300; EvSave (target i)].

Lemma render_page_Ok_dir n i w w' :
  render_page E pdf_path output_folder stem n i w = Ok tt w' →
  FS.node_at (files w) (resolve (cwd w) output_folder) = Some Dir.
Proof.
  unfold render_page. cbv beta iota zeta delta [bind print get_pixmap_].
  destruct (get_pixmap E _ pdf_path i 300) as [e|pix]; [done|].
  unfold pix_save, bind, log, os_error, raise. simpl.
  rewrite (resolve_target pdf_path output_folder (cwd w) i
           : resolve (cwd w) (join output_folder (png_name stem i)) = _).
  destruct (FS.create _ _ _) as [c|fs'] eqn:Hc; [done|].
  intros _. by apply create_parent in Hc.
Qed.

(** A loop that went well: its events, and what it needed. *)
Lemma render_loop_Ok_trace n a k w w' :
  for_each (seq a k) (render_page E pdf_path output_folder stem n) w = Ok tt w' →
  trace w' = trace w ++ flat_map steps (seq a k) ∧
  (0 < k → FS.node_at (files w) (resolve (cwd w) output_folder) = Some Dir) ∧
  (∀ i, a ≤ i < a + k → files w !! resolve (cwd w) (target i) ≠ Some Dir).
Proof.
  revert a w. induction k as [|k IH]; intros a w; simpl.
  { intros [= <-]. rewrite app_nil_r. split; [done|]. split; intros; lia. }
  unfold bind at 1.
  destruct (render_page _ _ _ _ _ a w) as [[] w1|e w1] eqn:H1; [|done].
  pose proof (render_page_Ok_dir _ _ _ _ H1) as Hdir.
  apply (render_page_Ok E pdf_path output_folder) in H1 as (pix & _ & Hnd & ->).
  intros (Ht & _ & Hn)%IH. simpl in *.
  split; [by rewrite Ht, <-(app_assoc (trace w))|]. split; [done|].
  intros i Hi. destruct (decide (i = a)) as [->|Hne]; [done|].
  specialize (Hn i ltac:(lia)). rewrite lookup_insert_ne in Hn; [done|].
  intros Heq%(target_inj pdf_path output_folder). lia.
Qed.

(** The round that raised: the page was asked for, and saved or not. *)
Lemma render_page_Raise_trace n i w e we :
  render_page E pdf_path output_folder stem n i w = Raise e we →
  trace we = trace w ++ [EvGetPixmap pdf_path i 300] ∨ trace we = trace w ++ steps i.
Proof.
  unfold render_page. cbv beta iota zeta delta [bind print get_pixmap_].
  destruct (get_pixmap E _ pdf_path i 300) as [e'|pix]; [intros [= _ <-]; by left|].
  unfold pix_save, bind, log, os_error, raise. simpl.
  destruct (FS.create _ _ _) as [c|fs'] eqn:Hc; [|done]. intros [= _ <-]. right.
  simpl. by rewrite <-(app_assoc (trace w)).
Qed.

Lemma convert_True w w' :
  convert_pdf_pages_to_png E pdf_path output_folder w = Ok true w' →
  ∃ n,
    fitz_open E
      (with_console (console w ++ [py "Converting PDF '" ++ pdf_path ++ py "' into PNGs..."]) w)
      pdf_path = inr n ∧
    trace w' = trace w ++ EvFitzOpen pdf_path :: flat_map steps (seq 0 n)
                 ++ [EvDocClose pdf_path] ∧
    (0 < n → FS.node_at (files w) (resolve (cwd w) output_folder) = Some Dir) ∧
    (∀ i, i < n → files w !! resolve (cwd w) (target i) ≠ Some Dir).
Proof.
  unfold convert_pdf_pages_to_png, try_except. unfold bind at 1. unfold print at 1.
  unfold bind at 1. unfold fitz_open_.
  destruct (fitz_open E _ pdf_path) as [e|n] eqn:Ho; [done|].
  unfold bind at 1. fold stem.
  destruct (for_each _ _ _) as [[] wl|e wl] eqn:Hloop; [|done].
  apply render_loop_Ok_trace in Hloop as (Ht & Hd & Hn). simpl in Ht, Hd, Hn.
  unfold doc_close, bind, log, print, ret. simpl. intros [= <-]. simpl.
  exists n. split; [done|]. split; [by rewrite Ht, <-!app_assoc|]. split; [done|].
  intros i Hi. apply Hn. lia.
Qed.

Lemma convert_False w w' :
  convert_pdf_pages_to_png E pdf_path output_folder w = Ok false w' →
  ∃ k e we,
    raster_failure E pdf_path output_folder w k e we ∧
    console w' = console we ++ [py "Error converting " ++ pdf_path ++ py " to PNG: "
                                  ++ exn_msg e] ∧
    files w' = files we ∧
    trace w' = trace we ∧
    ∃ last,
      trace we = trace w ++ EvFitzOpen pdf_path :: flat_map steps (seq 0 k) ++ last ∧
      (last = [] ∨ last = [EvGetPixmap pdf_path k 300] ∨ last = steps k).
Proof.
  unfold convert_pdf_pages_to_png, try_except. unfold bind at 1. unfold print at 1.
  unfold bind at 1. unfold fitz_open_.
  destruct (fitz_open E _ pdf_path) as [e|n] eqn:Ho.
  { simpl. intros [= <-]. eexists 0, e, _. split; [by apply fail_open|].
    simpl. repeat split. exists []. split; [done|by left]. }
  unfold bind at 1. fold stem.
  destruct (for_each _ _ _) as [[] wl|e wl] eqn:Hloop; [done|].
  simpl. intros [= <-].
  apply for_each_seq_Raise in Hloop as (k & wk & Hk & Hpre & Hfail). simpl in Hfail.
  exists k, e, wl. split; [by eapply fail_page|]. simpl. repeat split.
  apply render_loop_Ok_trace in Hpre as (Ht & _). simpl in Ht.
  apply render_page_Raise_trace in Hfail as [Hl|Hl]; rewrite Hl, Ht.
  - exists [EvGetPixmap pdf_path k 300]. split; [by rewrite <-!app_assoc|]. auto.
  - exists (steps k). split; [by rewrite <-!app_assoc|]. auto.
Qed.

End Answer.

(** X7.  When [convert_pdf_pages_to_png] returns [True], the document was
    opened and has some number [n] of pages, and the calls made are: open,
    then for each page in order render at 300 dpi and save to
    [<stem>_page_<k>.png], then close.  Every page file is then on disk,
    and with a page to write the destination was a directory. *)
Theorem X7_true_means_every_page_saved (E : outside)
    (pdf_path output_folder : str) (w w' : world) :
  convert_pdf_pages_to_png E pdf_path output_folder w = Ok true w' →
  let stem := fst (splitext (basename pdf_path)) in
  let name k := stem ++ py "_page_" ++ str_of_nat k ++ py ".png" in
  let dir := resolve (cwd w) output_folder in
  ∃ n,
    fitz_open E
      (with_console (console w ++ [py "Converting PDF '" ++ pdf_path ++ py "' into PNGs..."]) w)
      pdf_path = inr n ∧
    new_events w w'
    = EvFitzOpen pdf_path
        :: flat_map (fun i => [EvGetPixmap pdf_path i 300;
                               EvSave (join output_folder (name (i + 1)))]) (seq 0 n)
        ++ [EvDocClose pdf_path] ∧
    (0 < n → FS.is_dir (files w) dir = true) ∧
    (∀ k, 1 ≤ k ≤ n → ∃ data, files w' !! (dir ++ [name k]) = Some (File data)).
Proof.
  intros Hrun stem name dir.
  pose proof (convert_true_inv E _ _ _ _ Hrun) as (n' & Ho' & _ & Hin & _).
  apply convert_True in Hrun as (n & Ho & Ht & Hd & _).
  assert (n' = n) as -> by congruence.
  assert (∀ i, resolve (cwd w) (join output_folder (png_name stem i))
               = dir ++ [name (i + 1)]) as Hres.
  { intros i. apply (resolve_target pdf_path output_folder). }
  exists n. split; [done|]. split; [by apply new_events_app|]. split.
  - intros Hpos. by apply is_dir_lookup, Hd.
  - intros k Hk. replace k with ((k - 1) + 1) by lia. rewrite <-Hres.
    apply Hin. lia.
Qed.

(** X8.  When [convert_pdf_pages_to_png] returns [False], a step raised:
    opening the document, or rendering or saving some page [k] after the
    pages before it were written.  The calls made are: open, render and
    save for the pages before [k], and then nothing, or the rendering of
    page [k], or its rendering and the save that failed.  So no later page
    is asked for and the document is never closed. *)
Theorem X8_false_means_a_step_raised (E : outside)
    (pdf_path output_folder : str) (w w' : world) :
  convert_pdf_pages_to_png E pdf_path output_folder w = Ok false w' →
  let stem := fst (splitext (basename pdf_path)) in
  let steps i := [EvGetPixmap pdf_path i 300;
                  EvSave (join output_folder (png_name stem i))] in
  ∃ k e we fin,
    raster_failure E pdf_path output_folder w k e we ∧
    files w' = files we ∧
    last (console w')
    = Some (py "Error converting " ++ pdf_path ++ py " to PNG: " ++ exn_msg e) ∧
    new_events w w' = EvFitzOpen pdf_path :: flat_map steps (seq 0 k) ++ fin ∧
    (fin = [] ∨ fin = [EvGetPixmap pdf_path k 300] ∨ fin = steps k) ∧
    EvDocClose pdf_path ∉ new_events w w'.
Proof.
  intros Hrun stem steps.
  apply convert_False in Hrun as (k & e & we & Hfail & Hc & Hf & Ht & fin & Hl & Hlast).
  exists k, e, we, fin. split; [done|]. split; [done|].
  split; [by rewrite Hc, last_snoc|].
  assert (new_events w w' = EvFitzOpen pdf_path :: flat_map steps (seq 0 k) ++ fin) as Hev.
  { apply new_events_app. by rewrite Ht, Hl. }
  split; [done|]. split; [done|]. rewrite Hev.
  rewrite elem_of_cons, elem_of_app, (list_elem_of_In (flat_map _ _)), in_flat_map.
  intros [?|[(i & _ & Hi)|Hin]]; [done| |].
  - simpl in Hi. destruct Hi as [Hi|[Hi|Hi]]; done.
  - destruct Hlast as [-> | [-> | ->]]; apply list_elem_of_In in Hin; simpl in Hin;
      intuition discriminate.
Qed.

Lemma X7_true_means_every_page_saved_witness :
  ∃ n, new_events DemoRuns.made2 DemoRuns.raster2
       = EvFitzOpen DemoRuns.pdf
           :: flat_map (fun i => [EvGetPixmap DemoRuns.pdf i 300;
                                  EvSave (join Demo.sub
                                            (py "a" ++ py "_page_" ++ str_of_nat (i + 1)
                                               ++ py ".png"))]) (seq 0 n)
           ++ [EvDocClose DemoRuns.pdf].
Proof.
  destruct (X7_true_means_every_page_saved (Demo.demo [1; 2]%N Demo.Answers)
              DemoRuns.pdf Demo.sub DemoRuns.made2 DemoRuns.raster2)
    as (n & _ & Hev & _).
  - ends.
  - exists n. exact Hev.
Defined.

Lemma X8_false_means_a_step_raised_witness :
  EvDocClose DemoRuns.pdf
    ∉ new_events DemoRuns.made_bad
        (world_of (convert_pdf_pages_to_png (Demo.demo DemoRuns.bad Demo.Answers)
                     DemoRuns.pdf Demo.sub DemoRuns.made_bad)).
Proof.
  destruct (X8_false_means_a_step_raised (Demo.demo DemoRuns.bad Demo.Answers)
              DemoRuns.pdf Demo.sub DemoRuns.made_bad
              (world_of (convert_pdf_pages_to_png (Demo.demo DemoRuns.bad Demo.Answers)
                           DemoRuns.pdf Demo.sub DemoRuns.made_bad)))
    as (k & e & we & last & _ & _ & _ & _ & _ & Hclose).
  - ends.
  - exact Hclose.
Defined.

(** ** The folder of a document *)

Lemma pdf_suffix : py ".pdf" = extsep :: py "pdf".
Proof. reflexivity. Qed.

(** X9.  The folder of a document is named by [os.path.splitext]: for an
    entry [x.pdf] it is [x], unless [x] is empty or made of dots only, in
    which case nothing is cut and the folder is named [x.pdf].  So the
    entries [.pdf] and [.pdf.pdf] (and likewise after any number of dots)
    share one folder, while two entries whose [x] holds something else
    than dots never do. *)
Theorem X9_stem_of_a_pdf_entry (x : str) :
  sep ∉ x →
  fst (splitext (x ++ py ".pdf"))
  = (if forallb (N.eqb extsep) x then x ++ py ".pdf" else x) ∧
  (forallb (N.eqb extsep) x = true →
   fst (splitext ((x ++ py ".pdf") ++ py ".pdf")) = fst (splitext (x ++ py ".pdf"))) ∧
  (∀ y : str, sep ∉ y → forallb (N.eqb extsep) x = false → forallb (N.eqb extsep) y = false →
        fst (splitext (x ++ py ".pdf")) = fst (splitext (y ++ py ".pdf")) → x = y).
Proof.
  assert (∀ z : str, sep ∉ z →
            fst (splitext (z ++ py ".pdf"))
            = (if forallb (N.eqb extsep) z then z ++ py ".pdf" else z)) as Hstem.
  { intros z Hz. unfold splitext.
    rewrite (rfind_None sep); [|apply not_elem_of_app_2; [done|by_compute]].
    rewrite pdf_suffix, (rfind_app extsep); [|by_compute]. simpl idx.
    destruct (Z.ltb_spec (-1) (Z.of_nat (length z))); [|lia]. cbv zeta.
    unfold slice. rewrite Nat2Z.id. simpl Z.to_nat.
    rewrite take_app_length. change (Z.to_nat (-1 + 1)) with 0. rewrite drop_0.
    by destruct (forallb (N.eqb extsep) z). }
  intros Hx. split; [by apply Hstem|]. split.
  - intros Hdots. rewrite (Hstem (x ++ py ".pdf")), (Hstem x) by
      (try apply not_elem_of_app_2; try done; by_compute).
    rewrite forallb_app, Hdots.
    match goal with |- context [?a && ?b] =>
      replace b with false by reflexivity; rewrite (andb_false_r a) end.
    done.
  - intros y Hy Hdx Hdy. rewrite (Hstem x), (Hstem y), Hdx, Hdy by done. done.
Qed.

Lemma X9_stem_of_a_pdf_entry_witness :
  fst (splitext (py "invoice.v2" ++ py ".pdf")) = py "invoice.v2" ∧
  fst (splitext (py ".pdf" ++ py ".pdf")) = fst (splitext ([] ++ py ".pdf")).
Proof.
  split.
  - refine (proj1 (X9_stem_of_a_pdf_entry (py "invoice.v2") _)). by_compute.
  - refine (proj1 (proj2 (X9_stem_of_a_pdf_entry [] _)) _); [apply not_elem_of_nil|].
    reflexivity.
Defined.

(** ** Where a run writes *)

(** [mkdir -p] changes nothing but the directories on the way to its
    target. *)
Lemma mkdirs_changes fs done todo fs' :
  FS.mkdirs fs done todo = inr fs' →
  ∀ p, fs' !! p = fs !! p ∨ ∃ k, p = done ++ take k todo.
Proof.
  revert fs done. induction todo as [|c rest IH]; intros fs done; simpl.
  { intros [= <-]. auto. }
  destruct (fs !! (done ++ [c])) as [[|data]|] eqn:Hc; [| done |].
  - intros Hm p. destruct (IH _ _ Hm p) as [->|[k ->]]; [by left|].
    right. exists (S k). by rewrite <-app_assoc.
  - intros Hm p. destruct (IH _ _ Hm p) as [Hp|[k ->]].
    + destruct (decide (p = done ++ [c])) as [->|Hne].
      * right. exists 1. simpl. by rewrite take_0.
      * left. by rewrite Hp, lookup_insert_ne.
    + right. exists (S k). by rewrite <-app_assoc.
Qed.

Lemma evolves_bind {A B} P (m : M A) (k : A → M B) w :
  evolves P w (world_of (m w)) →
  (∀ a w1, m w = Ok a w1 → evolves P w1 (world_of (k a w1))) →
  evolves P w (world_of (bind m k w)).
Proof.
  intros Hm Hk. unfold bind. destruct (m w) as [a w1|e w1] eqn:Hw; [|done].
  eapply evolves_trans; [exact Hm|]. by apply Hk.
Qed.

Section Under.
Variable E : outside.
Variables folder_path model prompt : str.

Let output_folder := join folder_path (py "converted_pngs").
Let P := writes_under folder_path.

Lemma open_w_value path enc w a w1 : open_w E path enc w = Ok a w1 → a = path.
Proof.
  unfold open_w, bind, log, os_error, raise. simpl.
  destruct (FS.create _ _ _); [done|]. by intros [= <- _].
Qed.

Lemma sound_process_page_to (Q : event → Prop) sub outfile name :
  (∀ args input enc r, Q (EvRun args input enc r)) →
  (∀ text, Q (EvWrite outfile text)) →
  sound Q (process_page E model prompt sub outfile name).
Proof.
  intros Hrun Hwrite. unfold process_page.
  destruct (endswith name (py ".png")); [|apply sound_ret].
  sound_all; auto.
Qed.

Lemma sound_extract_pages_to (Q : event → Prop) sub outfile :
  (∀ args input enc r, Q (EvRun args input enc r)) →
  Q (EvListdir sub) →
  Q (EvOpenWrite outfile (py "utf-8")) →
  (∀ text, Q (EvWrite outfile text)) →
  sound Q (extract_pages E model prompt sub outfile).
Proof.
  intros Hrun Hlist Hopen Hwrite w. unfold extract_pages.
  apply evolves_bind; [by apply sound_open_w|].
  intros a w1 ->%open_w_value.
  apply sound_bind; [by apply sound_listdir|]. intros names.
  apply sound_for_each. intros name _. by apply sound_process_page_to.
Qed.

Section EntryUnder.
Variable filename : str.
Hypothesis Hplain : endswith filename (py ".pdf") = true → plain filename.

Lemma sound_entry_under :
  sound P (process_entry E folder_path model prompt output_folder filename).
Proof.
  unfold process_entry.
  destruct (endswith filename (py ".pdf")) eqn:Hpdf; [|apply sound_ret].
  specialize (Hplain eq_refl). cbv zeta.
  set (pdf_name := fst (splitext filename)).
  set (sub := join output_folder pdf_name).
  assert (plain pdf_name) as Hstem by by apply plain_stem.
  assert (∀ leaf, plain leaf → P (EvSave (join sub leaf)) ∧
                  P (EvOpenWrite (join sub leaf) (py "utf-8")) ∧
                  ∀ text, P (EvWrite (join sub leaf) text)) as Hleaf.
  { intros leaf Hl.
    assert (∀ cwd, resolve cwd (join sub leaf)
                   = resolve cwd folder_path ++ [py "converted_pngs"; pdf_name; leaf]) as Hr.
    { intros cwd. unfold sub, output_folder.
      rewrite !resolve_join by (done || apply plain_converted).
      by rewrite <-!app_assoc. }
    repeat split; intros; exists pdf_name, leaf; exact Hr. }
  apply sound_bind; [by apply sound_makedirs|]. intros _.
  apply sound_bind; [apply sound_print|]. intros _.
  apply sound_bind.
  { eapply sound_mono; [|apply sound_convert].
    intros ev Hev. destruct ev; try done. destruct Hev as [i ->].
    destruct (Hleaf _ (stem_plain_names (join folder_path filename) i)) as (Hs & _).
    exact Hs. }
  intros ok. apply sound_bind; [|intros; apply sound_print].
  destruct ok; [|apply sound_ret].
  destruct (Hleaf (pdf_name ++ py "_results.txt")) as (_ & Hopen & Hwrite).
  { destruct Hstem as (_ & Hs & _). by apply plain_results. }
  by apply sound_extract_pages_to.
Qed.

End EntryUnder.

(** The entries listed after [converted_pngs] was made are names. *)
Lemma listed_entries_plain w wa x :
  listing_ok E → fs_ok (files w) →
  makedirs E output_folder w = Ok tt wa →
  x ∈ os_order E (FS.children (files wa) (resolve (cwd w) folder_path)) →
  plain x.
Proof.
  intros Hlist Hok (_ & _ & _ & Hm)%makedirs_Ok.
  rewrite (Hlist _), elem_of_children. intros [nd Hnd].
  destruct (mkdirs_changes _ _ _ _ Hm (resolve (cwd w) folder_path ++ [x])) as [Heq|[k Hk]].
  - rewrite Heq in Hnd. apply Hok in Hnd.
    rewrite Forall_app, Forall_singleton in Hnd. tauto.
  - unfold output_folder in Hk. rewrite (resolve_join _ _ _ plain_converted) in Hk.
    simpl in Hk.
    assert (length (resolve (cwd w) folder_path) + 1 ≤ k) as Hlen.
    { apply (f_equal length) in Hk. rewrite length_app, length_take, length_app in Hk.
      simpl in Hk. lia. }
    rewrite take_ge in Hk by (rewrite length_app; simpl; lia).
    apply app_inv_head in Hk. injection Hk as ->. apply plain_converted.
Qed.

Lemma pdf_to_text_under w :
  listing_ok E → fs_ok (files w) →
  evolves P w (world_of (pdf_to_text E folder_path model prompt w)).
Proof.
  intros Hlist Hok. unfold pdf_to_text. cbv zeta. fold output_folder.
  apply evolves_bind; [by apply sound_makedirs|]. intros [] wa Hmk.
  apply evolves_bind; [apply sound_print|]. intros [] w2 [= <-].
  apply evolves_bind; [by apply sound_listdir|]. intros entries wc Hl.
  apply listdir_Ok in Hl as [-> ->]. simpl.
  pose proof Hmk as (Hca & _)%makedirs_Ok. rewrite Hca.
  apply sound_bind; [|intros; apply sound_print].
  apply sound_for_each. intros x Hx. apply sound_entry_under. intros _.
  by eapply listed_entries_plain.
Qed.

End Under.

(** What lies elsewhere is left alone. *)
Lemma pdf_to_text_elsewhere (E : outside) folder_path model prompt w p :
  listing_ok E → fs_ok (files w) →
  (∀ stem leaf, p ≠ resolve (cwd w) folder_path ++ [py "converted_pngs"; stem; leaf]) →
  let w' := world_of (pdf_to_text E folder_path model prompt w) in
  files w' !! p = files w !! p ∨ (files w !! p = None ∧ files w' !! p = Some Dir).
Proof.
  intros Hlist Hok Hp w'.
  destruct (pdf_to_text_under E folder_path model prompt w Hlist Hok)
    as (_ & evs & Ht & Hevs & _ & Hfr).
  apply Hfr. unfold touched. rewrite list_elem_of_omap.
  intros (ev & Hin & Hres). rewrite Forall_forall in Hevs. apply Hevs in Hin.
  unfold writes_under in Hin. destruct (touched_path ev) as [path|]; [|done].
  destruct Hin as (stem & leaf & Hpath). injection Hres as <-.
  by apply (Hp stem leaf).
Qed.

(** X10.  Whatever happens during a run of [pdf_to_text] on a folder whose
    entries are names, every file it saves, opens or writes lies two levels
    below [converted_pngs]: its path is
    [<folder>/converted_pngs/<stem>/<leaf>].  So everything else that
    exists stays as it is, no regular file appears elsewhere, and in
    particular the entries of the input folder, the documents among them,
    are neither changed nor removed. *)
Theorem X10_writes_stay_in_document_folders (E : outside)
    (folder_path model prompt : str) (w : world) :
  listing_ok E →
  fs_ok (files w) →
  let w' := world_of (pdf_to_text E folder_path model prompt w) in
  let d := resolve (cwd w) folder_path in
  Forall (writes_under folder_path) (new_events w w') ∧
  (∀ p, (∀ stem leaf, p ≠ d ++ [py "converted_pngs"; stem; leaf]) →
        (∀ nd, files w !! p = Some nd → files w' !! p = Some nd) ∧
        (∀ data, files w' !! p = Some (File data) → files w !! p = Some (File data))) ∧
  (∀ name nd, files w !! (d ++ [name]) = Some nd → files w' !! (d ++ [name]) = Some nd).
Proof.
  intros Hlist Hok w' d.
  pose proof (pdf_to_text_under E folder_path model prompt w Hlist Hok) as Hev.
  fold w' in Hev.
  pose proof (evolves_new_events _ _ _ Hev) as [_ Hall].
  pose proof (fun p => pdf_to_text_elsewhere E folder_path model prompt w p Hlist Hok)
    as Hout. cbv zeta in Hout. fold w' d in Hout.
  split; [done|]. split.
  - intros p Hp. destruct (Hout p Hp) as [->|[Hn Hd]]; [done|]. split.
    + intros nd. by rewrite Hn.
    + intros data. by rewrite Hd.
  - intros name nd Hnd. destruct (Hout (d ++ [name])) as [->|[Hn _]]; [|done|congruence].
    intros stem leaf H%(f_equal length). rewrite !length_app in H. simpl in H. lia.
Qed.

Lemma X10_writes_stay_in_document_folders_witness :
  files (world_of (pdf_to_text (Demo.demo [1; 2]%N Demo.Answers) Demo.folder Demo.model
                     Demo.prompt (Demo.start [1; 2]%N)))
    !! [py "d"; py "a.pdf"] = Some (File [1; 2]%N).
Proof.
  refine (proj2 (proj2 (X10_writes_stay_in_document_folders
                          (Demo.demo [1; 2]%N Demo.Answers) Demo.folder Demo.model
                          Demo.prompt (Demo.start [1; 2]%N) _ _))
            (py "a.pdf") (File [1; 2]%N) _).
  - apply demo_listing_ok.
  - apply (bool_decide_unpack _). run.
  - run.
Defined.

(** ** The exceptions that leave a run *)

Lemma prints_well_lines w w' lines :
  console w' = console w ++ lines →
  prints_well w w' → Forall (fun line => encodable line = true) lines.
Proof. intros Hc. unfold prints_well. by rewrite Hc, drop_app_length. Qed.

Lemma prints_well_later w w1 w' lines :
  console w1 = console w ++ lines → prints_well w w' → prints_well w1 w'.
Proof.
  intros Hc. unfold prints_well. rewrite Hc, length_app, <-drop_drop.
  apply Forall_drop.
Qed.

Section Grow.
Variable E : outside.

Lemma grows_same {A} (m : M A) :
  (∀ w, console (world_of (m w)) = console w) → grows m.
Proof. intros H w. exists []. by rewrite H, app_nil_r. Qed.

Lemma grows_ret {A} (a : A) : grows (ret a).
Proof. by apply grows_same. Qed.

Lemma grows_print s : grows (print s).
Proof. intros w. by exists [s]. Qed.

Lemma grows_bind {A B} (m : M A) (k : A → M B) :
  grows m → (∀ a, grows (k a)) → grows (bind m k).
Proof.
  intros Hm Hk w. unfold bind. destruct (Hm w) as [l1 H1].
  destruct (m w) as [a w1|e w1]; simpl in *; [|by exists l1].
  destruct (Hk a w1) as [l2 H2]. exists (l1 ++ l2). by rewrite H2, H1, app_assoc.
Qed.

Lemma grows_try {A} (m : M A) c h :
  grows m → (∀ e, grows (h e)) → grows (try_except m c h).
Proof.
  intros Hm Hh w. unfold try_except. destruct (Hm w) as [l1 H1].
  destruct (m w) as [a w1|e w1]; simpl in *; [by exists l1|].
  destruct (c e); [|by exists l1].
  destruct (Hh e w1) as [l2 H2]. exists (l1 ++ l2). by rewrite H2, H1, app_assoc.
Qed.

Lemma grows_for_each {A} (l : list A) body :
  (∀ x, grows (body x)) → grows (for_each l body).
Proof.
  intros Hb. induction l as [|x l IH]; simpl; [apply grows_ret|].
  apply grows_bind; [apply Hb|]. intros _. apply IH.
Qed.

Lemma grows_if {A} (b : bool) (m1 m2 : M A) :
  grows m1 → grows m2 → grows (if b then m1 else m2).
Proof. by destruct b. Qed.

Lemma grows_makedirs path : grows (makedirs E path).
Proof.
  apply grows_same. intros w. unfold makedirs, bind, log, os_error, raise. simpl.
  by destruct (FS.mkdirs _ _ _).
Qed.

Lemma grows_listdir path : grows (listdir E path).
Proof.
  apply grows_same. intros w. unfold listdir, bind, log, os_error, raise. simpl.
  by destruct (FS.node_at _ _) as [[|?]|].
Qed.

Lemma grows_open_w path enc : grows (open_w E path enc).
Proof.
  apply grows_same. intros w. unfold open_w, bind, log, os_error, raise. simpl.
  by destruct (FS.create _ _ _).
Qed.

Lemma grows_pix_save pix path : grows (pix_save E pix path).
Proof.
  apply grows_same. intros w. unfold pix_save, bind, log, os_error, raise. simpl.
  by destruct (FS.create _ _ _).
Qed.

Lemma grows_write outfile text : grows (write E outfile text).
Proof.
  apply grows_same. intros w. unfold write. destruct (encodable text); [|done].
  unfold bind, log, os_error, raise. simpl. by destruct (files w !! _) as [[|?]|].
Qed.

Lemma grows_fitz_open path : grows (fitz_open_ E path).
Proof. apply grows_same. intros w. unfold fitz_open_. by destruct (fitz_open _ _ _). Qed.

Lemma grows_get_pixmap path i dpi : grows (get_pixmap_ E path i dpi).
Proof.
  apply grows_same. intros w. unfold get_pixmap_. by destruct (get_pixmap _ _ _ _ _).
Qed.

Lemma grows_doc_close path : grows (doc_close path).
Proof. by apply grows_same. Qed.

Lemma grows_run args input enc : grows (run E args input enc).
Proof.
  apply grows_same. intros w. unfold run. by destruct (subprocess_run _ _ _ _ _).
Qed.

End Grow.

Ltac grows_step :=
  first
    [ apply grows_ret | apply grows_print | apply grows_makedirs | apply grows_listdir
    | apply grows_open_w | apply grows_write | apply grows_pix_save
    | apply grows_fitz_open | apply grows_get_pixmap | apply grows_doc_close
    | apply grows_run
    | apply grows_bind; [|intros ?]
    | apply grows_try; [|intros ?]
    | apply grows_for_each; intros ?
    | apply grows_if ].

Ltac grows_all := cbv zeta; repeat grows_step.

Section Blame.
Variable E : outside.
Hypothesis Hdecoded : decoded E.

Lemma grows_convert pdf_path output_folder :
  grows (convert_pdf_pages_to_png E pdf_path output_folder).
Proof. unfold convert_pdf_pages_to_png, render_page. grows_all. Qed.

Lemma grows_process_page model prompt folder outfile name :
  grows (process_page E model prompt folder outfile name).
Proof.
  unfold process_page. destruct (endswith name (py ".png")); [|apply grows_ret].
  grows_all.
Qed.

Lemma grows_extract_pages model prompt folder outfile :
  grows (extract_pages E model prompt folder outfile).
Proof.
  unfold extract_pages.
  repeat first [apply grows_process_page | grows_step].
Qed.

Lemma grows_process_entry folder_path model prompt output_folder filename :
  grows (process_entry E folder_path model prompt output_folder filename).
Proof.
  unfold process_entry. destruct (endswith filename (py ".pdf")); [|apply grows_ret].
  cbv zeta. repeat first [apply grows_convert | apply grows_extract_pages | grows_step].
Qed.

Lemma blames_ret {A} (a : A) : blames E (ret a).
Proof. by intros w e w'. Qed.

Lemma blames_print s : blames E (print s).
Proof. by intros w e w'. Qed.

Lemma blames_bind {A B} (m : M A) (k : A → M B) :
  blames E m → grows m → (∀ a, blames E (k a)) → blames E (bind m k).
Proof.
  intros Hm Hg Hk w e w'. unfold bind.
  destruct (Hg w) as [l1 H1].
  destruct (m w) as [a w1|e1 w1] eqn:Hw; simpl in H1.
  - intros Hr Hp. apply (Hk a w1 e w' Hr). by eapply prints_well_later.
  - intros [= <- <-]. by apply (Hm w).
Qed.

Lemma blames_for_each {A} (l : list A) body :
  (∀ x, blames E (body x)) → (∀ x, grows (body x)) → blames E (for_each l body).
Proof.
  intros Hb Hg. induction l as [|x l IH]; simpl; [apply blames_ret|].
  apply blames_bind; [apply Hb|apply Hg|]. intros _. apply IH.
Qed.

Lemma blames_makedirs path : blames E (makedirs E path).
Proof.
  intros w e w'. unfold makedirs, bind, log, os_error, raise. simpl.
  destruct (FS.mkdirs _ _ _) as [c|fs']; [|done]. intros [= <- <-] _. simpl.
  exists (EvMakedirs path). rewrite last_snoc. split; [done|]. by exists c.
Qed.

Lemma blames_listdir path : blames E (listdir E path).
Proof.
  intros w e w'. unfold listdir, bind, log, os_error, raise. simpl.
  destruct (FS.node_at _ _) as [[|?]|]; [done|..]; intros [= <- <-] _; simpl;
    exists (EvListdir path); rewrite last_snoc; (split; [done|]); by eexists.
Qed.

Lemma blames_open_w path enc : blames E (open_w E path enc).
Proof.
  intros w e w'. unfold open_w, bind, log, os_error, raise. simpl.
  destruct (FS.create _ _ _) as [c|fs']; [|done]. intros [= <- <-] _. simpl.
  exists (EvOpenWrite path enc). rewrite last_snoc. split; [done|]. by exists c.
Qed.

(** A text that can be encoded: the write fails only on the file. *)
Lemma write_Raise outfile text w e w' :
  encodable text = true →
  write E outfile text w = Raise e w' →
  last (trace w') = Some (EvWrite outfile text) ∧ ∃ c, e = Exn c (strerror E c outfile).
Proof.
  intros He. unfold write. rewrite He. unfold bind, log, os_error, raise. simpl.
  destruct (files w !! _) as [[|data]|]; [|done|]; intros [= <- <-]; simpl;
    rewrite last_snoc; (split; [done|]); by eexists.
Qed.

Lemma blames_convert pdf_path output_folder :
  blames E (convert_pdf_pages_to_png E pdf_path output_folder).
Proof.
  intros w e w' Hr.
  destruct (convert_total E pdf_path output_folder w) as (b & w1 & Hok). congruence.
Qed.

(** What a page prints names the page: when standard output takes it, the
    blocks of the page, made of this name and of decoded text, can be
    encoded, and only the invocation or the file can fail. *)
Lemma blames_process_page model prompt folder outfile name :
  blames E (process_page E model prompt folder outfile name).
Proof.
  intros w e w'. unfold process_page.
  destruct (endswith name (py ".png")); [|done].
  cbv beta iota zeta delta [try_except bind print run].
  set (w1 := with_console _ w).
  assert (∀ text u,
            encodable text = true →
            write E outfile text u = Raise e w' →
            ∃ ev, last (trace w') = Some ev ∧ culprit E e ev) as Hwrite.
  { intros text u He Hr. apply write_Raise in Hr as [Hlast Hc]; [|done].
    by exists (EvWrite outfile text). }
  assert (∀ text u e' u', write E outfile text u = Raise e' u' →
                          is_FileNotFoundError e' = false ∧ console u' = console u) as Hnf.
  { intros text u e' u'. unfold write. destruct (encodable text).
    - unfold bind, log, os_error, raise. simpl.
      destruct (files u !! _) as [[|data]|]; [|done|]; by intros [= <- <-].
    - by intros [= <- <-]. }
  destruct (subprocess_run E w1 _ _ _) as [e1|c] eqn:Hrun.
  - destruct (is_FileNotFoundError e1) eqn:He1; simpl.
    + intros Hr Hp.
      pose proof (Hnf _ _ _ _ Hr) as [_ Hc]. simpl in Hc. rewrite <-app_assoc in Hc.
      pose proof (prints_well_lines _ _ _ Hc Hp) as Hl.
      apply Forall_cons in Hl as [Hline _].
      rewrite !encodable_app, !andb_true_iff in Hline. destruct Hline as (_ & Hname & _).
      eapply Hwrite; [|exact Hr]. encodable_parts.
    + intros [= <- <-] _. simpl. eexists. rewrite last_snoc. done.
  - destruct (Hdecoded _ _ _ _ _ Hrun) as [Hout Herr].
    destruct (negb (returncode c =? 0)%Z); simpl.
    + destruct (write E outfile _ _) as [[] u|e' u] eqn:Hw; [done|].
      pose proof (Hnf _ _ _ _ Hw) as [-> Hc]. simpl in Hc. rewrite <-app_assoc in Hc.
      intros [= <- <-] Hp.
      pose proof (prints_well_lines _ _ _ Hc Hp) as Hl.
      apply Forall_cons in Hl as [Hline _].
      rewrite !encodable_app, !andb_true_iff in Hline. destruct Hline as (_ & Hname & _).
      eapply Hwrite; [|exact Hw]. encodable_parts.
    + destruct (write E outfile _ _) as [[] u|e' u] eqn:Hw; [done|].
      pose proof (Hnf _ _ _ _ Hw) as [-> Hc].
      intros [= <- <-] Hp.
      eapply Hwrite; [|exact Hw]. encodable_parts.
Qed.

Lemma blames_extract_pages model prompt folder outfile :
  blames E (extract_pages E model prompt folder outfile).
Proof.
  unfold extract_pages.
  apply blames_bind; [apply blames_open_w|apply grows_open_w|]. intros out.
  apply blames_bind; [apply blames_listdir|apply grows_listdir|]. intros names.
  apply blames_for_each; intros name;
    [apply blames_process_page|apply grows_process_page].
Qed.

Lemma blames_process_entry folder_path model prompt output_folder filename :
  blames E (process_entry E folder_path model prompt output_folder filename).
Proof.
  unfold process_entry. destruct (endswith filename (py ".pdf")); [|apply blames_ret].
  cbv zeta. apply blames_bind; [apply blames_makedirs|apply grows_makedirs|]. intros _.
  apply blames_bind; [apply blames_print|apply grows_print|]. intros _.
  apply blames_bind; [apply blames_convert|apply grows_convert|]. intros ok.
  apply blames_bind; [| |intros _; apply blames_print].
  - destruct ok; [apply blames_extract_pages|apply blames_ret].
  - destruct ok; [apply grows_extract_pages|apply grows_ret].
Qed.

Lemma blames_pdf_to_text folder_path model prompt :
  blames E (pdf_to_text E folder_path model prompt).
Proof.
  unfold pdf_to_text. cbv zeta.
  apply blames_bind; [apply blames_makedirs|apply grows_makedirs|]. intros _.
  apply blames_bind; [apply blames_print|apply grows_print|]. intros _.
  apply blames_bind; [apply blames_listdir|apply grows_listdir|]. intros entries.
  apply blames_bind; [| |intros _; apply blames_print].
  - apply blames_for_each; intros x;
      [apply blames_process_entry|apply grows_process_entry].
  - apply grows_for_each. intros x. apply grows_process_entry.
Qed.

End Blame.

(** ** A file in the way *)

Lemma mkdirs_blocked fs done t1 c t2 data :
  (∀ k, 0 < k ≤ length t1 → fs !! (done ++ take k t1) = Some Dir) →
  fs !! (done ++ t1 ++ [c]) = Some (File data) →
  FS.mkdirs fs done (t1 ++ c :: t2)
  = inl (match t2 with [] => FileExistsError | _ => NotADirectoryError end).
Proof.
  revert done. induction t1 as [|x t1 IH]; intros done Hdirs Hfile; simpl.
  { simpl in Hfile. by rewrite Hfile. }
  pose proof (Hdirs 1 ltac:(simpl; lia)) as H1. simpl in H1. rewrite take_0 in H1.
  rewrite H1. apply IH.
  - intros k Hk. specialize (Hdirs (S k) ltac:(simpl; lia)). simpl in Hdirs.
    by rewrite <-app_assoc.
  - by rewrite <-app_assoc.
Qed.

(** A run starts by making [converted_pngs]. *)
Lemma pdf_to_text_trace_head (E : outside) folder_path model prompt w :
  ∃ evs, trace (world_of (pdf_to_text E folder_path model prompt w))
         = trace w ++ EvMakedirs (join folder_path (py "converted_pngs")) :: evs.
Proof.
  unfold pdf_to_text. cbv zeta. unfold bind at 1.
  unfold makedirs, bind at 1, log, os_error, raise. simpl.
  destruct (FS.mkdirs _ _ _) as [c|fs']; simpl; [by exists []|].
  match goal with |- context [world_of (bind ?m ?k ?w0)] =>
    assert (sound (page_request model prompt) (bind m k)) as Hs;
    [|destruct (Hs w0) as (_ & evs & Ht & _); rewrite Ht] end.
  { repeat first [apply sound_process_entry | sound_step]; simpl; auto. }
  simpl. rewrite <-app_assoc. by exists evs.
Qed.

(** X11.  Take a run of [pdf_to_text] in which everything printed can be
    encoded (standard output takes it) and the texts captured from the
    runner are decoded text.  When the run ends in an exception, the call
    made last is the one that failed, and it is a call of the file system
    (creating a folder, listing a folder, opening or writing a results
    file) or an invocation of the model runner that raised something else
    than [FileNotFoundError].  So no exception of opening, rendering,
    saving or closing a document leaves [pdf_to_text], and neither does a
    missing runner; and no block fails to be encoded, since a block is made
    of a name that was printed and of decoded text. *)
Theorem X11_exceptions_that_leave_a_run (E : outside)
    (folder_path model prompt : str) (w w' : world) (e : exn) :
  decoded E →
  pdf_to_text E folder_path model prompt w = Raise e w' →
  prints_well w w' →
  ∃ ev,
    last (new_events w w') = Some ev ∧
    culprit E e ev ∧
    match ev with
    | EvMakedirs _ | EvListdir _ | EvOpenWrite _ _ | EvWrite _ _ => True
    | EvRun args _ _ r =>
        args = [py "ollama"; py "run"; model] ∧ r = inl e ∧ exn_cls e ≠ FileNotFoundError
    | _ => False
    end.
Proof.
  intros Hdec Hrun Hprints.
  destruct (blames_pdf_to_text E Hdec folder_path model prompt w e w' Hrun Hprints)
    as (ev & Hlast & Hc).
  pose proof (sound_pdf_to_text E folder_path model prompt w) as Hs.
  rewrite Hrun in Hs. simpl in Hs.
  destruct Hs as (_ & evs & Ht & Hevs & _).
  rewrite (new_events_app _ _ _ Ht). rewrite Ht in Hlast.
  destruct evs as [|ev0 evs _] using rev_ind.
  { exfalso. destruct (pdf_to_text_trace_head E folder_path model prompt w) as [evs' Hh].
    rewrite Hrun in Hh. simpl in Hh. rewrite Ht, app_nil_r in Hh.
    apply (f_equal length) in Hh. rewrite length_app in Hh. simpl in Hh. lia. }
  rewrite app_assoc, last_snoc in Hlast. injection Hlast as <-.
  exists ev0. rewrite last_snoc. split; [done|]. split; [done|].
  apply Forall_app in Hevs as [_ Hev0]. apply Forall_inv in Hev0.
  destruct ev0; simpl in *; try done.
  destruct outcome as [e'|c]; [|done]. destruct Hc as [-> Hnf].
  destruct Hev0 as [Hargs _]. split; [done|]. split; [done|].
  unfold is_FileNotFoundError in Hnf. by destruct (exn_cls e).
Qed.

(** X12.  A regular file where a directory has to be ends the run at
    once.  With the input folder in place and a regular file at
    [converted_pngs], [pdf_to_text] raises [FileExistsError] from its first
    call; with a regular file where the input folder should be it raises
    [NotADirectoryError].  Nothing is printed, listed, opened or written,
    and no document is looked at. *)
Theorem X12_file_in_the_way_ends_the_run (E : outside)
    (folder_path model prompt : str) (w : world) (data : list N) :
  let output_folder := join folder_path (py "converted_pngs") in
  let d := resolve (cwd w) folder_path in
  let stop c :=
    pdf_to_text E folder_path model prompt w
    = Raise (Exn c (strerror E c output_folder))
        (with_trace (trace w ++ [EvMakedirs output_folder]) w) in
  ((∀ k, 0 < k ≤ length d → files w !! take k d = Some Dir) →
   files w !! (d ++ [py "converted_pngs"]) = Some (File data) →
   stop FileExistsError) ∧
  ((∀ k, 0 < k < length d → files w !! take k d = Some Dir) →
   FS.node_at (files w) d = Some (File data) →
   stop NotADirectoryError).
Proof.
  intros output_folder d stop.
  assert (resolve (cwd w) output_folder = d ++ [py "converted_pngs"]) as Hres.
  { apply resolve_join, plain_converted. }
  assert (∀ c, FS.mkdirs (files w) [] (resolve (cwd w) output_folder) = inl c → stop c)
    as Hstop.
  { intros c Hm. unfold stop, pdf_to_text. cbv zeta. fold output_folder.
    unfold bind at 1. unfold makedirs, bind, log, os_error, raise. simpl.
    by rewrite Hm. }
  split.
  - intros Hdirs Hfile. apply Hstop. rewrite Hres.
    apply (mkdirs_blocked (files w) [] d (py "converted_pngs") [] data); done.
  - intros Hdirs Hfile. apply Hstop. rewrite Hres.
    destruct d as [|x d0 _] using rev_ind; [done|].
    rewrite <-app_assoc.
    apply (mkdirs_blocked (files w) [] d0 x [py "converted_pngs"] data).
    + intros k Hk. specialize (Hdirs k). rewrite length_app in Hdirs. simpl in Hdirs.
      rewrite take_app_le in Hdirs by lia. apply Hdirs. lia.
    + unfold FS.node_at in Hfile. by destruct (d0 ++ [x]) eqn:Hd; [destruct d0|].
Qed.

Lemma denied_decoded pages : decoded (DemoDenied.denied pages).
Proof. intros w args input encoding c [=]. Defined.

(** The runner may not be executed: the run ends at the first page, and
    the call made last is that invocation. *)
Lemma X11_exceptions_that_leave_a_run_witness :
  ∃ ev,
    last (new_events (Demo.start [1; 2]%N)
            (world_of (pdf_to_text (DemoDenied.denied [1; 2]%N) Demo.folder Demo.model
                         Demo.prompt (Demo.start [1; 2]%N)))) = Some ev ∧
    culprit (DemoDenied.denied [1; 2]%N) DemoDenied.PermissionError ev.
Proof.
  destruct (X11_exceptions_that_leave_a_run (DemoDenied.denied [1; 2]%N)
              Demo.folder Demo.model Demo.prompt (Demo.start [1; 2]%N)
              (world_of (pdf_to_text (DemoDenied.denied [1; 2]%N) Demo.folder Demo.model
                           Demo.prompt (Demo.start [1; 2]%N)))
              DemoDenied.PermissionError)
    as (ev & Hlast & Hc & _).
  - apply denied_decoded.
  - ends.
  - apply (bool_decide_unpack _). run.
  - exists ev. split; [exact Hlast|exact Hc].
Defined.

Lemma X12_file_in_the_way_ends_the_run_witness :
  raises (pdf_to_text (Demo.demo [1%N] Demo.Answers) Demo.folder Demo.model
            Demo.prompt DemoBlocked.blocked)
    (Exn FileExistsError (py "error")).
Proof.
  rewrite (proj1 (X12_file_in_the_way_ends_the_run (Demo.demo [1%N] Demo.Answers)
                    Demo.folder Demo.model Demo.prompt DemoBlocked.blocked [])).
  - reflexivity.
  - intros [|[|k]] Hk; [simpl in Hk; lia|run|].
    exfalso. revert Hk. vm_compute. lia.
  - run.
Defined.

(** ** The text of a results file *)

Section Answers.
Variable E : outside.
Variables model prompt folder outfile : str.
Variable answer : str → exn + completed.

Let png (name : str) : Prop := endswith name (py ".png") = true.
Let block (name : str) : option str := block_of name (answer name).
Let lines (name : str) : list str := page_lines model name (answer name).

Hypothesis Hanswer : ∀ w name,
  subprocess_run E w [py "ollama"; py "run"; model]
    (Some (request prompt (join folder name))) (Some (py "utf-8")) = answer name.

Lemma page_loop_answers names w data :
  files w !! resolve (cwd w) outfile = Some (File data) →
  (∀ name, name ∈ names → png name →
           ∃ text, block name = Some text ∧ encodable text = true) →
  ∃ w',
    for_each names (process_page E model prompt folder outfile) w = Ok tt w' ∧
    cwd w' = cwd w ∧
    files w' !! resolve (cwd w) outfile
      = Some (File (data ++ concat (omap block (filter png names)))) ∧
    (∀ p, p ≠ resolve (cwd w) outfile → files w' !! p = files w !! p) ∧
    console w' = console w ++ flat_map lines (filter png names).
Proof.
  revert w data. induction names as [|name names IH]; intros w data Hf Hall.
  { exists w. simpl. rewrite !app_nil_r. auto. }
  rewrite filter_cons. cbn [for_each]. unfold bind at 1.
  destruct (decide (png name)) as [Hn|Hn].
  - pose proof (process_page_png E model prompt folder outfile name w data Hn Hf) as Hp.
    cbv zeta in Hp. rewrite Hanswer in Hp.
    destruct (Hall name ltac:(by left) Hn) as (text & Htext & Henc). unfold block in Htext.
    rewrite Htext, Henc in Hp. rewrite Hp.
    match goal with |- context [for_each names _ ?x] => set (w1 := x) end.
    destruct (IH w1 (data ++ text)) as (w' & Hrun & Hc & Hfs & Hout & Hcon).
    { simpl. by rewrite lookup_insert_eq. }
    { intros n Hin. apply Hall. by right. }
    subst w1. simpl in Hc, Hfs, Hout, Hcon.
    exists w'. split; [done|]. split; [done|]. split; [|split].
    + rewrite Hfs. simpl. unfold block at 2. rewrite Htext. simpl.
      by rewrite <-app_assoc.
    + intros p Hp'. rewrite (Hout p Hp'). by rewrite lookup_insert_ne.
    + rewrite Hcon. simpl. by rewrite <-app_assoc.
  - unfold png in Hn. apply not_true_is_false in Hn.
    rewrite process_page_other by done. apply IH; [done|].
    intros n Hin. apply Hall. by right.
Qed.

End Answers.

(** X13.  With a runner whose answer is decided by the page it is asked
    about and which does not raise anything but [FileNotFoundError], and
    when the block of every page and the lines printed for it can be
    encoded, the [with] block of a document ends normally and leaves in
    the results file exactly the blocks of the entries ending in [.png],
    one per entry in the lexicographic order of the names: the standard
    output and a newline, or the error line.  Nothing else in the file
    system changes, and what was printed is the lines of these pages, which
    standard output takes. *)
Theorem X13_results_file_holds_the_answers (E : outside)
    (model prompt folder outfile : str) (answer : str → exn + completed)
    (w : world) (fs1 : gmap (list str) node) :
  let names := filter (fun name => endswith name (py ".png") = true)
                 (sorted (os_order E (FS.children fs1 (resolve (cwd w) folder)))) in
  (∀ w' name,
     subprocess_run E w' [py "ollama"; py "run"; model]
       (Some (prompt ++ py " File: " ++ join folder name)) (Some (py "utf-8"))
     = answer name) →
  (∀ name, name ∈ names →
     (∃ text, block_of name (answer name) = Some text ∧ encodable text = true) ∧
     Forall (fun line => encodable line = true) (page_lines model name (answer name))) →
  FS.create (files w) (resolve (cwd w) outfile) [] = inr fs1 →
  FS.is_dir fs1 (resolve (cwd w) folder) = true →
  ∃ w',
    extract_pages E model prompt folder outfile w = Ok tt w' ∧
    files w' !! resolve (cwd w) outfile
      = Some (File (concat (omap (fun name => block_of name (answer name)) names))) ∧
    (∀ p, p ≠ resolve (cwd w) outfile → files w' !! p = files w !! p) ∧
    console w'
      = console w ++ flat_map (fun name => page_lines model name (answer name)) names ∧
    prints_well w w'.
Proof.
  intros names Hanswer Hall Hc Hd.
  unfold extract_pages. unfold bind at 1.
  unfold open_w, bind at 1, log. cbn beta iota. simpl files. simpl cwd.
  rewrite Hc. cbn beta iota. unfold bind at 1.
  unfold listdir, bind at 1, log, os_error, raise. cbn beta iota.
  simpl files. simpl cwd.
  unfold FS.is_dir in Hd. destruct (FS.node_at fs1 _) as [[|?]|]; [|done..].
  match goal with |- context [for_each _ _ ?x] => set (w2 := x) end.
  destruct (page_loop_answers E model prompt folder outfile answer Hanswer
              (sorted (os_order E (FS.children fs1 (resolve (cwd w) folder)))) w2 [])
    as (w' & Hrun & _ & Hfs & Hout & Hcon).
  { simpl. apply create_spec in Hc as (-> & _). by rewrite lookup_insert_eq. }
  { intros name Hin Hpng. apply Hall. by apply list_elem_of_filter. }
  simpl in Hcon.
  exists w'. split; [exact Hrun|]. split; [exact Hfs|]. split; [|split; [exact Hcon|]].
  - intros p Hp. rewrite (Hout p Hp). simpl.
    apply create_spec in Hc as (-> & _). by rewrite lookup_insert_ne.
  - eapply prints_well_intro; [exact Hcon|].
    apply Forall_forall. intros line Hline.
    apply list_elem_of_In, in_flat_map in Hline as (name & Hname & Hline).
    apply list_elem_of_In in Hname, Hline.
    destruct (Hall name Hname) as [_ Hlines]. rewrite Forall_forall in Hlines.
    by apply Hlines.
Qed.

(** X14.  The order in which the operating system lists the folder of a
    document is of no consequence: the [with] block sorts the names, so
    with any two listing orders the same calls are made in the same order
    and the same worlds result. *)
Theorem X14_listing_order_of_pages_is_immaterial (E : outside)
    (order : list str → list str) (model prompt folder outfile : str) (w : world) :
  listing_ok E →
  (∀ l, order l ≡ₚ l) →
  extract_pages (with_order order E) model prompt folder outfile w
  = extract_pages E model prompt folder outfile w.
Proof.
  intros HE Ho. unfold extract_pages.
  change (open_w (with_order order E)) with (open_w E).
  unfold bind at 1 3. destruct (open_w E outfile _ w) as [out w1|e w1]; [|done].
  unfold bind at 1 2.
  unfold listdir, bind, log. cbn beta iota.
  destruct (FS.node_at _ _) as [[|?]|]; [|done..].
  cbn beta iota. unfold with_order at 1. cbn [os_order].
  rewrite (sorted_perm (order _) (os_order E (FS.children
             (files (with_trace (trace w1 ++ [EvListdir folder]) w1))
             (resolve (cwd (with_trace (trace w1 ++ [EvListdir folder]) w1)) folder)))).
  - reflexivity.
  - by rewrite (Ho _), (HE _).
Qed.

(** ** A document whose folder cannot be made *)

(** X15.  A regular file at the place of the folder of a document ends
    the whole run, not only this document: [makedirs] raises
    [FileExistsError], nothing catches it, and the entries after this one
    are never looked at.  The document is not opened and nothing is
    written. *)
Theorem X15_blocked_document_ends_the_loop (E : outside)
    (folder_path model prompt filename : str) (rest : list str)
    (w : world) (data : list N) :
  let output_folder := join folder_path (py "converted_pngs") in
  let pdf_name := fst (splitext filename) in
  let sub := join output_folder pdf_name in
  let top := resolve (cwd w) output_folder in
  endswith filename (py ".pdf") = true →
  plain filename →
  (∀ k, 0 < k ≤ length top → files w !! take k top = Some Dir) →
  files w !! (top ++ [pdf_name]) = Some (File data) →
  for_each (filename :: rest) (process_entry E folder_path model prompt output_folder) w
  = Raise (Exn FileExistsError (strerror E FileExistsError sub))
      (with_trace (trace w ++ [EvMakedirs sub]) w).
Proof.
  intros output_folder pdf_name sub top Hpdf Hplain Hdirs Hfile.
  cbn [for_each]. unfold bind at 1.
  rewrite (process_entry_pdf E folder_path model prompt output_folder filename w Hpdf).
  cbv zeta. fold pdf_name sub.
  assert (makedirs E sub w
          = Raise (Exn FileExistsError (strerror E FileExistsError sub))
              (with_trace (trace w ++ [EvMakedirs sub]) w)) as ->; [|done].
  unfold makedirs, bind, log, os_error, raise. simpl.
  unfold sub. rewrite resolve_join by by apply plain_stem. fold top pdf_name.
  by rewrite (mkdirs_blocked (files w) [] top pdf_name [] data).
Qed.

(** ** The driver *)

Lemma plain_results_txt : plain (py "results.txt").
Proof. apply plain_long; [by_compute|]. vm_compute. lia. Qed.

(** X16.  The driver is one run of [pdf_to_text] on the configured folder
    with the model [llama3.2-vision:latest] and its own prompt, between
    two lines on the console: its calls and the file system it leaves are
    those of this run, it raises what the run raises, and
    ["Program complete!"] is printed when the run ends normally.  So the
    first call creates [converted_pngs] in the configured folder, and
    every invocation is [ollama run llama3.2-vision:latest] with this
    prompt and the path of a page (the models are never listed, and the
    prompt defined at the top of the module is never sent).  The
    configured [output_file], [results.txt] in the input folder, is never
    written: every file written lies in a document folder, and
    [results.txt] is after the run what it was before.  (Paths are read as
    on a POSIX system, where the configured folder is one relative
    name.) *)
Theorem X16_driver_run (E : outside) (w : world) :
  let model := py "llama3.2-vision:latest" in
  let llama_prompt :=
    py "Process the following image and return ONLY in JSON format." ++ [10%N]
    ++ py "    Extract relevant key-value pairs for the invoice. Example: {"
    ++ [34%N] ++ py "invoice_number" ++ [34%N] ++ py ": 123456}." in
  let run := pdf_to_text E dataset_folder model llama_prompt
               (with_console (console w ++ [py "Initializing program..."]) w) in
  let w' := world_of (main E w) in
  let results := resolve (cwd w) output_file in
  files w' = files (world_of run) ∧
  trace w' = trace (world_of run) ∧
  (∀ e, raises (main E w) e ↔ raises run e) ∧
  (returns run tt →
   returns (main E w) tt ∧
   console w' = console (world_of run) ++ [py "Program complete!"]) ∧
  (∃ evs, new_events w w'
          = EvMakedirs (join dataset_folder (py "converted_pngs")) :: evs) ∧
  Forall (page_request model llama_prompt) (new_events w w') ∧
  (listing_ok E → fs_ok (files w) →
   Forall (writes_under dataset_folder) (new_events w w') ∧
   (∀ nd, files w !! results = Some nd → files w' !! results = Some nd) ∧
   (∀ data, files w' !! results = Some (File data) →
            files w !! results = Some (File data))).
Proof.
  intros model llama_prompt run w' results.
  set (w1 := with_console (console w ++ [py "Initializing program..."]) w) in *.
  assert (main E w
          = match run with
            | Ok _ u => print (py "Program complete!") u
            | Raise e u => Raise e u
            end) as Hmain by reflexivity.
  assert (files w' = files (world_of run) ∧ trace w' = trace (world_of run)) as [Hf Ht].
  { unfold w'. rewrite Hmain. by destruct run. }
  assert (new_events w w' = new_events w1 (world_of run)) as Hev.
  { unfold new_events. by rewrite Ht. }
  split; [done|]. split; [done|]. split; [|split; [|split; [|split]]].
  - intros e. rewrite Hmain. by destruct run.
  - unfold w'. rewrite Hmain. by destruct run as [[] u|e u].
  - destruct (pdf_to_text_trace_head E dataset_folder model llama_prompt w1) as [evs Hh].
    exists evs. rewrite Hev. by apply new_events_app.
  - rewrite Hev.
    exact (proj2 (evolves_new_events _ _ _
                    (sound_pdf_to_text E dataset_folder model llama_prompt w1))).
  - intros Hlist Hok. rewrite Hev.
    split; [exact (proj2 (evolves_new_events _ _ _
                            (pdf_to_text_under E dataset_folder model llama_prompt w1
                               Hlist Hok)))|].
    assert (results = resolve (cwd w1) dataset_folder ++ [py "results.txt"]) as Hres.
    { apply resolve_join, plain_results_txt. }
    pose proof (pdf_to_text_elsewhere E dataset_folder model llama_prompt w1 results
                  Hlist Hok) as Hout.
    cbv zeta in Hout. fold run in Hout. rewrite <-Hf in Hout. simpl in Hout.
    destruct Hout as [Hsame|[Hn Hd]].
    { intros stem leaf. rewrite Hres. intros H%(f_equal length).
      rewrite !length_app in H. simpl in H. lia. }
    + split; [intros nd|intros data]; by rewrite Hsame.
    + split; [intros nd; by rewrite Hn|intros data; by rewrite Hd].
Qed.

(** ** The new theorems at work on the demo *)

Lemma X13_results_file_holds_the_answers_witness :
  ∃ w',
    extract_pages (Demo.demo [1; 2]%N Demo.Answers) Demo.model Demo.prompt Demo.sub
      Demo.outfile DemoRuns.raster2 = Ok tt w' ∧
    files w' !! [py "d"; py "converted_pngs"; py "a"; py "a_results.txt"]
    = Some (File (py "{}" ++ [10%N] ++ py "{}" ++ [10%N])) ∧
    prints_well DemoRuns.raster2 w'.
Proof.
  destruct (X13_results_file_holds_the_answers (Demo.demo [1; 2]%N Demo.Answers)
              Demo.model Demo.prompt Demo.sub Demo.outfile
              (fun _ => inr (Completed 0 (py "{}") []))
              DemoRuns.raster2
              (fs_of (FS.create (files DemoRuns.raster2) (resolve [] Demo.outfile) [])))
    as (w' & Hrun & Hfs & _ & _ & Hprints).
  - intros w' name. reflexivity.
  - intros name Hname.
    assert (name = py "a_page_1.png" ∨ name = py "a_page_2.png") as Hcases.
    { match type of Hname with _ ∈ ?l =>
        assert (l = [py "a_page_1.png"; py "a_page_2.png"]) as Hl by run end.
      rewrite Hl, !elem_of_cons, elem_of_nil in Hname. tauto. }
    destruct Hcases as [-> | ->]; (split; [eexists; split; [reflexivity|run]|]);
      repeat constructor; run.
  - apply succeeds_fs_of. vm_compute. exact I.
  - run.
  - exists w'. split; [exact Hrun|]. split; [|exact Hprints].
    etransitivity; [exact Hfs|]. run.
Defined.

Lemma X14_listing_order_of_pages_is_immaterial_witness :
  extract_pages (with_order sorted (Demo.demo [1; 2]%N Demo.Answers)) Demo.model
    Demo.prompt Demo.sub Demo.outfile DemoRuns.raster2
  = extract_pages (Demo.demo [1; 2]%N Demo.Answers) Demo.model Demo.prompt Demo.sub
      Demo.outfile DemoRuns.raster2.
Proof.
  apply (X14_listing_order_of_pages_is_immaterial (Demo.demo [1; 2]%N Demo.Answers)
           sorted Demo.model Demo.prompt Demo.sub Demo.outfile DemoRuns.raster2).
  - apply demo_listing_ok.
  - apply sorted_Permutation.
Defined.

Lemma X15_blocked_document_ends_the_loop_witness :
  raises (for_each [py "a.pdf"; py "b.pdf"]
            (process_entry (Demo.demo [1%N] Demo.Answers) Demo.folder Demo.model
               Demo.prompt (join Demo.folder (py "converted_pngs")))
            DemoBlocked.blocked_doc)
    (Exn FileExistsError (py "error")).
Proof.
  rewrite (X15_blocked_document_ends_the_loop (Demo.demo [1%N] Demo.Answers)
             Demo.folder Demo.model Demo.prompt (py "a.pdf") [py "b.pdf"]
             DemoBlocked.blocked_doc []).
  - reflexivity.
  - run.
  - apply (bool_decide_unpack _). run.
  - intros [|[|[|k]]] Hk; [exfalso; lia|run|run|].
    exfalso. revert Hk. vm_compute. lia.
  - run.
Defined.

Lemma driver_listing_ok : listing_ok DemoDriver.driver.
Proof. intros l. apply reverse_Permutation. Defined.

(** The driver on the configured folder holding one document: the runner
    is invoked, every invocation has the driver's model and prompt, and
    the [results.txt] of the folder keeps its text. *)
Lemma X16_driver_run_witness :
  DemoDriver.invoked
    (new_events DemoDriver.start (world_of (main DemoDriver.driver DemoDriver.start)))
  = true ∧
  Forall (page_request (py "llama3.2-vision:latest")
            (py "Process the following image and return ONLY in JSON format." ++ [10%N]
             ++ py "    Extract relevant key-value pairs for the invoice. Example: {"
             ++ [34%N] ++ py "invoice_number" ++ [34%N] ++ py ": 123456}."))
    (new_events DemoDriver.start (world_of (main DemoDriver.driver DemoDriver.start))) ∧
  files (world_of (main DemoDriver.driver DemoDriver.start))
    !! [dataset_folder; py "results.txt"] = Some (File (py "keep")).
Proof.
  destruct (X16_driver_run DemoDriver.driver DemoDriver.start)
    as (_ & _ & _ & _ & _ & Hreq & Hframe).
  destruct Hframe as (_ & Hkeep & _).
  - apply driver_listing_ok.
  - apply (bool_decide_unpack _). run.
  - split; [run|]. split; [exact Hreq|].
    refine (Hkeep (File (py "keep")) _). run.
Defined.

(** ** The order of the documents *)

Lemma inner_quiet evs :
  Forall inner evs → folders_made evs = [] ∧ documents_opened evs = [].
Proof.
  induction 1 as [|ev evs Hev _ [IH1 IH2]]; [done|].
  unfold folders_made, documents_opened in *.
  destruct ev; simpl in *; done.
Qed.

Lemma folders_made_app evs evs' :
  folders_made (evs ++ evs') = folders_made evs ++ folders_made evs'.
Proof. apply omap_app. Qed.

Lemma documents_opened_app evs evs' :
  documents_opened (evs ++ evs') = documents_opened evs ++ documents_opened evs'.
Proof. apply omap_app. Qed.

Section Documents.
Variable E : outside.
Variables folder_path model prompt : str.

Let output_folder := join folder_path (py "converted_pngs").
Let body := process_entry E folder_path model prompt output_folder.
Let pdf (x : str) : Prop := endswith x (py ".pdf") = true.
Let sub (x : str) : str := join output_folder (fst (splitext x)).

Lemma convert_events pdf_path folder w b w' :
  convert_pdf_pages_to_png E pdf_path folder w = Ok b w' →
  ∃ evs, trace w' = trace w ++ EvFitzOpen pdf_path :: evs ∧ Forall inner evs.
Proof.
  destruct b.
  - intros (n & _ & Ht & _)%convert_True. eexists. split; [exact Ht|].
    apply Forall_app. split; [|by repeat constructor].
    apply Forall_forall. intros ev Hin. apply list_elem_of_In, in_flat_map in Hin.
    destruct Hin as (i & _ & [<-|[<-|[]]]); done.
  - intros (k & e & we & _ & _ & _ & Ht & fin & Hl & Hfin)%convert_False.
    eexists. split; [by rewrite Ht, Hl|].
    apply Forall_app. split.
    + apply Forall_forall. intros ev Hin. apply list_elem_of_In, in_flat_map in Hin.
      destruct Hin as (i & _ & [<-|[<-|[]]]); done.
    + destruct Hfin as [-> | [-> | ->]]; by repeat constructor.
Qed.

Lemma entry_events x w w' :
  body x w = Ok tt w' →
  ∃ evs, trace w' = trace w ++ evs ∧
         folders_made evs = (if decide (pdf x) then [sub x] else []) ∧
         documents_opened evs = (if decide (pdf x) then [join folder_path x] else []).
Proof.
  unfold body. destruct (decide (pdf x)) as [Hx|Hx].
  - rewrite (process_entry_pdf E folder_path model prompt output_folder x w Hx).
    cbv zeta. fold (sub x).
    destruct (makedirs E (sub x) w) as [[] w1|e w1] eqn:Hmk; [|done].
    apply makedirs_Ok in Hmk as (_ & _ & Ht1 & _).
    set (w1' := with_console _ w1).
    destruct (convert_pdf_pages_to_png E _ (sub x) w1') as [b w2|e w2] eqn:Hcv; [|done].
    apply convert_events in Hcv as (evs2 & Ht2 & Hin2). simpl in Ht2.
    destruct (inner_quiet evs2 Hin2) as [Hm2 Ho2].
    destruct b.
    + intros Hrest.
      assert (sound inner
                (bind (extract_pages E model prompt (sub x)
                         (join (sub x) (fst (splitext x) ++ py "_results.txt")))
                      (fun _ => print (py "Finished processing PDF: " ++ x)))) as Hs.
      { apply sound_bind; [|intros; apply sound_print].
        by apply sound_extract_pages_to. }
      destruct (Hs w2) as (_ & evs3 & Ht3 & Hin3 & _). rewrite Hrest in Ht3. simpl in Ht3.
      destruct (inner_quiet evs3 Hin3) as [Hm3 Ho3].
      exists ([EvMakedirs (sub x)] ++ (EvFitzOpen (join folder_path x) :: evs2) ++ evs3).
      split; [by rewrite Ht3, Ht2, Ht1, <-!app_assoc|].
      rewrite !folders_made_app, !documents_opened_app.
      change (folders_made (EvFitzOpen (join folder_path x) :: evs2))
        with (folders_made evs2).
      change (documents_opened (EvFitzOpen (join folder_path x) :: evs2))
        with (join folder_path x :: documents_opened evs2).
      by rewrite Hm2, Ho2, Hm3, Ho3.
    + intros [= <-]. simpl.
      exists ([EvMakedirs (sub x)] ++ EvFitzOpen (join folder_path x) :: evs2).
      split; [by rewrite Ht2, Ht1, <-!app_assoc|].
      rewrite !folders_made_app, !documents_opened_app.
      change (folders_made (EvFitzOpen (join folder_path x) :: evs2))
        with (folders_made evs2).
      change (documents_opened (EvFitzOpen (join folder_path x) :: evs2))
        with (join folder_path x :: documents_opened evs2).
      by rewrite Hm2, Ho2.
  - unfold pdf in Hx. apply not_true_is_false in Hx.
    unfold process_entry. rewrite Hx. intros [= <-]. exists []. by rewrite app_nil_r.
Qed.

Lemma loop_events l w w' :
  for_each l body w = Ok tt w' →
  ∃ evs, trace w' = trace w ++ evs ∧
         folders_made evs = map sub (filter pdf l) ∧
         documents_opened evs = map (join folder_path) (filter pdf l).
Proof.
  revert w. induction l as [|x l IH]; intros w; simpl.
  { intros [= <-]. exists []. by rewrite app_nil_r. }
  unfold bind at 1. destruct (body x w) as [[] w1|e w1] eqn:Hx; [|done].
  apply entry_events in Hx as (evs1 & Ht1 & Hm1 & Ho1).
  intros (evs2 & Ht2 & Hm2 & Ho2)%IH.
  exists (evs1 ++ evs2). split; [by rewrite Ht2, Ht1, <-app_assoc|].
  rewrite folders_made_app, documents_opened_app, Hm1, Ho1, Hm2, Ho2, filter_cons.
  by destruct (decide (pdf x)).
Qed.

End Documents.

(** X17.  A run that ends normally handles the documents in the order in
    which the input folder is listed, without sorting: the folders made
    are [converted_pngs] and then one folder per entry ending in [.pdf],
    and the documents opened are these entries, each once, in the order of
    the listing taken right after [converted_pngs] was made. *)
Theorem X17_documents_in_listing_order (E : outside)
    (folder_path model prompt : str) (w w' : world) :
  pdf_to_text E folder_path model prompt w = Ok tt w' →
  let output_folder := join folder_path (py "converted_pngs") in
  ∃ wa,
    makedirs E output_folder w = Ok tt wa ∧
    let pdfs := filter (fun x => endswith x (py ".pdf") = true)
                  (os_order E (FS.children (files wa) (resolve (cwd w) folder_path))) in
    documents_opened (new_events w w') = map (join folder_path) pdfs ∧
    folders_made (new_events w w')
    = output_folder :: map (fun x => join output_folder (fst (splitext x))) pdfs.
Proof.
  intros Hrun output_folder.
  apply pdf_to_text_Ok in Hrun as (wa & wd & Hmk & Hloop & Ht & _).
  fold output_folder in Hmk, Hloop. cbv zeta in Hloop.
  exists wa. split; [done|].
  apply makedirs_Ok in Hmk as (Hc & _ & Hta & _). rewrite Hc in Hloop.
  apply loop_events in Hloop as (evs & Htd & Hm & Ho). simpl in Htd.
  assert (new_events w w' = [EvMakedirs output_folder; EvListdir folder_path] ++ evs) as ->.
  { apply new_events_app. by rewrite Ht, Htd, Hta, <-!app_assoc. }
  rewrite folders_made_app, documents_opened_app, Hm, Ho. done.
Qed.

Lemma X17_documents_in_listing_order_witness :
  documents_opened
    (new_events (Demo.start [1; 2]%N)
       (world_of (pdf_to_text (Demo.demo [1; 2]%N Demo.Answers) Demo.folder Demo.model
                    Demo.prompt (Demo.start [1; 2]%N))))
  = [py "d/a.pdf"].
Proof.
  destruct (X17_documents_in_listing_order (Demo.demo [1; 2]%N Demo.Answers)
              Demo.folder Demo.model Demo.prompt (Demo.start [1; 2]%N)
              (world_of (pdf_to_text (Demo.demo [1; 2]%N Demo.Answers) Demo.folder
                           Demo.model Demo.prompt (Demo.start [1; 2]%N))))
    as (wa & Hmk & Ho & _).
  - ends.
  - etransitivity; [exact Ho|].
    assert (wa = world_of (makedirs (Demo.demo [1; 2]%N Demo.Answers)
                             (join Demo.folder (py "converted_pngs"))
                             (Demo.start [1; 2]%N))) as -> by (by rewrite Hmk).
    run.
Defined.
